(** * Sentinel status display: the monitoring core of [src/main.cpp]

    A shallow embedding of the firmware's monitoring core (sample history,
    value mapper, chart renderer, telemetry poller and the flag-encoded
    device mode of [loop]) together with the properties its specification
    states about it, and of what surrounds it: the boot image, the network
    scan, the connection attempt, the configuration service and [setup]. *)

From Stdlib Require Import ZArith Lia Bool.
From Stdlib Require Import Floats.SpecFloat.
From Stdlib Require DecimalString.
From stdpp Require Import base list strings.

Local Open Scope Z_scope.

(** ** Machine integers *)

(** [int] is a 32-bit two's-complement integer on the ESP32; the result of an
    [int] addition is brought back into range by wrap-around. *)
Definition INT_MIN : Z := - 2 ^ 31.
Definition INT_MAX : Z := 2 ^ 31 - 1.
Definition wrap_int (z : Z) : Z := (z + 2 ^ 31) mod 2 ^ 32 - 2 ^ 31.

(** [int] arithmetic: [/] and [%] truncate toward zero. *)
Definition iadd (a b : Z) : Z := wrap_int (a + b).
Definition isub (a b : Z) : Z := wrap_int (a - b).
Definition imul (a b : Z) : Z := wrap_int (a * b).
Definition idiv (a b : Z) : Z := wrap_int (Z.quot a b).
Definition irem (a b : Z) : Z := Z.rem a b.

Declare Scope int_scope.
Delimit Scope int_scope with int.
Arguments iadd (a b)%_int.
Arguments isub (a b)%_int.
Arguments imul (a b)%_int.
Arguments idiv (a b)%_int.
Arguments irem (a b)%_int.
Infix "+" := iadd : int_scope.
Infix "-" := isub : int_scope.
Infix "*" := imul : int_scope.
Infix "/" := idiv : int_scope.
Infix "%%" := irem (at level 40, left associativity) : int_scope.

(** [unsigned long] and [uint32_t] are 32 bits wide; differences of
    [millis()] readings are taken modulo [2^32]. *)
Definition wrap_u32 (z : Z) : Z := z mod 2 ^ 32.

(** Storing a value in an [int16_t] keeps its low 16 bits, read as a signed
    number. *)
Definition wrap_i16 (z : Z) : Z := (z + 2 ^ 15) mod 2 ^ 16 - 2 ^ 15.

(** ** Single-precision floats

    [float] is IEEE-754 binary32: 24 bits of precision, infinities at
    exponent 128.  The arithmetic is the Standard Library's executable
    specification of IEEE arithmetic instantiated at these parameters
    (round to nearest, ties to even). *)
Module F32.

Definition prec : Z := 24.
Definition emax : Z := 128.

Definition t : Type := spec_float.

Definition of_int (z : Z) : t := binary_normalize prec emax z 0 false.

Definition sub (x y : t) : t := SFsub prec emax x y.
Definition mul (x y : t) : t := SFmul prec emax x y.
Definition div (x y : t) : t := SFdiv prec emax x y.

Definition ltb (x y : t) : bool := SFltb x y.
Definition leb (x y : t) : bool := SFleb x y.

(** A binary32 value: a float whose mantissa and exponent are canonical. *)
Definition valid (x : t) : bool := valid_binary prec emax x.

Definition zero : t := S754_zero false.
Definition hundred : t := of_int 100.

(** Magnitude of a finite float rounded toward zero. *)
Definition trunc_mag (m : positive) (e : Z) : Z :=
  match e with
  | Z0 => Zpos m
  | Zpos _ => Z.shiftl (Zpos m) e
  | Zneg _ => Z.shiftr (Zpos m) (- e)
  end.

(** The value rounded toward zero; none for a NaN or an infinity. *)
Definition trunc (x : t) : option Z :=
  match x with
  | S754_zero _ => Some 0
  | S754_finite s m e => Some (cond_Zopp s (trunc_mag m e))
  | S754_infinity _ | S754_nan => None
  end.

(** The C++ conversion [(int)x]: the value is truncated toward zero.  The
    conversion of a NaN, of an infinity and of a value outside the range
    of [int] is undefined in C++; the model yields 0 there. *)
Definition to_int (x : t) : Z :=
  match trunc x with
  | Some v => if (INT_MIN <=? v) && (v <=? INT_MAX) then v else 0
  | None => 0
  end.

End F32.

Abbreviation float := F32.t (only parsing).

(** ** Value mapper *)

(** [mapValueToY]: [pct] is clamped to [0,100], then
    [yTop + (int)((100.0f - pct) * (height / 100.0f))]. *)
Definition mapValueToY (pct : float) (yTop height : Z) : Z :=
  let pct := if F32.ltb pct (F32.of_int 0) then F32.of_int 0 else pct in
  let pct := if F32.ltb F32.hundred pct then F32.of_int 100 else pct in
  (yTop + F32.to_int (F32.mul (F32.sub F32.hundred pct)
                              (F32.div (F32.of_int height) F32.hundred)))%int.

(** ** The drawing surface

    The display driver is an external collaborator; what the firmware asks
    of it is recorded as a list of commands.  Colours are RGB565 words. *)
Inductive LcdCmd : Type :=
| FillScreen (color : Z)
| FillRect (x y w h color : Z)
| DrawRect (x y w h color : Z)
| DrawFastHLine (x y w color : Z)
| DrawPixel (x y color : Z)
| DrawLine (x0 y0 x1 y1 color : Z)
| SetTextColor (color : Z)
| SetTextSize (n : Z)
| SetCursor (x y : Z)
| Print (s : string)
| PrintfPct (v : float)            (* printf("%2.0f%%", v) *)
| BootImage                        (* drawBootImage() *)
| WiFiSuccessScreen (ssid : string)          (* body of displayWiFiSuccess *)
| PairingResultScreen (success : bool) (msg : string).

(** What the driver reports back: the surface size after rotation and the
    pixel width of a text at a text size. *)
Record Panel : Type := mkPanel {
  lcd_width : Z;
  lcd_height : Z;
  textWidth : Z -> string -> Z
}.

(** ** Sample history and scalar telemetry *)

Definition HIST_SIZE : Z := 120.

Definition LAYOUT_CHARTS : Z := 0.
Definition LAYOUT_CLOCK : Z := 1.
Definition LAYOUT_MAX : Z := 2.

(** The statics written by a successful poll: the two history arrays with
    their shared cursor and wrap flag, and the latest-value scalars. *)
Record Stats : Type := mkStats {
  s_cpu_hist : list float;
  s_ram_hist : list float;
  s_hist_idx : Z;
  s_hist_full : bool;
  s_disk_used_pct : float;
  s_uptime_seconds : Z;
  s_last_timestamp_iso : string
}.

(** Reading [data[i]].  An index outside the array is undefined in C++; the
    model reads 0.0f there. *)
Definition array_get (data : list float) (i : Z) : float :=
  if i <? 0 then F32.zero else default F32.zero (data !! Z.to_nat i).

(** Writing [data[i] = v]; nothing is written outside the array. *)
Definition array_set (data : list float) (i : Z) (v : float) : list float :=
  if i <? 0 then data else <[Z.to_nat i := v]> data.

(** ** Chart panel *)

(** [points = full ? size : idx] *)
Definition points (size idx : Z) (full : bool) : Z := if full then size else idx.

(** The lambda [getVal] of [drawLineChartArea]. *)
Definition getVal (data : list float) (size idx : Z) (full : bool) (i : Z) : float :=
  if full then array_get data ((idx + i) %% size)%int else array_get data i.

(** The samples in the order in which [drawLineChartArea] visits them:
    [getVal 0 .. getVal (points - 1)]. *)
Definition snapshot (data : list float) (size idx : Z) (full : bool) : list float :=
  map (getVal data size idx full) (seqZ 0 (points size idx full)).

(** The body of the plotting loop, for [n] more iterations from index [i]. *)
Fixpoint plot_segments (data : list float) (size idx : Z) (full : bool)
    (plotX plotY plotW plotH color : Z) (n : nat) (i prevX prevY : Z) : list LcdCmd :=
  match n with
  | O => []
  | S n' =>
      let px := (plotX + (i * plotW) / (size - 1))%int in
      let py := mapValueToY (getVal data size idx full i) plotY plotH in
      DrawLine prevX prevY px py color
        :: plot_segments data size idx full plotX plotY plotW plotH color n' (i + 1)%int px py
  end.

(** Cleared area, border, title and the 25/50/75% grid. *)
Definition chart_frame (x y w h : Z) (title : string) : list LcdCmd :=
  [ FillRect x y w h 0xFFFF;
    DrawRect x y w h 0x0000;
    SetTextColor 0x0000; SetTextSize 1;
    SetCursor (x + 4)%int (y + 2)%int; Print title ]
  ++ map (fun p => DrawFastHLine (x + 1)%int
                     (mapValueToY (F32.of_int p) (y + 15)%int (h - 20)%int)
                     (w - 2)%int 0xBDF7)
         [25; 50; 75].

Definition drawLineChartArea (x y w h : Z) (data : list float) (size idx : Z)
    (full : bool) (color : Z) (title : string) : list LcdCmd :=
  let plotY := (y + 15)%int in
  let plotH := (h - 20)%int in
  let plotX := (x + 2)%int in
  let plotW := (w - 4)%int in
  let pts := points size idx full in
  if pts <=? 1 then chart_frame x y w h title
  else
    let prevX := plotX in
    let prevY := mapValueToY (getVal data size idx full 0) plotY plotH in
    chart_frame x y w h title
    ++ [DrawPixel prevX prevY color]
    ++ plot_segments data size idx full plotX plotY plotW plotH color
         (Z.to_nat (pts - 1)) 1 prevX prevY
    ++ [SetCursor (x + w - 40)%int (y + 2)%int;
        PrintfPct (getVal data size idx full (pts - 1)%int)].

Definition drawStorageBar (x y w h : Z) (usedPct : float) : list LcdCmd :=
  let usedW := F32.to_int (F32.mul (F32.of_int w) (F32.div usedPct F32.hundred)) in
  [ FillRect x y w h 0xFFFF; DrawRect x y w h 0x0000 ]
  ++ (if 0 <? usedW
      then [FillRect (x + 1)%int (y + 1)%int
              (if (usedW - 2)%int <? 0 then 0 else (usedW - 2)%int) (h - 2)%int 0xF800]
      else [])
  ++ (if usedW <? w
      then [FillRect (x + usedW + 1)%int (y + 1)%int (w - usedW - 2)%int (h - 2)%int 0x07E0]
      else [])
  ++ [ SetTextColor 0x0000; SetTextSize 1;
       SetCursor (x + 4)%int (y - 12)%int; Print "Storage";
       SetCursor (x + w - 46)%int (y - 12)%int; PrintfPct usedPct ].

(** ** Uptime readout *)

(** [String(n)] for an unsigned value: its decimal digits. *)
Definition String_of_uint (n : Z) : string :=
  DecimalString.NilZero.string_of_uint (N.to_uint (Z.to_N n)).

(** [String(n)] for an [int]. *)
Definition String_of_int (n : Z) : string :=
  DecimalString.NilZero.string_of_int (Z.to_int n).

(** [(v < 10 ? "0" : "") + String(v)] *)
Definition pad2 (v : Z) : string :=
  (if v <? 10 then "0" else "") +:+ String_of_uint v.

(** The text [up] built by [drawUptimeTopRight] from [s_uptime_seconds]. *)
Definition uptime_text (uptime_seconds : Z) : string :=
  let s := uptime_seconds in
  let days := s / 86400 in
  let s := s mod 86400 in
  let hours := s / 3600 in
  let s := s mod 3600 in
  let minutes := s / 60 in
  let seconds := s mod 60 in
  if 0 <? days
  then String_of_uint days +:+ "d " +:+ pad2 hours +:+ ":" +:+ pad2 minutes +:+ ":" +:+ pad2 seconds
  else pad2 hours +:+ ":" +:+ pad2 minutes +:+ ":" +:+ pad2 seconds.

Definition drawUptimeTopRight (lcd : Panel) (st : Stats) : list LcdCmd :=
  let up := uptime_text (s_uptime_seconds st) in
  let boxW := 140 in
  let boxH := 14 in
  let x := (lcd_width lcd - boxW - 4)%int in
  let y := 2 in
  [ FillRect x y boxW boxH 0xFFFF;
    SetTextColor 0x0000; SetTextSize 1;
    SetCursor (x + 2)%int (y + 2)%int;
    Print "Up: "; Print up ].

(** ** Device state *)

(** The five strings of the stored configuration ([s_saved_*]); the same
    record is what "/config.json" holds. *)
Record Config : Type := mkConfig {
  s_saved_ssid : string;
  s_saved_password : string;
  s_saved_ip : string;
  s_saved_port : string;
  s_saved_auth : string
}.

Definition no_config : Config := mkConfig "" "" "" "" "".

(** The statics of the firmware, and the configuration file on SPIFFS
    ([None]: no file).  Serial output, the PNG cursor and the access-point
    address take no part in what follows and are left out. *)
Record Dev : Type := mkDev {
  stats : Stats;
  saved : Config;
  s_config_complete : bool;
  s_wifi_connected : bool;
  s_success_start_time : Z;
  s_showing_success : bool;
  s_stats_active : bool;
  s_last_stats_update : Z;
  s_layout : Z;
  s_touch_down : bool;
  config_file : option Config
}.

Definition set_stats (v : Stats) (d : Dev) : Dev :=
  mkDev v (saved d) (s_config_complete d) (s_wifi_connected d) (s_success_start_time d)
    (s_showing_success d) (s_stats_active d) (s_last_stats_update d) (s_layout d)
    (s_touch_down d) (config_file d).
Definition set_saved (v : Config) (d : Dev) : Dev :=
  mkDev (stats d) v (s_config_complete d) (s_wifi_connected d) (s_success_start_time d)
    (s_showing_success d) (s_stats_active d) (s_last_stats_update d) (s_layout d)
    (s_touch_down d) (config_file d).
Definition set_config_complete (v : bool) (d : Dev) : Dev :=
  mkDev (stats d) (saved d) v (s_wifi_connected d) (s_success_start_time d)
    (s_showing_success d) (s_stats_active d) (s_last_stats_update d) (s_layout d)
    (s_touch_down d) (config_file d).
Definition set_wifi_connected (v : bool) (d : Dev) : Dev :=
  mkDev (stats d) (saved d) (s_config_complete d) v (s_success_start_time d)
    (s_showing_success d) (s_stats_active d) (s_last_stats_update d) (s_layout d)
    (s_touch_down d) (config_file d).
Definition set_success_start_time (v : Z) (d : Dev) : Dev :=
  mkDev (stats d) (saved d) (s_config_complete d) (s_wifi_connected d) v
    (s_showing_success d) (s_stats_active d) (s_last_stats_update d) (s_layout d)
    (s_touch_down d) (config_file d).
Definition set_showing_success (v : bool) (d : Dev) : Dev :=
  mkDev (stats d) (saved d) (s_config_complete d) (s_wifi_connected d) (s_success_start_time d)
    v (s_stats_active d) (s_last_stats_update d) (s_layout d)
    (s_touch_down d) (config_file d).
Definition set_stats_active (v : bool) (d : Dev) : Dev :=
  mkDev (stats d) (saved d) (s_config_complete d) (s_wifi_connected d) (s_success_start_time d)
    (s_showing_success d) v (s_last_stats_update d) (s_layout d)
    (s_touch_down d) (config_file d).
Definition set_last_stats_update (v : Z) (d : Dev) : Dev :=
  mkDev (stats d) (saved d) (s_config_complete d) (s_wifi_connected d) (s_success_start_time d)
    (s_showing_success d) (s_stats_active d) v (s_layout d)
    (s_touch_down d) (config_file d).
Definition set_layout (v : Z) (d : Dev) : Dev :=
  mkDev (stats d) (saved d) (s_config_complete d) (s_wifi_connected d) (s_success_start_time d)
    (s_showing_success d) (s_stats_active d) (s_last_stats_update d) v
    (s_touch_down d) (config_file d).
Definition set_touch_down (v : bool) (d : Dev) : Dev :=
  mkDev (stats d) (saved d) (s_config_complete d) (s_wifi_connected d) (s_success_start_time d)
    (s_showing_success d) (s_stats_active d) (s_last_stats_update d) (s_layout d)
    v (config_file d).
Definition set_config_file (v : option Config) (d : Dev) : Dev :=
  mkDev (stats d) (saved d) (s_config_complete d) (s_wifi_connected d) (s_success_start_time d)
    (s_showing_success d) (s_stats_active d) (s_last_stats_update d) (s_layout d)
    (s_touch_down d) v.

(** The statics as initialised at start-up: zero-filled arrays of
    [HIST_SIZE] floats, cursor 0, empty strings, all flags clear. *)
Definition boot_stats : Stats :=
  mkStats (replicate (Z.to_nat HIST_SIZE) F32.zero) (replicate (Z.to_nat HIST_SIZE) F32.zero)
    0 false F32.zero 0 "".

Definition boot_state (file : option Config) : Dev :=
  mkDev boot_stats no_config false false 0 false false 0 LAYOUT_CHARTS false file.

(** ** Effects

    What the firmware does to its collaborators, in program order. *)
Inductive WebBody : Type :=
| SetupPage            (* the page built by handleRoot *)
| ScanList             (* the list built by handleScan *)
| Text (s : string).

Inductive Effect : Type :=
| Lcd (c : LcdCmd)
| HttpGet (url bearer : string)    (* begin(url), Authorization header, GET *)
| HttpEnd
| Delay (ms : Z)
| WiFiDisconnect
| WiFiModeAP
| WiFiModeSTA
| WiFiBegin (ssid password : string)
| SoftAP (name : string)
| DnsStart
| DnsStop
| WebBegin
| WebSend (code : Z) (body : WebBody)
| WebRedirect (location : string)  (* Location header and a 302 *)
| FsRemove (path : string)
| FsWrite (path : string) (c : Config).

(** An action of the firmware: the state after it and what it emitted. *)
Definition Act : Type := Dev -> Dev * list Effect.

Definition skip : Act := fun d => (d, []).

Definition emit (es : list Effect) : Act := fun d => (d, es).

Definition modify (f : Dev -> Dev) : Act := fun d => (f d, []).

Definition seq_act (a b : Act) : Act :=
  fun d => let '(d1, e1) := a d in let '(d2, e2) := b d1 in (d2, e1 ++ e2).

Definition when (c : Dev -> bool) (a : Act) : Act :=
  fun d => if c d then a d else (d, []).

Declare Scope act_scope.
Delimit Scope act_scope with act.
Notation "a ;; b" := (seq_act a b) (at level 100, b at level 200, right associativity) : act_scope.

Definition lcd_do (f : Dev -> list LcdCmd) : Act := fun d => (d, map Lcd (f d)).

(** ** Layout renderer *)

Definition renderChartsLayout (lcd : Panel) (st : Stats) : list LcdCmd :=
  let margin := 8 in
  let chartW := (lcd_width lcd - 2 * margin)%int in
  let chartH := 60 in
  let x := margin in
  let y := 24 in
  [ FillScreen 0xFFFF; SetTextColor 0x0000; SetTextSize 2;
    SetCursor 6 4; Print "Sentinel Monitor" ]
  ++ drawUptimeTopRight lcd st
  ++ drawLineChartArea x y chartW chartH (s_cpu_hist st) HIST_SIZE (s_hist_idx st)
       (s_hist_full st) 0x001F "CPU"
  ++ (let y := (y + (chartH + 10))%int in
      drawLineChartArea x y chartW chartH (s_ram_hist st) HIST_SIZE (s_hist_idx st)
        (s_hist_full st) 0x07E0 "RAM"
      ++ (let y := (y + (chartH + 16))%int in
          drawStorageBar x y chartW 18 (s_disk_used_pct st))).

(** The clock text: the eight characters after the first ['T'] of the
    timestamp when it has that many, else the placeholder. *)
Definition clock_text (iso : string) : string :=
  match String.index 0 "T" iso with
  | Some tpos =>
      if (Z.of_nat tpos + 9 <=? Z.of_nat (String.length iso))
      then String.substring (tpos + 1) 8 iso
      else "--:--:--"
  | None => "--:--:--"
  end.

Definition renderClockLayout (lcd : Panel) (st : Stats) : list LcdCmd :=
  let hhmmss := clock_text (s_last_timestamp_iso st) in
  let tw := wrap_i16 (textWidth lcd 4 hhmmss) in
  let cx := ((lcd_width lcd - tw) / 2)%int in
  let cy := 24 in
  let margin := 8 in
  let x := margin in
  let w := (lcd_width lcd - 2 * margin)%int in
  let h := 48 in
  let y := 70 in
  [ FillScreen 0xFFFF; SetTextColor 0x0000; SetTextSize 4;
    SetCursor cx cy; Print hhmmss ]
  ++ drawUptimeTopRight lcd st
  ++ drawLineChartArea x y w h (s_cpu_hist st) HIST_SIZE (s_hist_idx st)
       (s_hist_full st) 0x001F "CPU"
  ++ (let y := (y + (h + 8))%int in
      drawLineChartArea x y w h (s_ram_hist st) HIST_SIZE (s_hist_idx st)
        (s_hist_full st) 0x07E0 "RAM").

Arguments renderChartsLayout : simpl never.
Arguments renderClockLayout : simpl never.

Definition redraw (lcd : Panel) (d : Dev) : list LcdCmd :=
  if s_layout d =? LAYOUT_CHARTS then renderChartsLayout lcd (stats d)
  else if s_layout d =? LAYOUT_CLOCK then renderClockLayout lcd (stats d)
  else [].

(** ** Telemetry poller *)

(** The document handed back by the JSON library.  A number read with
    [as<float>()] is held as the binary32 value that read produces.  A
    string is held with what the library's number parser makes of its text,
    as a float and as an integer (both 0 when the text is no number): the
    parser is the library's and is not modelled, so every outcome of it is
    covered. *)
#[local] Unset Elimination Schemes.
Inductive Json : Type :=
| JNull
| JBool (b : bool)
| JInt (z : Z)
| JFloat (f : float)
| JStr (s : string) (as_number : float) (as_integer : Z)
| JArr (l : list Json)
| JObj (l : list (string * Json)).
#[local] Set Elimination Schemes.

(** [v[key]]: the first member of that name; null when [v] is not an object
    or has no such member. *)
Fixpoint lookup_member (key : string) (l : list (string * Json)) : Json :=
  match l with
  | [] => JNull
  | (k, v) :: l' => if String.eqb k key then v else lookup_member key l'
  end.

Definition member (key : string) (v : Json) : Json :=
  match v with
  | JObj l => lookup_member key l
  | _ => JNull
  end.

(** [as<float>()]: the number, the number parsed from a string, or 0 when
    the variant holds none (a missing member reads as null and hence as
    0). *)
Definition as_float (v : Json) : float :=
  match v with
  | JInt z => F32.of_int z
  | JFloat f => f
  | JBool b => F32.of_int (if b then 1 else 0)
  | JStr _ f _ => f
  | JNull | JArr _ | JObj _ => F32.zero
  end.

(** [as<uint32_t>()]: the number (also the one parsed from a string) when
    it fits 32 unsigned bits, else 0. *)
Definition as_uint32 (v : Json) : Z :=
  match v with
  | JInt z => if (0 <=? z) && (z <? 2 ^ 32) then z else 0
  | JFloat f =>
      match F32.trunc f with
      | Some z => if (0 <=? z) && (z <? 2 ^ 32) then z else 0
      | None => 0
      end
  | JBool b => if b then 1 else 0
  | JStr _ _ u => if (0 <=? u) && (u <? 2 ^ 32) then u else 0
  | JNull | JArr _ | JObj _ => 0
  end.

(** [as<const char*>()]: the text of a string variant, else the null
    pointer. *)
Definition as_cstr (v : Json) : option string :=
  match v with
  | JStr s _ _ => Some s
  | _ => None
  end.

(** Assigning a [const char*] to a [String]: the null pointer leaves the
    empty string. *)
Definition String_of_cstr (p : option string) : string := default "" p.

(** The answer to one GET: the status code (negative for a transport
    failure) and what [deserializeJson] made of the body, [None] when it
    reported an error. *)
Record HttpReply : Type := mkReply {
  http_code : Z;
  http_doc : option Json
}.

(** The five values read from the document. *)
Record Reading : Type := mkReading {
  cpu_pct : float;
  ram_pct : float;
  disk_pct : float;
  uptime_secs : Z;
  timestamp : string
}.

Definition read_metrics (doc : Json) : Reading :=
  mkReading
    (as_float (member "cpu" doc))
    (as_float (member "percentage" (member "memory" doc)))
    (as_float (member "percentage" (member "disk" doc)))
    (as_uint32 (member "uptime_seconds" (member "uptime" doc)))
    (String_of_cstr (as_cstr (member "timestamp" doc))).

(** The assignments of the success branch: both arrays at the cursor, the
    disk percentage, the cursor and the wrap flag, uptime and timestamp. *)
Definition store (r : Reading) (st : Stats) : Stats :=
  let idx := s_hist_idx st in
  let idx' := ((idx + 1) %% HIST_SIZE)%int in
  mkStats
    (array_set (s_cpu_hist st) idx (cpu_pct r))
    (array_set (s_ram_hist st) idx (ram_pct r))
    idx'
    (if idx' =? 0 then true else s_hist_full st)
    (disk_pct r)
    (uptime_secs r)
    (timestamp r).

Definition is_empty (s : string) : bool :=
  match s with
  | EmptyString => true
  | String _ _ => false
  end.

Definition unpaired (c : Config) : bool :=
  is_empty (s_saved_ip c) || is_empty (s_saved_port c) || is_empty (s_saved_auth c).

Definition metrics_url (c : Config) : string :=
  "http://" +:+ s_saved_ip c +:+ ":" +:+ s_saved_port c +:+ "/metrics".

Definition metrics_request (c : Config) : Effect :=
  HttpGet (metrics_url c) ("Bearer " +:+ s_saved_auth c).

Definition updateStatsFromServer (lcd : Panel) (reply : HttpReply) : Act :=
  fun d =>
    if unpaired (saved d) then (d, [])
    else if http_code reply =? 200 then
      match http_doc reply with
      | Some doc =>
          let d' := set_stats (store (read_metrics doc) (stats d)) d in
          (d', [metrics_request (saved d)] ++ map Lcd (redraw lcd d') ++ [HttpEnd])
      | None => (d, [metrics_request (saved d); HttpEnd])
      end
    else (d, [metrics_request (saved d); HttpEnd]).

(** ** Pairing *)

Definition displayPairingResult (success : bool) (msg : string) : list Effect :=
  [Lcd (PairingResultScreen success msg); Delay 2000].

(** [pairWithSentinelServer]: the verdict and what was shown; [code] is the
    status of the GET. *)
Definition pairWithSentinelServer (c : Config) (code : Z) : bool * list Effect :=
  if unpaired c then (false, displayPairingResult false "Missing config")
  else if code =? 200
  then (true, [metrics_request c] ++ displayPairingResult true "Server OK" ++ [HttpEnd])
  else (false, [metrics_request c]
               ++ displayPairingResult false ("HTTP: " +:+ String_of_int code) ++ [HttpEnd]).

Definition displayWiFiSuccess (now : Z) : Act :=
  fun d =>
    (set_showing_success true (set_success_start_time now d),
     [Lcd (WiFiSuccessScreen (s_saved_ssid (saved d)))]).

(** The association wait: [status k] is what the [k]-th query of
    [WiFi.status()] finds; the result is the value of [attempts] on exit. *)
Fixpoint wifi_wait (status : nat -> bool) (fuel attempts : nat) : nat :=
  match fuel with
  | O => attempts
  | S fuel' => if status attempts then attempts else wifi_wait status fuel' (S attempts)
  end.

(** What one call of [connectToWiFi] meets: the association status at each
    query, the clock when the success screen is shown, and the status code
    of the pairing request. *)
Record ConnectIn : Type := mkConnectIn {
  wifi_status : nat -> bool;
  t_success : Z;
  pair_code : Z
}.

Definition connectToWiFi (i : ConnectIn) : Act :=
  fun d =>
    if is_empty (s_saved_ssid (saved d)) then (d, [])
    else
      let attempts := wifi_wait (wifi_status i) 60 0 in
      let waiting :=
        [WiFiModeSTA; WiFiBegin (s_saved_ssid (saved d)) (s_saved_password (saved d))]
        ++ replicate attempts (Delay 500) in
      if wifi_status i (S attempts) then
        let '(d1, e1) := displayWiFiSuccess (t_success i) (set_wifi_connected true d) in
        (d1, waiting ++ [DnsStop; WebBegin] ++ e1
             ++ snd (pairWithSentinelServer (saved d1) (pair_code i)))
      else
        (set_wifi_connected false d, waiting ++ [WiFiModeAP; SoftAP "Sentinel"; DnsStart]).

(** ** Configuration service *)

Inductive WebRequest : Type :=
| ReqPage                      (* any route served by handleRoot *)
| ReqScan
| ReqSave (is_post : bool) (body : option Config) (fs_ok : bool) (conn : ConnectIn)
| ReqReset.

(** [handleSave].  [body] is the outcome of decoding the request body and
    of its five [as<String>()] reads, [None] for a decoding error; [fs_ok]
    tells whether "/config.json" could be opened for writing. *)
Definition handleSave (is_post : bool) (body : option Config) (fs_ok : bool)
    (conn : ConnectIn) : Act :=
  fun d =>
    if negb is_post then (d, [WebSend 405 (Text "Method not allowed")])
    else
      match body with
      | None => (d, [WebSend 400 (Text "Invalid JSON")])
      | Some c =>
          let d1 := set_saved c d in
          if fs_ok then
            let d2 := set_config_complete true (set_config_file (Some c) d1) in
            let '(d3, e3) :=
              if negb (is_empty (s_saved_ssid c)) then connectToWiFi conn d2 else (d2, []) in
            (d3, [FsWrite "/config.json" c] ++ e3 ++ [WebSend 200 (Text "OK")])
          else (d1, [WebSend 200 (Text "OK")])
      end.

Definition handleReset : Act :=
  fun d =>
    (set_wifi_connected false
       (set_config_complete false
          (set_saved no_config (set_config_file None d))),
     [FsRemove "/config.json"; WiFiDisconnect; WiFiModeAP; SoftAP "Sentinel"; DnsStart;
      Lcd BootImage; WebRedirect "/"]).

Definition handleClient (req : option WebRequest) : Act :=
  match req with
  | None => skip
  | Some ReqPage => emit [WebSend 200 SetupPage]
  | Some ReqScan => emit [WebSend 200 ScanList]
  | Some (ReqSave is_post body fs_ok conn) => handleSave is_post body fs_ok conn
  | Some ReqReset => handleReset
  end.

(** ** Main loop *)

Definition displayMainScreen (lcd : Panel) (now : Z) (reply : HttpReply) : Act :=
  (modify (set_layout LAYOUT_CHARTS) ;;
   lcd_do (fun d => renderChartsLayout lcd (stats d)) ;;
   modify (set_stats_active true) ;;
   modify (set_last_stats_update (wrap_u32 (now - 2000))) ;;
   updateStatsFromServer lcd reply)%act.

(** What one pass of [loop] meets: the four clock readings in program order
    (the success-screen check, [displayMainScreen], the cadence check, the
    stamp of the poll), the raw touch abscissa, the answers to the GETs of
    [displayMainScreen] and of the cadence poll, and the request served by
    the configuration service, if any. *)
Record LoopIn : Type := mkLoopIn {
  t_check : Z;
  t_main : Z;
  t_due : Z;
  t_stamp : Z;
  touch_raw_x : Z;
  reply_main : HttpReply;
  reply_tick : HttpReply;
  web_request : option WebRequest
}.

(** "Check if we need to transition from success screen to main screen" *)
Definition success_elapsed (i : LoopIn) (d : Dev) : bool :=
  s_showing_success d && (1500 <=? wrap_u32 (t_check i - s_success_start_time d)).

Definition loop_transition (lcd : Panel) (i : LoopIn) : Act :=
  when (success_elapsed i)
    (modify (set_showing_success false) ;;
     displayMainScreen lcd (t_main i) (reply_main i))%act.

(** "Touch to switch layouts" *)
Definition touched (i : LoopIn) : bool := 0 <=? touch_raw_x i.

Definition loop_touch (lcd : Panel) (i : LoopIn) : Act :=
  if touched i then
    when (fun d => negb (s_touch_down d))
      (modify (set_touch_down true) ;;
       modify (fun d => set_layout ((s_layout d + 1) %% LAYOUT_MAX)%int d) ;;
       lcd_do (fun d => if s_layout d =? LAYOUT_CHARTS
                        then renderChartsLayout lcd (stats d)
                        else renderClockLayout lcd (stats d)))%act
  else modify (set_touch_down false).

(** "Periodically update stats if paired" *)
Definition poll_due (i : LoopIn) (d : Dev) : bool :=
  s_stats_active d && (2000 <=? wrap_u32 (t_due i - s_last_stats_update d)).

Definition loop_poll (lcd : Panel) (i : LoopIn) : Act :=
  when (poll_due i)
    (modify (set_last_stats_update (t_stamp i)) ;;
     updateStatsFromServer lcd (reply_tick i))%act.

(** "Process captive portal network traffic": the DNS responder changes
    none of the statics; the web server dispatches the pending request. *)
Definition loop_service (i : LoopIn) : Act :=
  (handleClient (web_request i) ;; emit [Delay 10])%act.

Definition loop (lcd : Panel) (i : LoopIn) : Act :=
  (loop_transition lcd i ;; loop_touch lcd i ;; loop_poll lcd i ;; loop_service i)%act.

(** Successive passes of [loop]. *)
Fixpoint run (lcd : Panel) (ins : list LoopIn) : Act :=
  match ins with
  | [] => skip
  | i :: ins' => (loop lcd i ;; run lcd ins')%act
  end.

(** ** Device mode

    The firmware keeps no mode variable; the mode is read off its flags:
    the access-point side is up exactly when [s_wifi_connected] is clear,
    the success screen is showing while [s_showing_success] is set, and the
    main screen has been entered once [s_stats_active] is set.  (Connecting
    is the blocking wait inside [connectToWiFi] and is never observed
    between two actions.) *)
Inductive DeviceMode : Type := Provisioning | Connecting | Pairing | Monitoring.

Definition mode_of (d : Dev) : DeviceMode :=
  if negb (s_wifi_connected d) then Provisioning
  else if s_showing_success d then Pairing
  else if s_stats_active d then Monitoring
  else Connecting.

(** ** Notions used by the statements *)

Definition is_lcd (e : Effect) : bool :=
  match e with Lcd _ => true | _ => false end.

Definition is_http_get (e : Effect) : bool :=
  match e with HttpGet _ _ => true | _ => false end.

(** Successive successful polls store their readings one after the other. *)
Definition appends (rs : list Reading) (st : Stats) : Stats :=
  fold_left (fun st r => store r st) rs st.

(** The visible window of each channel. *)
Definition cpu_snapshot (st : Stats) : list float :=
  snapshot (s_cpu_hist st) HIST_SIZE (s_hist_idx st) (s_hist_full st).

Definition ram_snapshot (st : Stats) : list float :=
  snapshot (s_ram_hist st) HIST_SIZE (s_hist_idx st) (s_hist_full st).

(** Both arrays have [HIST_SIZE] cells and the cursor points into them. *)
Definition hist_ok (st : Stats) : Prop :=
  length (s_cpu_hist st) = Z.to_nat HIST_SIZE
  /\ length (s_ram_hist st) = Z.to_nat HIST_SIZE
  /\ 0 <= s_hist_idx st < HIST_SIZE.

(** A chart mark that depends on stored samples: the first pixel, a line
    segment or the current-value label. *)
Definition is_plot (c : LcdCmd) : bool :=
  match c with
  | DrawPixel _ _ _ | DrawLine _ _ _ _ _ | PrintfPct _ => true
  | _ => false
  end.

Definition is_pixel_or_line (c : LcdCmd) : bool :=
  match c with
  | DrawPixel _ _ _ | DrawLine _ _ _ _ _ => true
  | _ => false
  end.

(** The uptime format in the words of the specification: a field is two
    decimal digits, the tens first. *)
Definition digit (v : Z) : Ascii.ascii := Ascii.ascii_of_nat (48 + Z.to_nat v).

Definition two_digits (v : Z) : string :=
  String (digit (v / 10)) (String (digit (v mod 10)) "").

Definition days_prefix (days : Z) : string :=
  if days =? 0 then "" else String_of_uint days +:+ "d ".

(** Sample inputs. *)
Definition panel_320x240 : Panel :=
  mkPanel 320 240 (fun size s => 6 * size * Z.of_nat (String.length s)).

Definition home_config : Config := mkConfig "home" "pw" "192.168.1.10" "8080" "secret".

(** A Monitoring state: configured, associated, main screen entered. *)
Definition monitoring_state : Dev :=
  mkDev boot_stats home_config true true 1000 false true 3000 LAYOUT_CHARTS false
    (Some home_config).

Definition doc_without_memory : Json :=
  JObj [ ("cpu", JInt 37);
         ("disk", JObj [("percentage", JInt 50)]);
         ("uptime", JObj [("uptime_seconds", JInt 3661)]);
         ("timestamp", JStr "2024-05-01T12:00:00Z" F32.zero 0) ].

Definition reading_a : Reading := mkReading (F32.of_int 10) (F32.of_int 20) (F32.of_int 30) 5 "".
Definition reading_b : Reading := mkReading (F32.of_int 11) (F32.of_int 21) (F32.of_int 31) 7 "".

(** [tracks arr l st]: for the channel kept in the array [arr st], [l] is
    everything stored so far, oldest first, and the array holds its last
    [HIST_SIZE] entries, entry [j] in cell [j mod HIST_SIZE]. *)
Definition tracks (arr : Stats -> list float) (l : list float) (st : Stats) : Prop :=
  length (arr st) = 120%nat
  /\ s_hist_idx st = Z.of_nat (length l mod 120)
  /\ s_hist_full st = bool_decide (120 <= length l)%nat
  /\ forall j : nat, (j < length l)%nat -> (length l <= j + 120)%nat ->
       arr st !! (j mod 120)%nat = l !! j.

(** The state in which [displayMainScreen] issues its poll. *)
Definition main_screen_state (now : Z) (d : Dev) : Dev :=
  set_last_stats_update (wrap_u32 (now - 2000))
    (set_stats_active true (set_layout LAYOUT_CHARTS d)).

(** A request by which the configuration service stores a configuration. *)
Definition stores_config (req : option WebRequest) : bool :=
  match req with
  | Some (ReqSave true (Some _) _ _) => true
  | _ => false
  end.

(** Whether the touch branch of a pass changes the layout selection, and in
    how many passes of a run it does. *)
Definition touch_toggled (lcd : Panel) (i : LoopIn) (d : Dev) : bool :=
  let d1 := fst (loop_transition lcd i d) in
  negb (s_layout (fst (loop_touch lcd i d1)) =? s_layout d1).

Fixpoint toggles (lcd : Panel) (ins : list LoopIn) (d : Dev) : nat :=
  match ins with
  | [] => 0%nat
  | i :: ins' =>
      ((if touch_toggled lcd i d then 1 else 0) + toggles lcd ins' (fst (loop lcd i d)))%nat
  end.

Definition no_reply : HttpReply := mkReply (-1) None.

Definition reply_ok : HttpReply :=
  mkReply 200 (Some (JObj [ ("cpu", JInt 37);
                            ("memory", JObj [("percentage", JInt 64)]);
                            ("disk", JObj [("percentage", JInt 50)]);
                            ("uptime", JObj [("uptime_seconds", JInt 3661)]);
                            ("timestamp", JStr "2024-05-01T12:00:00Z" F32.zero 0) ])).

Definition pass_touched : LoopIn := mkLoopIn 3500 3500 3500 3500 100 no_reply no_reply None.
Definition pass_released : LoopIn :=
  mkLoopIn 3500 3500 3500 3500 (-1) no_reply no_reply None.

Definition never_associates : ConnectIn := mkConnectIn (fun _ => false) 0 (-1).
Definition associates_at_once : ConnectIn := mkConnectIn (fun _ => true) 1000 404.

(** Storing a server configuration without a network name, then a pass at
    which the cadence is due and the server answers. *)
Definition pass_save_server_only : LoopIn :=
  mkLoopIn 4000 4000 4000 4000 (-1) no_reply no_reply
    (Some (ReqSave true (Some (mkConfig "" "" "192.168.4.2" "8080" "secret")) true
             never_associates)).

Definition pass_cadence_due : LoopIn := mkLoopIn 5000 5000 5000 5000 (-1) reply_ok reply_ok None.

(** ** Binary32 rounding, for the order of the value mapper

    The order of the mapper's results is read off the values its floats
    stand for.  A non-negative value [x] is kept as the integer
    [x * 2^scale_bits]; every exponent met is at least [-scale_bits], so
    nothing is lost. *)
Definition scale_bits : Z := 300.

(** Round to nearest, ties to even, of [m / 2^n]. *)
Definition rne (m n : Z) : Z :=
  if n <? 0 then m
  else
    let q := m / 2 ^ n in
    let r := m mod 2 ^ n in
    match 2 * r ?= 2 ^ n with
    | Lt => q
    | Eq => if Z.even q then q else q + 1
    | Gt => q + 1
    end.

(** The exponent of the binary32 grid for a number of [g] binary digits. *)
Definition fexp32 (g : Z) : Z := Z.max (g - 24) (-149).

(** The rounding [F32.mul] and [F32.sub] apply to a positive [m * 2^e]. *)
Definition round_pos (m : positive) (e : Z) : spec_float :=
  binary_round_aux 24 128 false (Z.pos m) e loc_Exact.

(** The scaled value from which a result overflows to infinity. *)
Definition cap : Z := 2 ^ (128 + scale_bits).

(** The scaled value of a non-negative float, infinity counting as [cap]. *)
Definition scaled (x : spec_float) : Z :=
  match x with
  | S754_finite false m e => Z.pos m * 2 ^ (e + scale_bits)
  | S754_infinity false => cap
  | _ => 0
  end.

(** The scaled value of the positive dyadic number [m * 2^e]. *)
Definition dyadic (m : positive) (e : Z) : Z := Z.pos m * 2 ^ (e + scale_bits).

(** The scaled value of [m * 2^e] rounded to the grid of its binade. *)
Definition ideal (m : positive) (e : Z) : Z :=
  let E := fexp32 (Z.pos (digits2_pos m) + e) in
  rne (Z.pos m * 2 ^ (e + scale_bits)) (E + scale_bits) * 2 ^ (E + scale_bits).

(** What [round_pos] can return: a zero, an infinity, or a finite float of
    at most 24 digits whose exponent is in range and at most [bound]. *)
Definition rounded_shape (x : spec_float) (bound : Z) : Prop :=
  x = S754_zero false
  \/ (exists m e, x = S754_finite false m e /\ -149 <= e <= 104 /\ e <= bound
                   /\ Z.pos m < 2 ^ 24)
  \/ x = S754_infinity false.

(** The scaled value of [100.0f]. *)
Definition scaled_hundred : Z := dyadic 13107200 (-17).

(** A binary32 value between 0 and 100 (so not a NaN). *)
Definition in_range (p : spec_float) : Prop :=
  F32.valid p = true
  /\ F32.leb (F32.of_int 0) p = true
  /\ F32.leb p F32.hundred = true.

(** [rounds_from v x]: the float [x] is the rounding of the scaled value
    [v >= 0]. *)
Inductive rounds_from (v : Z) (x : spec_float) : Prop :=
  | rf_zero : v = 0 -> x = S754_zero false -> rounds_from v x
  | rf_pos (m : positive) (e : Z) :
      - scale_bits <= e <= 104 -> v = dyadic m e -> x = round_pos m e -> rounds_from v x.

(** A zero, an infinity or a finite float, none of them negative. *)
Definition nonneg_float (x : spec_float) : Prop :=
  x = S754_zero false
  \/ (exists m e, x = S754_finite false m e /\ -149 <= e <= 104 /\ Z.pos m < 2 ^ 24)
  \/ x = S754_infinity false.

(** A float that is zero or finite and non-negative, of exponent at most 0. *)
Definition small_float (x : spec_float) : Prop :=
  x = S754_zero false
  \/ exists m e, x = S754_finite false m e /\ -149 <= e <= 0.

(** The scaled product of the scaled value [s] with [mc * 2^ec]. *)
Definition scaled_mul (s : Z) (mc : positive) (ec : Z) : Z :=
  s * dyadic mc ec / 2 ^ scale_bits.

(** Whatever it rounds, [binary_round_aux] yields a zero, a NaN, an
    infinity or a finite float whose exponent is in the binary32 range. *)
Definition in_format (s : bool) (x : spec_float) : Prop :=
  x = S754_zero s \/ x = S754_nan \/ x = S754_infinity s
  \/ exists m e, x = S754_finite s m e /\ -149 <= e <= 104.

(** The float [mapValueToY] converts, once [pct] is clamped:
    [(100.0f - pct) * (height / 100.0f)]. *)
Definition offset (p : spec_float) (h : Z) : spec_float :=
  F32.mul (F32.sub F32.hundred p) (F32.div (F32.of_int h) F32.hundred).

(** The pixel of 0% is the bottom of an area of height [h] or the pixel
    above it. *)
Definition bottom_within_one (h : Z) : bool :=
  let y := mapValueToY (F32.of_int 0) 0 h in (y =? h) || (y =? h - 1).


(** ** Boot image

    The placement [drawBootImage] computes for the embedded logo of [w] by
    [h] pixels. *)

(** The downscale loop of [drawBootImage],
    [while ((w >> scale) > lcd.width() || (h >> scale) > lcd.height())
       { ++scale; if (scale > 4) break; }],
    for at most [fuel] iterations. *)
Fixpoint scale_loop (fuel : nat) (w h W H scale : Z) : Z :=
  match fuel with
  | O => scale
  | S fuel' =>
      if (W <? Z.shiftr w scale) || (H <? Z.shiftr h scale) then
        let scale := (scale + 1)%int in
        if 4 <? scale then scale else scale_loop fuel' w h W H scale
      else scale
  end.

(** Five iterations are all the loop can make (see [scale_loop_unrolled]). *)
Definition boot_scale (w h : Z) (lcd : Panel) : Z :=
  scale_loop 5 w h (lcd_width lcd) (lcd_height lcd) 0.

(** The scale, the scaled size [dw] by [dh] and the corner
    ([s_png_x], [s_png_y]) at which the lines are pushed. *)
Record Placement : Type := mkPlacement {
  png_scale : Z;
  png_dw : Z;
  png_dh : Z;
  s_png_x : Z;
  s_png_y : Z
}.

Definition boot_placement (w h : Z) (lcd : Panel) : Placement :=
  let scale := boot_scale w h lcd in
  let dw := Z.shiftr w scale in
  let dh := Z.shiftr h scale in
  mkPlacement scale dw dh
    ((lcd_width lcd - dw) / 2)%int ((lcd_height lcd - dh) / 2)%int.

(** ** Network scan

    [handleScan] builds the list the setup page shows.  [n] is what
    [WiFi.scanNetworks()] returned (negative when the scan failed) and
    [nets] what [WiFi.SSID(i)], [WiFi.RSSI(i)] and
    [WiFi.encryptionType(i)] report for [i = 0, 1, ...]. *)
Record Network : Type := mkNetwork {
  net_ssid : string;
  net_rssi : Z;
  net_open : bool            (* encryptionType(i) == WIFI_AUTH_OPEN *)
}.

(** The double quote. *)
Definition dq : string := String (Ascii.ascii_of_nat 34) "".

(** The four [html += ...] of one listed network. *)
Definition scan_append (html : string) (net : Network) : string :=
  let ssid := net_ssid net in
  let security := if net_open net then "Open" else "Secured" in
  let html := html +:+ ("<div class=" +:+ dq +:+ "network" +:+ dq +:+ " onclick=" +:+ dq
                        +:+ "selectNetwork('" +:+ ssid +:+ "')" +:+ dq +:+ ">") in
  let html := html +:+ ("<strong>" +:+ ssid +:+ "</strong><br>") in
  let html := html +:+ ("Signal: " +:+ String_of_int (net_rssi net) +:+ " dBm | " +:+ security) in
  html +:+ "</div>".

(** The loop over the scan results: [seen] is [seenNetworks[0..uniqueCount)]. *)
Fixpoint scan_loop (nets : list Network) (seen : list string) (html : string)
    : list string * string :=
  match nets with
  | [] => (seen, html)
  | net :: rest =>
      if (32 <=? length seen)%nat then (seen, html)
      else if is_empty (net_ssid net) then scan_loop rest seen html
      else if existsb (fun s => String.eqb s (net_ssid net)) seen
           then scan_loop rest seen html
           else scan_loop rest (seen ++ [net_ssid net]) (scan_append html net)
  end.

(** The names listed and the body sent (always with status 200). *)
Definition scan_result (n : Z) (nets : list Network) : list string * string :=
  if n =? 0 then ([], "<p>No networks found</p>")
  else scan_loop (take (Z.to_nat n) nets) [] "".

Definition handleScan (n : Z) (nets : list Network) : string :=
  snd (scan_result n nets).

(** ** Start-up *)

(** [loadConfig]: the stored file, when there is one and it parses, becomes
    the configuration in memory.  The file holds the five strings
    [handleSave] wrote; [parse_ok] tells whether [deserializeJson] accepted
    it. *)
Definition loadConfig (parse_ok : bool) : Act :=
  fun d =>
    match config_file d with
    | None => (d, [])
    | Some c =>
        if parse_ok then (set_config_complete true (set_saved c d), []) else (d, [])
    end.

Definition startCaptivePortal : Act := emit [DnsStart; WebBegin].

(** What [setup] meets: whether the stored file parses, and the course of
    the connection attempt. *)
Record SetupIn : Type := mkSetupIn {
  parse_ok : bool;
  boot_conn : ConnectIn
}.

(** [setup].  The initialisation of the serial port, of the file system and
    of the display, and the registration of the routes, change none of the
    statics and have no effect recorded here. *)
Definition setup (i : SetupIn) : Act :=
  (emit [Delay 200] ;;
   loadConfig (parse_ok i) ;;
   emit [Delay 100; Delay 50; Lcd BootImage; Delay 2000] ;;
   when (fun d => negb (is_empty (s_saved_ssid (saved d)))) (connectToWiFi (boot_conn i)) ;;
   when (fun d => negb (s_wifi_connected d))
     (emit [WiFiModeAP; SoftAP "Sentinel"] ;;
      startCaptivePortal ;;
      emit [Lcd BootImage]))%act.

(** Power-on: the statics are initialised afresh, the file system keeps
    its file; then [setup] runs. *)
Definition restart (i : SetupIn) (d : Dev) : Dev * list Effect :=
  setup i (boot_state (config_file d)).


(** ** More notions used by the statements *)

(** How many effects of a list satisfy [p]. *)
Fixpoint tally (p : Effect -> bool) (es : list Effect) : nat :=
  match es with
  | [] => 0%nat
  | e :: es' => ((if p e then 1 else 0) + tally p es')%nat
  end.

Definition is_web_begin (e : Effect) : bool :=
  match e with WebBegin => true | _ => false end.

(** An answer to the web client: a response or the redirect. *)
Definition is_web_answer (e : Effect) : bool :=
  match e with WebSend _ _ | WebRedirect _ => true | _ => false end.

(** One half-second wait of the association loop. *)
Definition is_wait (e : Effect) : bool :=
  match e with Delay ms => ms =? 500 | _ => false end.

Definition is_station_attempt (e : Effect) : bool :=
  match e with WiFiBegin _ _ => true | _ => false end.

Definition is_soft_ap (e : Effect) : bool :=
  match e with SoftAP _ => true | _ => false end.

(** Every GET is ended before the next one and before the list ends;
    [open] tells whether a GET is pending at the start. *)
Fixpoint http_balanced (open : bool) (es : list Effect) : bool :=
  match es with
  | [] => negb open
  | HttpGet _ _ :: es' => if open then false else http_balanced true es'
  | HttpEnd :: es' => if open then http_balanced false es' else false
  | _ :: es' => http_balanced open es'
  end.

Definition no_http (e : Effect) : bool :=
  match e with HttpGet _ _ | HttpEnd => false | _ => true end.

(** The layout selector names one of the two layouts. *)
Definition layout_ok (d : Dev) : Prop :=
  s_layout d = LAYOUT_CHARTS \/ s_layout d = LAYOUT_CLOCK.

(** A sample the chart can place: a binary32 value other than NaN. *)
Definition plottable (p : float) : Prop := F32.valid p = true /\ p <> S754_nan.

(** Where the marks of a chart lie with respect to the plot area
    [x0..x1] by [y0..y1]: a pixel lies in it; a segment lies in it and runs
    from left to right; a grid line lies at a height of the area and runs
    from the pixel left of the area ([x0 - 1]) to its right edge ([x1]). *)
Definition mark_in_area (x0 x1 y0 y1 : Z) (c : LcdCmd) : Prop :=
  match c with
  | DrawPixel px py _ => x0 <= px <= x1 /\ y0 <= py <= y1
  | DrawLine ax ay bx b_y _ =>
      (x0 <= ax /\ ax <= bx /\ bx <= x1) /\ y0 <= ay <= y1 /\ y0 <= b_y <= y1
  | DrawFastHLine gx gy gw _ => (gx = x0 - 1 /\ gx + gw - 1 = x1) /\ y0 <= gy <= y1
  | _ => True
  end.

(** An answer the poller does not store: another status than 200, or a
    body [deserializeJson] refused. *)
Definition rejected (r : HttpReply) : Prop := http_code r <> 200 \/ http_doc r = None.

(** * Properties *)

(** ** Machine arithmetic *)

Lemma wrap_int_small (z : Z) : INT_MIN <= z <= INT_MAX -> wrap_int z = z.
Proof.
  unfold INT_MIN, INT_MAX, wrap_int. intros H.
  rewrite Z.mod_small by lia. lia.
Qed.

Lemma is_empty_true (s : string) : is_empty s = true <-> s = "".
Proof. destruct s; simpl; split; congruence. Qed.

Lemma unpaired_true (c : Config) :
  unpaired c = true <-> s_saved_ip c = "" \/ s_saved_port c = "" \/ s_saved_auth c = "".
Proof.
  unfold unpaired. rewrite !orb_true_iff, !is_empty_true. tauto.
Qed.

(** ** Telemetry poller *)

Lemma poll_unpaired (lcd : Panel) (reply : HttpReply) (d : Dev) :
  unpaired (saved d) = true -> updateStatsFromServer lcd reply d = (d, []).
Proof. intros H. unfold updateStatsFromServer. now rewrite H. Qed.

Lemma poll_rejected (lcd : Panel) (reply : HttpReply) (d : Dev) :
  http_code reply <> 200 \/ http_doc reply = None ->
  fst (updateStatsFromServer lcd reply d) = d
  /\ Forall (fun e => is_lcd e = false) (snd (updateStatsFromServer lcd reply d)).
Proof.
  intros H. unfold updateStatsFromServer.
  destruct (unpaired (saved d)); [split; [reflexivity|constructor]|].
  destruct (Z.eqb_spec (http_code reply) 200) as [E|E].
  - destruct H as [H|H]; [contradiction|]. rewrite H.
    split; [reflexivity|repeat constructor].
  - split; [reflexivity|repeat constructor].
Qed.

Lemma poll_accepted (lcd : Panel) (reply : HttpReply) (doc : Json) (d : Dev) :
  unpaired (saved d) = false -> http_code reply = 200 -> http_doc reply = Some doc ->
  let d' := set_stats (store (read_metrics doc) (stats d)) d in
  updateStatsFromServer lcd reply d
  = (d', [metrics_request (saved d)] ++ map Lcd (redraw lcd d') ++ [HttpEnd]).
Proof.
  intros Hp Hc Hd. unfold updateStatsFromServer.
  rewrite Hp, Hc, Hd. reflexivity.
Qed.

(** The stats after a poll are the old ones or the old ones with one
    reading stored; nothing else of the state changes. *)
Lemma poll_cases (lcd : Panel) (reply : HttpReply) (d : Dev) :
  fst (updateStatsFromServer lcd reply d) = d
  \/ exists r, fst (updateStatsFromServer lcd reply d) = set_stats (store r (stats d)) d.
Proof.
  unfold updateStatsFromServer.
  destruct (unpaired (saved d)); [now left|].
  destruct (http_code reply =? 200); [|now left].
  destruct (http_doc reply) as [doc|]; [|now left].
  right. now exists (read_metrics doc).
Qed.

(** ** Sample history *)

Lemma store_idx (r : Reading) (st : Stats) :
  s_hist_idx (store r st) = ((s_hist_idx st + 1) %% HIST_SIZE)%int.
Proof. reflexivity. Qed.

Lemma store_full (r : Reading) (st : Stats) :
  s_hist_full (store r st)
  = if s_hist_idx (store r st) =? 0 then true else s_hist_full st.
Proof. reflexivity. Qed.

Lemma next_cursor (n : nat) :
  ((Z.of_nat (n mod 120) + 1) %% HIST_SIZE)%int = Z.of_nat ((n + 1) mod 120).
Proof.
  assert (Hn : (n mod 120 < 120)%nat) by (apply Nat.mod_upper_bound; lia).
  unfold irem, iadd, HIST_SIZE.
  rewrite wrap_int_small by (unfold INT_MIN, INT_MAX; lia).
  rewrite Z.rem_mod_nonneg by lia.
  change 1 with (Z.of_nat 1). change 120 with (Z.of_nat 120).
  rewrite <- Nat2Z.inj_add, <- Nat2Z.inj_mod.
  f_equal. apply Nat.Div0.add_mod_idemp_l.
Qed.

Lemma mod_120_differ (j n : nat) :
  (j < n)%nat -> (n <= j + 119)%nat -> (j mod 120 <> n mod 120)%nat.
Proof.
  intros H1 H2 E.
  pose proof (Nat.div_mod_eq j 120) as Hj.
  pose proof (Nat.div_mod_eq n 120) as Hn.
  lia.
Qed.

Lemma array_get_cell (data : list float) (k : nat) (x : float) :
  data !! k = Some x -> array_get data (Z.of_nat k) = x.
Proof.
  intros H. unfold array_get.
  destruct (Z.ltb_spec (Z.of_nat k) 0); [lia|].
  now rewrite Nat2Z.id, H.
Qed.

Lemma window_cell (n i : nat) :
  (120 <= n)%nat -> (i < 120)%nat ->
  ((Z.of_nat (n mod 120) + (0 + Z.of_nat i)%Z) %% HIST_SIZE)%int
  = Z.of_nat ((n - 120 + i) mod 120).
Proof.
  intros Hn Hi.
  assert (Hm : (n mod 120 < 120)%nat) by (apply Nat.mod_upper_bound; lia).
  unfold irem, iadd, HIST_SIZE.
  rewrite wrap_int_small by (unfold INT_MIN, INT_MAX; lia).
  rewrite Z.rem_mod_nonneg by lia.
  rewrite Z.add_0_l. change 120 with (Z.of_nat 120).
  rewrite <- Nat2Z.inj_add, <- Nat2Z.inj_mod. f_equal.
  rewrite Nat.Div0.add_mod_idemp_l.
  replace (n + i)%nat with (n - 120 + i + 1 * 120)%nat by lia.
  apply Nat.Div0.mod_add.
Qed.

(** One channel of the history: an array of [Stats] together with the
    reading it receives. *)
Section Channel.

Local Open Scope Z_scope.

Variable arr : Stats -> list float.
Variable sel : Reading -> float.
Hypothesis arr_store :
  forall r st, arr (store r st) = array_set (arr st) (s_hist_idx st) (sel r).

Lemma tracks_boot : length (arr boot_stats) = 120%nat -> tracks arr [] boot_stats.
Proof.
  intros arr_boot. unfold tracks. split; [exact arr_boot|]. split; [reflexivity|].
  split; [reflexivity|]. simpl. intros j Hj. lia.
Qed.

Lemma tracks_store (l : list float) (st : Stats) (r : Reading) :
  tracks arr l st -> tracks arr (l ++ [sel r]) (store r st).
Proof.
  intros (Hlen & Hidx & Hfull & Hcell).
  assert (Hn : (length l mod 120 < 120)%nat) by (apply Nat.mod_upper_bound; lia).
  assert (Harr : arr (store r st) = <[(length l mod 120)%nat := sel r]> (arr st)).
  { rewrite arr_store, Hidx. unfold array_set.
    destruct (Z.ltb_spec (Z.of_nat (length l mod 120)) 0); [lia|].
    now rewrite Nat2Z.id. }
  unfold tracks. rewrite Harr, length_insert, length_app. simpl length.
  split; [exact Hlen|].
  assert (Hnext : s_hist_idx (store r st) = Z.of_nat ((length l + 1) mod 120)).
  { rewrite store_idx, Hidx. apply next_cursor. }
  split; [exact Hnext|]. split.
  - rewrite store_full, Hnext, Hfull.
    pose proof (Nat.div_mod_eq (length l + 1) 120) as Hd.
    pose proof (Nat.mod_upper_bound (length l + 1) 120) as Hu.
    destruct (Z.eqb_spec (Z.of_nat ((length l + 1) mod 120)) 0) as [E|E].
    + symmetry. apply bool_decide_eq_true. lia.
    + apply bool_decide_ext. lia.
  - intros j Hj1 Hj2.
    destruct (decide (j = length l)) as [->|Hne].
    + rewrite list_lookup_insert_eq by lia.
      rewrite lookup_app_r by lia. now rewrite Nat.sub_diag.
    + rewrite list_lookup_insert_ne by (apply not_eq_sym, mod_120_differ; lia).
      rewrite lookup_app_l by lia. apply Hcell; lia.
Qed.

Lemma tracks_appends_from (rs : list Reading) :
  forall l st, tracks arr l st -> tracks arr (l ++ map sel rs) (appends rs st).
Proof.
  induction rs as [|r rs IH]; intros l st H; simpl.
  - now rewrite app_nil_r.
  - replace (l ++ sel r :: map sel rs) with ((l ++ [sel r]) ++ map sel rs)
      by now rewrite <- app_assoc.
    apply IH, tracks_store, H.
Qed.

Lemma tracks_appends (rs : list Reading) :
  length (arr boot_stats) = 120%nat -> tracks arr (map sel rs) (appends rs boot_stats).
Proof. intros H. apply (tracks_appends_from rs [] boot_stats), tracks_boot, H. Qed.

(** The visible window is the last [HIST_SIZE] entries stored, oldest
    first. *)
Lemma tracks_snapshot (l : list float) (st : Stats) :
  tracks arr l st ->
  snapshot (arr st) HIST_SIZE (s_hist_idx st) (s_hist_full st)
  = drop (length l - 120) l.
Proof.
  intros (Hlen & Hidx & Hfull & Hcell).
  unfold snapshot, points. rewrite Hfull, Hidx.
  change (map ?f ?x) with (f <$> x).
  apply list_eq. intros i. rewrite list_lookup_fmap, lookup_drop.
  destruct (decide (120 <= length l)%nat) as [Hge|Hlt].
  - rewrite bool_decide_eq_true_2 by exact Hge. unfold HIST_SIZE.
    destruct (decide (i < 120)%nat) as [Hi|Hi].
    + rewrite lookup_seqZ_lt by lia. simpl.
      destruct (lookup_lt_is_Some_2 l (length l - 120 + i)) as [x Hx]; [lia|].
      rewrite Hx. f_equal. unfold getVal.
      change (array_get (arr st)
                ((Z.of_nat (length l mod 120) + (0 + Z.of_nat i)%Z) %% HIST_SIZE)%int = x).
      rewrite window_cell by lia.
      apply array_get_cell. rewrite Hcell by lia. exact Hx.
    + rewrite lookup_seqZ_ge by lia. simpl.
      symmetry. apply lookup_ge_None_2. lia.
  - rewrite bool_decide_eq_false_2 by exact Hlt.
    rewrite Nat.mod_small by lia.
    replace (length l - 120 + i)%nat with i by lia.
    destruct (decide (i < length l)%nat) as [Hi|Hi].
    + rewrite lookup_seqZ_lt by lia. simpl.
      destruct (lookup_lt_is_Some_2 l i) as [x Hx]; [lia|].
      rewrite Hx. f_equal. unfold getVal. rewrite Z.add_0_l.
      apply array_get_cell.
      rewrite <- (Nat.mod_small i 120) at 1 by lia.
      rewrite Hcell by lia. exact Hx.
    + rewrite lookup_seqZ_ge by lia. simpl.
      symmetry. apply lookup_ge_None_2. lia.
Qed.

End Channel.

Lemma cpu_tracks (rs : list Reading) :
  tracks s_cpu_hist (map cpu_pct rs) (appends rs boot_stats).
Proof. apply tracks_appends; reflexivity. Qed.

Lemma ram_tracks (rs : list Reading) :
  tracks s_ram_hist (map ram_pct rs) (appends rs boot_stats).
Proof. apply tracks_appends; reflexivity. Qed.

(** After a wrap, entry [i] of the window is the cell [(cursor + i) mod
    HIST_SIZE]. *)
Lemma snapshot_full_lookup (data : list float) (idx : Z) (i : nat) :
  0 <= idx < HIST_SIZE -> (i < 120)%nat ->
  snapshot data HIST_SIZE idx true !! i
  = Some (array_get data ((idx + Z.of_nat i) mod HIST_SIZE)).
Proof.
  unfold HIST_SIZE. intros Hidx Hi. unfold snapshot, points.
  change (map ?f ?x) with (f <$> x).
  rewrite list_lookup_fmap, lookup_seqZ_lt by lia. simpl.
  unfold getVal, irem, iadd, HIST_SIZE.
  rewrite wrap_int_small by (unfold INT_MIN, INT_MAX; lia).
  rewrite Z.rem_mod_nonneg by lia. now rewrite Z.add_0_l.
Qed.

(** C4.  Starting from the boot state, let [rs] be the readings stored by
    the successful polls so far.  After exactly 120 of them the wrap flag is
    set and the visible window of each channel has 120 entries; after fewer
    than 120 the flag is clear and the window is exactly the stored values
    in insertion order (so its length is their number); from 120 on the
    window is the last 120 stored values, oldest first, its entry [i] being
    the cell [(cursor + i) mod 120]: it starts at the cursor and ends at
    [cursor - 1] wrapped around. *)
Theorem history_window (rs : list Reading) :
  let st := appends rs boot_stats in
  (length rs = 120%nat ->
     s_hist_full st = true
     /\ length (cpu_snapshot st) = 120%nat /\ length (ram_snapshot st) = 120%nat)
  /\ ((length rs < 120)%nat ->
     s_hist_full st = false
     /\ cpu_snapshot st = map cpu_pct rs /\ ram_snapshot st = map ram_pct rs
     /\ length (cpu_snapshot st) = length rs /\ length (ram_snapshot st) = length rs)
  /\ ((120 <= length rs)%nat ->
     s_hist_full st = true
     /\ cpu_snapshot st = drop (length rs - 120) (map cpu_pct rs)
     /\ ram_snapshot st = drop (length rs - 120) (map ram_pct rs)
     /\ (forall i : nat, (i < 120)%nat ->
           cpu_snapshot st !! i
             = Some (array_get (s_cpu_hist st) ((s_hist_idx st + Z.of_nat i) mod HIST_SIZE))
           /\ ram_snapshot st !! i
             = Some (array_get (s_ram_hist st) ((s_hist_idx st + Z.of_nat i) mod HIST_SIZE)))
     /\ head (cpu_snapshot st) = Some (array_get (s_cpu_hist st) (s_hist_idx st))
     /\ last (cpu_snapshot st)
        = Some (array_get (s_cpu_hist st) ((s_hist_idx st - 1) mod HIST_SIZE))).
Proof.
  intros st.
  pose proof (cpu_tracks rs) as Hc. pose proof (ram_tracks rs) as Hr.
  pose proof (tracks_snapshot _ _ _ Hc) as Sc.
  pose proof (tracks_snapshot _ _ _ Hr) as Sr.
  fold st in Hc, Hr, Sc, Sr.
  fold (cpu_snapshot st) in Sc. fold (ram_snapshot st) in Sr.
  destruct Hc as (_ & Hidx & Hfull & _).
  rewrite length_map in Hidx. rewrite length_map in Hfull.
  rewrite length_map in Sc. rewrite length_map in Sr.
  assert (Hm : (length rs mod 120 < 120)%nat) by (apply Nat.mod_upper_bound; lia).
  assert (Hfull_ge : (120 <= length rs)%nat -> s_hist_full st = true).
  { intros H. rewrite Hfull. now apply bool_decide_eq_true_2. }
  split; [|split].
  - intros H. split; [apply Hfull_ge; lia|].
    rewrite Sc, Sr, !length_drop, !length_map. lia.
  - intros H. split; [rewrite Hfull; apply bool_decide_eq_false_2; lia|].
    replace (length rs - 120)%nat with 0%nat in * by lia.
    rewrite Sc, Sr, !drop_0, !length_map. auto.
  - intros H. split; [auto|]. split; [exact Sc|]. split; [exact Sr|].
    assert (Hpos : forall i : nat, (i < 120)%nat ->
           cpu_snapshot st !! i
             = Some (array_get (s_cpu_hist st) ((s_hist_idx st + Z.of_nat i) mod HIST_SIZE))
           /\ ram_snapshot st !! i
             = Some (array_get (s_ram_hist st) ((s_hist_idx st + Z.of_nat i) mod HIST_SIZE))).
    { intros i Hi. unfold cpu_snapshot, ram_snapshot. rewrite (Hfull_ge H).
      split; apply snapshot_full_lookup; unfold HIST_SIZE; lia. }
    split; [exact Hpos|]. split.
    + rewrite head_lookup. destruct (Hpos 0%nat) as [-> _]; [lia|].
      do 2 f_equal. rewrite Z.add_0_r. apply Z.mod_small. unfold HIST_SIZE. lia.
    + rewrite last_lookup.
      assert (Hl : length (cpu_snapshot st) = 120%nat).
      { rewrite Sc, length_drop, length_map. lia. }
      rewrite Hl. simpl. destruct (Hpos 119%nat) as [-> _]; [lia|].
      do 2 f_equal. unfold HIST_SIZE.
      replace (s_hist_idx st + Z.of_nat 119) with (s_hist_idx st - 1 + 1 * 120) by lia.
      apply Z_mod_plus_full.
Qed.

Lemma history_window_witness :
  ((2 < 120)%nat
   /\ cpu_snapshot (appends [reading_a; reading_b] boot_stats) = [F32.of_int 10; F32.of_int 11])
  /\ (length (replicate 120 reading_a) = 120%nat
      /\ s_hist_full (appends (replicate 120 reading_a) boot_stats) = true)
  /\ ((120 <= length (replicate 121 reading_b))%nat
      /\ s_hist_full (appends (replicate 121 reading_b) boot_stats) = true).
Proof.
  split; [split; [lia|]|split; (split; [vm_compute; lia|])].
  - apply (proj1 (proj2 (history_window [reading_a; reading_b]))). simpl. lia.
  - apply (proj1 (history_window (replicate 120 reading_a))). reflexivity.
  - apply (proj2 (proj2 (history_window (replicate 121 reading_b)))). vm_compute. lia.
Defined.

(** ** Telemetry poller: the claims *)

(** C3.  When the stored host, port or credential is empty, a poll changes
    nothing and does nothing: the whole device state (sample history and
    scalar telemetry included) is returned as it was and no effect is
    emitted, so no request is issued and nothing is shown. *)
Theorem poll_without_config_is_noop (lcd : Panel) (reply : HttpReply) (d : Dev) :
  s_saved_ip (saved d) = "" \/ s_saved_port (saved d) = "" \/ s_saved_auth (saved d) = "" ->
  updateStatsFromServer lcd reply d = (d, []).
Proof. intros H. apply poll_unpaired, unpaired_true, H. Qed.

Lemma poll_without_config_is_noop_witness :
  (s_saved_ip (saved (boot_state None)) = ""
   \/ s_saved_port (saved (boot_state None)) = ""
   \/ s_saved_auth (saved (boot_state None)) = "")
  /\ updateStatsFromServer panel_320x240 (mkReply 200 (Some doc_without_memory))
       (boot_state None)
     = (boot_state None, []).
Proof.
  split; [left; reflexivity|].
  apply (poll_without_config_is_noop panel_320x240 _ (boot_state None)).
  left. reflexivity.
Defined.

(** C1, as the claim states it, fails: a 200 answer whose body decodes but
    has no memory member is not discarded.  The missing percentage reads as
    0, the sample is stored, the cursor advances and the layout is
    redrawn. *)
Lemma missing_memory_is_ingested :
  let r := updateStatsFromServer panel_320x240 (mkReply 200 (Some doc_without_memory))
             monitoring_state in
  member "memory" doc_without_memory = JNull
  /\ stats (fst r) <> stats monitoring_state
  /\ s_hist_idx (stats (fst r)) = 1
  /\ s_uptime_seconds (stats (fst r)) = 3661
  /\ Exists (fun e => is_lcd e = true) (snd r).
Proof.
  split; [reflexivity|]. split; [|split; [reflexivity|split; [reflexivity|]]].
  - intros H. apply (f_equal s_hist_idx) in H. vm_compute in H. discriminate.
  - apply Exists_cons_tl, Exists_cons_hd. reflexivity.
Qed.

(** What the reads of [updateStatsFromServer] find where a member is
    missing: a missing member reads as null. *)
Lemma member_of_missing (key : string) : member key JNull = JNull.
Proof. reflexivity. Qed.

(** C1, amended.  A poll whose answer is not a 200, or whose body
    [deserializeJson] rejects, is discarded whole: the device state (history
    arrays, cursor, wrap flag, disk percentage, uptime, timestamp) is
    unchanged and nothing is drawn.  A 200 answer whose body decodes is
    stored whole: both arrays are written at the cursor, the cursor
    advances (the wrap flag is set when it returns to 0), the three scalars
    are replaced, nothing else changes, and the layout is redrawn between
    the request and its end.  A number that is present is stored as read (a
    string in its place as the number the library parses from it); every
    member that is missing is read as its default: a missing processor,
    memory or disk percentage as 0.0, a missing uptime as 0 and a missing
    timestamp as the empty string. *)
Theorem poll_is_all_or_nothing (lcd : Panel) (reply : HttpReply) (d : Dev) :
  (http_code reply <> 200 \/ http_doc reply = None ->
     fst (updateStatsFromServer lcd reply d) = d
     /\ Forall (fun e => is_lcd e = false) (snd (updateStatsFromServer lcd reply d)))
  /\ (forall doc, unpaired (saved d) = false -> http_code reply = 200 ->
        http_doc reply = Some doc ->
        let d' := fst (updateStatsFromServer lcd reply d) in
        let st := stats d in
        let r := read_metrics doc in
        let next := ((s_hist_idx st + 1) %% HIST_SIZE)%int in
        (* stored whole, and nothing else changed *)
        (d' = set_stats (stats d') d
         /\ stats d' = store r st
         /\ stats d'
            = mkStats (array_set (s_cpu_hist st) (s_hist_idx st) (cpu_pct r))
                (array_set (s_ram_hist st) (s_hist_idx st) (ram_pct r))
                next (if next =? 0 then true else s_hist_full st)
                (disk_pct r) (uptime_secs r) (timestamp r)
         /\ (0 <= s_hist_idx st ->
             s_cpu_hist (stats d') = <[Z.to_nat (s_hist_idx st) := cpu_pct r]> (s_cpu_hist st)
             /\ s_ram_hist (stats d')
                = <[Z.to_nat (s_hist_idx st) := ram_pct r]> (s_ram_hist st)))
        (* redrawn *)
        /\ (snd (updateStatsFromServer lcd reply d)
            = [HttpGet ("http://" +:+ s_saved_ip (saved d) +:+ ":" +:+ s_saved_port (saved d)
                        +:+ "/metrics")
                 ("Bearer " +:+ s_saved_auth (saved d))]
              ++ map Lcd (redraw lcd d') ++ [HttpEnd]
            /\ (s_layout d = LAYOUT_CHARTS \/ s_layout d = LAYOUT_CLOCK ->
                exists rest, redraw lcd d' = FillScreen 0xFFFF :: rest))
        (* a missing member reads as its default *)
        /\ ((member "cpu" doc = JNull -> cpu_pct r = S754_zero false)
            /\ (member "memory" doc = JNull -> ram_pct r = S754_zero false)
            /\ (member "percentage" (member "memory" doc) = JNull ->
                ram_pct r = S754_zero false)
            /\ (member "disk" doc = JNull -> disk_pct r = S754_zero false)
            /\ (member "percentage" (member "disk" doc) = JNull ->
                disk_pct r = S754_zero false)
            /\ (member "uptime" doc = JNull -> uptime_secs r = 0)
            /\ (member "uptime_seconds" (member "uptime" doc) = JNull -> uptime_secs r = 0)
            /\ (member "timestamp" doc = JNull -> timestamp r = ""))
        (* a member that is present is stored as read *)
        /\ ((forall z, member "cpu" doc = JInt z -> cpu_pct r = F32.of_int z)
            /\ (forall f, member "cpu" doc = JFloat f -> cpu_pct r = f)
            /\ (forall z, member "percentage" (member "memory" doc) = JInt z ->
                ram_pct r = F32.of_int z)
            /\ (forall f, member "percentage" (member "memory" doc) = JFloat f ->
                ram_pct r = f)
            /\ (forall z, member "percentage" (member "disk" doc) = JInt z ->
                disk_pct r = F32.of_int z)
            /\ (forall f, member "percentage" (member "disk" doc) = JFloat f ->
                disk_pct r = f)
            /\ (forall z, 0 <= z < 2 ^ 32 ->
                member "uptime_seconds" (member "uptime" doc) = JInt z -> uptime_secs r = z)
            /\ (forall s f u, member "timestamp" doc = JStr s f u -> timestamp r = s)
            (* a string where a number is read: the number the library parses *)
            /\ (forall s f u, member "cpu" doc = JStr s f u -> cpu_pct r = f)
            /\ (forall s f u, member "percentage" (member "memory" doc) = JStr s f u ->
                ram_pct r = f)
            /\ (forall s f u, member "percentage" (member "disk" doc) = JStr s f u ->
                disk_pct r = f)
            /\ (forall s f u, 0 <= u < 2 ^ 32 ->
                member "uptime_seconds" (member "uptime" doc) = JStr s f u ->
                uptime_secs r = u))).
Proof.
  split; [apply poll_rejected|].
  intros doc Hp Hc Hd d' st r next. subst d' st r next.
  rewrite (poll_accepted lcd reply doc d Hp Hc Hd). cbn [fst snd].
  split; [|split; [|split]].
  - split; [reflexivity|]. split; [reflexivity|]. split; [reflexivity|].
    intros Hidx. cbn [stats set_stats store s_cpu_hist s_ram_hist]. unfold array_set.
    destruct (Z.ltb_spec (s_hist_idx (stats d)) 0) as [|_]; [lia|]. split; reflexivity.
  - split; [reflexivity|]. intros Hl. unfold redraw.
    change (s_layout (set_stats ?x d)) with (s_layout d).
    destruct Hl as [-> | ->]; cbn [Z.eqb LAYOUT_CHARTS LAYOUT_CLOCK].
    + unfold renderChartsLayout. cbv zeta. eexists. reflexivity.
    + unfold renderClockLayout. cbv zeta. eexists. reflexivity.
  - unfold read_metrics. cbn [cpu_pct ram_pct disk_pct uptime_secs timestamp].
    repeat split; intros H; rewrite ?H, ?member_of_missing; reflexivity.
  - unfold read_metrics. cbn [cpu_pct ram_pct disk_pct uptime_secs timestamp].
    repeat split; try (intros z H; rewrite H; reflexivity);
      try (intros s f u H; rewrite H; reflexivity).
    + intros z Hz H. rewrite H. cbn [as_uint32].
      destruct (Z.leb_spec 0 z); [|lia]. destruct (Z.ltb_spec z (2 ^ 32)); [reflexivity|lia].
    + intros s f u Hu H. rewrite H. cbn [as_uint32].
      destruct (Z.leb_spec 0 u); [|lia]. destruct (Z.ltb_spec u (2 ^ 32)); [reflexivity|lia].
Qed.

Lemma poll_is_all_or_nothing_witness :
  ((404 <> 200 \/ http_doc (mkReply 404 None) = None)
   /\ fst (updateStatsFromServer panel_320x240 (mkReply 404 None) monitoring_state)
      = monitoring_state)
  /\ ((unpaired (saved monitoring_state) = false /\ http_code reply_ok = 200)
      /\ s_hist_idx (stats (fst (updateStatsFromServer panel_320x240 reply_ok
                                   monitoring_state))) = 1).
Proof.
  split.
  - split; [left; lia|].
    apply (proj1 (poll_is_all_or_nothing panel_320x240 (mkReply 404 None) monitoring_state)).
    left. simpl. lia.
  - split; [split; reflexivity|].
    destruct (proj2 (poll_is_all_or_nothing panel_320x240 reply_ok monitoring_state)
                _ eq_refl eq_refl eq_refl) as ((_ & E & _) & _).
    rewrite E. reflexivity.
Defined.

(** ** Value mapper *)

Lemma mapValueToY_layout_heights :
  mapValueToY (F32.of_int 0) 0 40 = 40 /\ mapValueToY (F32.of_int 0) 0 28 = 28
  /\ mapValueToY (F32.of_int 100) 0 40 = 0 /\ mapValueToY (F32.of_int 100) 0 28 = 0.
Proof. vm_compute. auto. Qed.

(** At and above 100 the mapper returns the top pixel, for every height. *)
Lemma mapValueToY_top_endpoint (p : float) (t h : Z) :
  F32.leb F32.hundred p = true -> mapValueToY p t h = wrap_int (t + 0).
Proof.
  intros Hp.
  assert (Hzero : forall c, F32.to_int (F32.mul (S754_zero false) c) = 0)
    by (intros [ | | | ]; reflexivity).
  assert (Hsub : F32.sub F32.hundred (F32.of_int 100) = S754_zero false)
    by (vm_compute; reflexivity).
  assert (Hpos : F32.ltb p (F32.of_int 0) = false).
  { unfold F32.leb, SFleb in Hp.
    destruct p as [s|s| |s m e]; try discriminate; destruct s; try discriminate;
      reflexivity. }
  assert (Hclamp : (if F32.ltb F32.hundred p then F32.of_int 100 else p) = F32.of_int 100).
  { unfold F32.leb, F32.ltb, SFleb, SFltb in *.
    destruct (SFcompare F32.hundred p) as [[ | | ]|] eqn:E; try discriminate; [|reflexivity].
    destruct p as [s|s| |s m e]; try (destruct s); try discriminate.
    change F32.hundred with (S754_finite false 13107200 (-17)) in E.
    cbn [SFcompare] in E.
    destruct (Z.compare_spec (-17) e) as [He|He|He]; try discriminate.
    injection E as E. apply Pcompare_Eq_eq in E. subst. reflexivity. }
  unfold mapValueToY. rewrite Hpos. cbv zeta. rewrite Hclamp, Hsub, Hzero. reflexivity.
Qed.


(** ** Value mapper: the order between 0% and 100%

    The rest of the mapper's contract: on binary32 values between 0 and 100
    its result does not increase with the percentage.  The proof follows
    the three roundings of [(100.0f - pct) * (height / 100.0f)]. *)

(** *** Shifts and rounding to nearest *)

Lemma iter_pos_nat {A : Type} (f : A -> A) (p : positive) :
  forall x, SpecFloat.iter_pos f p x = Nat.iter (Pos.to_nat p) f x.
Proof.
  induction p as [p IH|p IH|]; intros x.
  - change (SpecFloat.iter_pos f p (SpecFloat.iter_pos f p (f x))
            = Nat.iter (Pos.to_nat p~1) f x).
    rewrite !IH, Pos2Nat.inj_xI.
    replace (S (2 * Pos.to_nat p)) with (Pos.to_nat p + (Pos.to_nat p + 1))%nat by lia.
    rewrite !Nat.iter_add. reflexivity.
  - change (SpecFloat.iter_pos f p (SpecFloat.iter_pos f p x)
            = Nat.iter (Pos.to_nat p~0) f x).
    rewrite !IH, Pos2Nat.inj_xO.
    replace (2 * Pos.to_nat p)%nat with (Pos.to_nat p + Pos.to_nat p)%nat by lia.
    now rewrite Nat.iter_add.
  - reflexivity.
Qed.

Lemma shr_1_spec (m : Z) (r s : bool) :
  0 <= m -> shr_1 (Build_shr_record m r s) = Build_shr_record (m / 2) (Z.odd m) (r || s).
Proof.
  intros Hm. rewrite <- Z.div2_div.
  destruct m as [|[p|p|]|p]; try lia; reflexivity.
Qed.

Lemma shr_iter (m : Z) (k : nat) :
  0 <= m ->
  Nat.iter (S k) shr_1 (Build_shr_record m false false)
  = Build_shr_record (m / 2 ^ Z.of_nat (S k)) (Z.odd (m / 2 ^ Z.of_nat k))
      (negb (m mod 2 ^ Z.of_nat k =? 0)).
Proof.
  intros Hm. induction k as [|k IH].
  - change (Nat.iter 1 shr_1 ?x) with (shr_1 x). rewrite shr_1_spec by exact Hm.
    change (2 ^ Z.of_nat 1) with 2. change (2 ^ Z.of_nat 0) with 1.
    now rewrite Z.div_1_r, Z.mod_1_r.
  - change (Nat.iter (S (S k)) shr_1 ?x) with (shr_1 (Nat.iter (S k) shr_1 x)).
    rewrite IH.
    assert (Hp : 0 < 2 ^ Z.of_nat k) by (apply Z.pow_pos_nonneg; lia).
    rewrite shr_1_spec by (apply Z.div_pos; [exact Hm|apply Z.pow_pos_nonneg; lia]).
    f_equal.
    + rewrite Z.div_div by lia. f_equal.
      rewrite (Nat2Z.inj_succ (S k)), Z.pow_succ_r by lia. lia.
    + rewrite (Nat2Z.inj_succ k), Z.pow_succ_r by lia.
      rewrite (Z.mul_comm 2), Z.rem_mul_r by lia.
      rewrite Zodd_mod.
      pose proof (Z.mod_pos_bound m (2 ^ Z.of_nat k) Hp) as Hb.
      pose proof (Z.mod_pos_bound (m / 2 ^ Z.of_nat k) 2 ltac:(lia)) as Hb2.
      destruct (Z.eqb_spec (m mod 2 ^ Z.of_nat k) 0) as [E0|E0];
        destruct (Z.eqb_spec ((m / 2 ^ Z.of_nat k) mod 2) 1) as [E1|E1]; simpl;
        symmetry; try (apply negb_true_iff, Z.eqb_neq; nia).
      apply negb_false_iff, Z.eqb_eq. nia.
Qed.

Lemma rne_0 (m : Z) : rne m 0 = m.
Proof.
  unfold rne. change (0 <? 0) with false. cbv iota zeta.
  change (2 ^ 0) with 1. rewrite Z.mod_1_r, Z.div_1_r. reflexivity.
Qed.

Lemma rne_neg (m n : Z) : n < 0 -> rne m n = m.
Proof. intros H. unfold rne. destruct (Z.ltb_spec n 0); [reflexivity|lia]. Qed.

Lemma shr_exact (m e n : Z) :
  0 <= m ->
  shr_m (fst (shr (Build_shr_record m false false) e n)) = m / 2 ^ Z.max 0 n
  /\ snd (shr (Build_shr_record m false false) e n) = e + Z.max 0 n
  /\ round_nearest_even (shr_m (fst (shr (Build_shr_record m false false) e n)))
       (loc_of_shr_record (fst (shr (Build_shr_record m false false) e n)))
     = rne m n.
Proof.
  intros Hm. destruct n as [|p|p].
  - cbn [shr fst snd shr_m loc_of_shr_record round_nearest_even].
    rewrite rne_0. change (Z.max 0 0) with 0. change (2 ^ 0) with 1.
    rewrite Z.div_1_r. split; [reflexivity|split; [lia|reflexivity]].
  - cbn [shr fst snd]. rewrite iter_pos_nat.
    destruct (Pos2Nat.is_succ p) as [k Hk]. rewrite Hk, shr_iter by exact Hm.
    assert (Hn : Z.pos p = Z.of_nat (S k)) by lia.
    assert (Hmax : Z.max 0 (Z.pos p) = Z.pos p) by lia.
    rewrite Hmax, Hn.
    cbn [shr_m loc_of_shr_record].
    split; [reflexivity|]. split; [reflexivity|].
    unfold rne. destruct (Z.ltb_spec (Z.of_nat (S k)) 0) as [Hneg|_]; [lia|].
    cbv zeta.
    assert (Hp : 0 < 2 ^ Z.of_nat k) by (apply Z.pow_pos_nonneg; lia).
    assert (Hpow : 2 ^ Z.of_nat (S k) = 2 ^ Z.of_nat k * 2)
      by (rewrite Nat2Z.inj_succ, Z.pow_succ_r by lia; lia).
    rewrite Hpow at 2 3. rewrite Z.rem_mul_r by lia.
    rewrite Zodd_mod.
    pose proof (Z.mod_pos_bound m (2 ^ Z.of_nat k) Hp) as Hb.
    pose proof (Z.mod_pos_bound (m / 2 ^ Z.of_nat k) 2 ltac:(lia)) as Hb2.
    destruct (Z.eqb_spec ((m / 2 ^ Z.of_nat k) mod 2) 1) as [E1|E1].
    + rewrite E1.
      destruct (Z.eqb_spec (m mod 2 ^ Z.of_nat k) 0) as [E0|E0]; cbn [negb].
      * rewrite E0. replace (2 * (0 + 2 ^ Z.of_nat k * 1)) with (2 ^ Z.of_nat k * 2) by lia.
        rewrite Z.compare_refl. reflexivity.
      * destruct (Z.compare_spec (2 * (m mod 2 ^ Z.of_nat k + 2 ^ Z.of_nat k * 1))
                    (2 ^ Z.of_nat k * 2)); try lia. reflexivity.
    + assert (E0' : (m / 2 ^ Z.of_nat k) mod 2 = 0) by lia. rewrite E0'.
      destruct (Z.compare_spec (2 * (m mod 2 ^ Z.of_nat k + 2 ^ Z.of_nat k * 0))
                  (2 ^ Z.of_nat k * 2)); try lia.
      now destruct (negb (m mod 2 ^ Z.of_nat k =? 0)).
  - cbn [shr fst snd shr_m loc_of_shr_record round_nearest_even].
    rewrite rne_neg by lia. change (Z.max 0 (Z.neg p)) with 0. change (2 ^ 0) with 1.
    rewrite Z.div_1_r. split; [reflexivity|split; [lia|reflexivity]].
Qed.

Lemma rne_exact (a n : Z) : 0 <= n -> rne (a * 2 ^ n) n = a.
Proof.
  intros Hn. unfold rne. destruct (Z.ltb_spec n 0); [lia|]. cbv zeta.
  assert (Hp : 0 < 2 ^ n) by (apply Z.pow_pos_nonneg; lia).
  rewrite Z.mod_mul, Z.div_mul by lia.
  destruct (Z.compare_spec (2 * 0) (2 ^ n)); lia.
Qed.

Lemma rne_scale (m n k : Z) : 0 <= n -> 0 <= k -> rne (m * 2 ^ k) (n + k) = rne m n.
Proof.
  intros Hn Hk. unfold rne.
  destruct (Z.ltb_spec (n + k) 0); [lia|]. destruct (Z.ltb_spec n 0); [lia|]. cbv zeta.
  assert (Hp : 0 < 2 ^ n) by (apply Z.pow_pos_nonneg; lia).
  assert (Hq : 0 < 2 ^ k) by (apply Z.pow_pos_nonneg; lia).
  rewrite Z.pow_add_r by lia.
  rewrite Z.div_mul_cancel_r, Z.mul_mod_distr_r by lia.
  destruct (Z.compare_spec (2 * (m mod 2 ^ n * 2 ^ k)) (2 ^ n * 2 ^ k));
    destruct (Z.compare_spec (2 * (m mod 2 ^ n)) (2 ^ n)); try reflexivity; nia.
Qed.

Lemma rne_mono (m1 m2 n : Z) : m1 <= m2 -> rne m1 n <= rne m2 n.
Proof.
  intros Hm. unfold rne. destruct (Z.ltb_spec n 0); [lia|]. cbv zeta.
  assert (Hp : 0 < 2 ^ n) by (apply Z.pow_pos_nonneg; lia).
  pose proof (Z.div_mod m1 (2 ^ n) ltac:(lia)) as D1.
  pose proof (Z.div_mod m2 (2 ^ n) ltac:(lia)) as D2.
  pose proof (Z.mod_pos_bound m1 (2 ^ n) Hp) as B1.
  pose proof (Z.mod_pos_bound m2 (2 ^ n) Hp) as B2.
  set (q1 := m1 / 2 ^ n) in *. set (q2 := m2 / 2 ^ n) in *.
  set (r1 := m1 mod 2 ^ n) in *. set (r2 := m2 mod 2 ^ n) in *.
  set (P := 2 ^ n) in *.
  assert (Hq : q1 <= q2) by nia.
  destruct (Z.eq_dec q1 q2) as [E|E].
  - rewrite <- E. assert (Hr : r1 <= r2) by nia.
    destruct (Z.compare_spec (2 * r1) P); destruct (Z.compare_spec (2 * r2) P);
      destruct (Z.even q1); lia.
  - assert (Hlt : q1 + 1 <= q2) by lia.
    destruct (Z.compare_spec (2 * r1) P); destruct (Z.compare_spec (2 * r2) P);
      destruct (Z.even q1); destruct (Z.even q2); lia.
Qed.

Lemma rne_le (m a n : Z) : 0 <= n -> m <= a * 2 ^ n -> rne m n <= a.
Proof. intros Hn H. rewrite <- (rne_exact a n Hn). now apply rne_mono. Qed.

Lemma rne_ge (m a n : Z) : 0 <= n -> a * 2 ^ n <= m -> a <= rne m n.
Proof. intros Hn H. rewrite <- (rne_exact a n Hn). now apply rne_mono. Qed.

(** *** Digits *)

Lemma digits2_bounds (m : positive) :
  2 ^ (Z.pos (digits2_pos m) - 1) <= Z.pos m < 2 ^ Z.pos (digits2_pos m).
Proof.
  induction m as [m IH|m IH|].
  - cbn [digits2_pos]. rewrite Pos2Z.inj_succ.
    replace (Z.succ (Z.pos (digits2_pos m)) - 1) with (Z.succ (Z.pos (digits2_pos m) - 1)) by lia.
    rewrite !Z.pow_succ_r by lia. lia.
  - cbn [digits2_pos]. rewrite Pos2Z.inj_succ.
    replace (Z.succ (Z.pos (digits2_pos m)) - 1) with (Z.succ (Z.pos (digits2_pos m) - 1)) by lia.
    rewrite !Z.pow_succ_r by lia. lia.
  - cbn. lia.
Qed.

Lemma digits2_le (m : positive) (k : Z) :
  Z.pos m < 2 ^ k -> Z.pos (digits2_pos m) <= k.
Proof.
  intros H. pose proof (digits2_bounds m) as [Hl _].
  destruct (Z.le_gt_cases (Z.pos (digits2_pos m)) k) as [|Hgt]; [assumption|].
  assert (2 ^ k <= 2 ^ (Z.pos (digits2_pos m) - 1)) by (apply Z.pow_le_mono_r; lia).
  lia.
Qed.

Lemma digits2_ge (m : positive) (k : Z) :
  0 <= k -> 2 ^ k <= Z.pos m -> k + 1 <= Z.pos (digits2_pos m).
Proof.
  intros Hk H. pose proof (digits2_bounds m) as [_ Hu].
  destruct (Z.le_gt_cases (k + 1) (Z.pos (digits2_pos m))) as [|Hgt]; [assumption|].
  assert (2 ^ Z.pos (digits2_pos m) <= 2 ^ k) by (apply Z.pow_le_mono_r; lia).
  lia.
Qed.

(** *** Rounding a positive dyadic number to binary32 *)

Lemma pow2_pos (k : Z) : 0 <= k -> 0 < 2 ^ k.
Proof. intros H. apply Z.pow_pos_nonneg; lia. Qed.

Lemma pow2_add (a b : Z) : 0 <= a -> 0 <= b -> 2 ^ (a + b) = 2 ^ a * 2 ^ b.
Proof. intros Ha Hb. apply Z.pow_add_r; assumption. Qed.

Lemma pow2_le (a b : Z) : a <= b -> 2 ^ a <= 2 ^ b.
Proof. intros H. apply Z.pow_le_mono_r; lia. Qed.

Lemma rne_nonneg (m n : Z) : 0 <= m -> 0 <= rne m n.
Proof.
  intros Hm. destruct (Z.lt_ge_cases n 0) as [Hn|Hn].
  - now rewrite rne_neg.
  - apply rne_ge; lia.
Qed.

Lemma fexp32_eq (g : Z) : fexp 24 128 g = fexp32 g.
Proof. reflexivity. Qed.

Lemma shr_fexp_exact (m e : Z) :
  0 <= m ->
  let n := fexp32 (Zdigits2 m + e) - e in
  shr_m (fst (shr_fexp 24 128 m e loc_Exact)) = m / 2 ^ Z.max 0 n
  /\ snd (shr_fexp 24 128 m e loc_Exact) = e + Z.max 0 n
  /\ round_nearest_even (shr_m (fst (shr_fexp 24 128 m e loc_Exact)))
       (loc_of_shr_record (fst (shr_fexp 24 128 m e loc_Exact)))
     = rne m n.
Proof.
  intros Hm n. unfold shr_fexp. rewrite fexp32_eq.
  change (shr_record_of_loc m loc_Exact) with (Build_shr_record m false false).
  apply shr_exact, Hm.
Qed.

Lemma round_pos_unfold (m : positive) (e : Z) :
  let n := fexp32 (Z.pos (digits2_pos m) + e) - e in
  let Q := rne (Z.pos m) n in
  let E0 := e + Z.max 0 n in
  let n2 := fexp32 (Zdigits2 Q + E0) - E0 in
  round_pos m e
  = match Q / 2 ^ Z.max 0 n2 with
    | Z0 => S754_zero false
    | Z.pos m' =>
        if E0 + Z.max 0 n2 <=? 104 then S754_finite false m' (E0 + Z.max 0 n2)
        else S754_infinity false
    | Z.neg _ => S754_nan
    end.
Proof.
  intros n Q E0 n2. unfold round_pos, binary_round_aux.
  destruct (shr_fexp_exact (Z.pos m) e ltac:(lia)) as (_ & H2 & H3).
  change (Zdigits2 (Z.pos m)) with (Z.pos (digits2_pos m)) in H2, H3.
  fold n in H2, H3. fold Q in H3. fold E0 in H2.
  destruct (shr_fexp 24 128 (Z.pos m) e loc_Exact) as [mrs' e'].
  cbn [fst snd] in H2, H3. rewrite H3, H2.
  assert (HQ : 0 <= Q) by (apply rne_nonneg; lia).
  destruct (shr_fexp_exact Q E0 HQ) as (G1 & G2 & _).
  fold n2 in G1, G2.
  destruct (shr_fexp 24 128 Q E0 loc_Exact) as [mrs'' e''].
  cbn [fst snd] in G1, G2. rewrite G1, G2. reflexivity.
Qed.

Lemma Zdigits2_small (q : Z) : 0 < q < 2 ^ 24 -> Zdigits2 q <= 24.
Proof.
  intros [H1 H2]. destruct q as [|q|q]; try lia.
  cbn [Zdigits2]. now apply digits2_le.
Qed.

Lemma round_pos_spec (m : positive) (e : Z) :
  - scale_bits <= e <= 104 ->
  rounded_shape (round_pos m e) (Z.max e (fexp32 (Z.pos (digits2_pos m) + e)) + 1)
  /\ scaled (round_pos m e) = Z.min (ideal m e) cap.
Proof.
  intros He. rewrite round_pos_unfold. cbv zeta.
  pose proof (digits2_bounds m) as [Hlo Hhi].
  set (d := Z.pos (digits2_pos m)) in *.
  set (E := fexp32 (d + e)).
  set (n := E - e).
  set (Q := rne (Z.pos m) n).
  set (E0 := e + Z.max 0 n).
  set (n2 := fexp32 (Zdigits2 Q + E0) - E0).
  assert (HE : -149 <= E /\ d + e - 24 <= E) by (unfold E, fexp32; lia).
  assert (HE0 : E0 = Z.max e E) by (unfold E0, n; lia).
  assert (HK : scale_bits = 300) by reflexivity.
  assert (HQ0 : 0 <= Q) by (apply rne_nonneg; lia).
  (* the ideal value is Q on the grid 2^E0 *)
  assert (Hideal : ideal m e = Q * 2 ^ (E0 + scale_bits)).
  { unfold ideal. fold d. fold E. destruct (Z.lt_ge_cases n 0) as [Hn|Hn].
    - replace Q with (Z.pos m) by (unfold Q; now rewrite rne_neg).
      replace (E0 + scale_bits) with (e + scale_bits) by lia.
      replace (Z.pos m * 2 ^ (e + scale_bits)) with (Z.pos m * 2 ^ (e - E) * 2 ^ (E + scale_bits)).
      + now rewrite rne_exact by lia.
      + rewrite <- Z.mul_assoc, <- pow2_add by lia. do 2 f_equal. lia.
    - replace (E + scale_bits) with (n + (e + scale_bits)) by (unfold n; lia).
      rewrite rne_scale by lia. fold Q. do 2 f_equal. lia. }
  (* Q has at most 24 digits, or is 2^24 *)
  assert (HQle : Q <= 2 ^ 24).
  { destruct (Z.lt_ge_cases n 0) as [Hn|Hn].
    - unfold Q. rewrite rne_neg by exact Hn.
      assert (2 ^ d <= 2 ^ 24) by (apply pow2_le; unfold n in Hn; lia). lia.
    - destruct (Z.le_gt_cases n d) as [Hnd|Hnd].
      + assert (Q <= 2 ^ (d - n)).
        { apply rne_le; [exact Hn|]. rewrite <- pow2_add by lia.
          replace (d - n + n) with d by lia. lia. }
        assert (2 ^ (d - n) <= 2 ^ 24) by (apply pow2_le; unfold n; lia). lia.
      + assert (Q <= 1).
        { apply rne_le; [exact Hn|].
          assert (2 ^ d <= 2 ^ n) by (apply pow2_le; lia). lia. }
        assert (1 <= 2 ^ 24) by (pose proof (pow2_pos 24); lia). lia. }
  assert (Hnneg : n < 0 -> Q < 2 ^ 24).
  { intros Hn. unfold Q. rewrite rne_neg by exact Hn.
    assert (2 ^ d <= 2 ^ 23) by (apply pow2_le; unfold n in Hn; lia).
    assert (2 ^ 23 < 2 ^ 24) by (apply Z.pow_lt_mono_r; lia). lia. }
  (* in the overflow range Q has at least 24 digits *)
  assert (HQge : 104 < E0 -> 2 ^ 23 <= Q).
  { intros Hov. assert (Hn : 0 < n) by (unfold n; lia).
    assert (HEd : E = d + e - 24) by (unfold E, fexp32 in *; lia).
    apply rne_ge; [lia|]. rewrite <- pow2_add by lia.
    replace (23 + n) with (d - 1) by (unfold n; lia). exact Hlo. }
  assert (Hcap : cap = 2 ^ 24 * 2 ^ (104 + scale_bits))
    by (unfold cap; rewrite <- pow2_add by lia; f_equal; lia).
  destruct (Z.eq_dec Q 0) as [HQz|HQz].
  { (* the value rounds to zero *)
    rewrite HQz. rewrite Z.div_0_l by (pose proof (pow2_pos (Z.max 0 n2)); lia).
    split; [now left|]. rewrite Hideal, HQz. cbn [scaled].
    pose proof (pow2_pos (128 + scale_bits)). unfold cap. lia. }
  destruct (Z.eq_dec Q (2 ^ 24)) as [HQc|HQc].
  { (* carry into the next binade *)
    assert (Hn : 0 <= n) by (destruct (Z.lt_ge_cases n 0); [apply Hnneg in H; lia|lia]).
    assert (Hn2 : n2 = 1).
    { unfold n2. rewrite HQc. change (Zdigits2 (2 ^ 24)) with 25. unfold fexp32. lia. }
    rewrite Hn2, HQc. change (Z.max 0 1) with 1.
    change (2 ^ 24 / 2 ^ 1) with (Z.pos 8388608).
    cbv iota beta.
    destruct (Z.leb_spec (E0 + 1) 104) as [Hfin|Hinf].
    - split.
      + right. left. exists 8388608%positive, (E0 + 1). split; [reflexivity|].
        split; [lia|]. split; [lia|reflexivity].
      + cbn [scaled]. rewrite Hideal, HQc.
        change (Z.pos 8388608) with (2 ^ 23).
        assert (E1 : 2 ^ 23 * 2 ^ (E0 + 1 + scale_bits) = 2 ^ 24 * 2 ^ (E0 + scale_bits)).
        { rewrite <- !pow2_add by lia. f_equal. lia. }
        rewrite E1, Hcap.
        assert (2 ^ (E0 + scale_bits) <= 2 ^ (103 + scale_bits)) by (apply pow2_le; lia).
        assert (2 ^ (103 + scale_bits) < 2 ^ (104 + scale_bits)) by (apply Z.pow_lt_mono_r; lia).
        pose proof (pow2_pos 24). nia.
    - split; [now right; right|].
      cbn [scaled]. rewrite Hideal, HQc, Hcap.
      assert (2 ^ (104 + scale_bits) <= 2 ^ (E0 + scale_bits)) by (apply pow2_le; lia).
      pose proof (pow2_pos 24). nia. }
  (* the plain case: Q has at most 24 digits *)
  assert (HQ : 0 < Q < 2 ^ 24) by lia.
  assert (Hn2 : Z.max 0 n2 = 0).
  { pose proof (Zdigits2_small Q HQ). unfold n2, fexp32. lia. }
  rewrite Hn2. change (2 ^ 0) with 1. rewrite Z.div_1_r, Z.add_0_r.
  destruct Q as [|q|q] eqn:EQ; try lia.
  destruct (Z.leb_spec E0 104) as [Hfin|Hinf].
  - split.
    + right. left. exists q, E0. split; [reflexivity|]. lia.
    + cbn [scaled]. rewrite Hideal, Hcap.
      assert (2 ^ (E0 + scale_bits) <= 2 ^ (104 + scale_bits)) by (apply pow2_le; lia).
      pose proof (pow2_pos (E0 + scale_bits)). nia.
  - split; [now right; right|].
    cbn [scaled]. rewrite Hideal, Hcap.
    assert (2 ^ (105 + scale_bits) <= 2 ^ (E0 + scale_bits)) by (apply pow2_le; lia).
    assert (E105 : 2 ^ (105 + scale_bits) = 2 * 2 ^ (104 + scale_bits)).
    { replace (105 + scale_bits) with (1 + (104 + scale_bits)) by lia. rewrite pow2_add by lia. reflexivity. }
    assert (E24 : 2 ^ 24 = 2 * 2 ^ 23) by reflexivity.
    pose proof (HQge Hinf). pose proof (pow2_pos (104 + scale_bits)). nia.
Qed.

Lemma dyadic_bounds (m : positive) (e : Z) :
  - scale_bits <= e ->
  2 ^ (Z.pos (digits2_pos m) + e - 1 + scale_bits) <= dyadic m e
  /\ dyadic m e < 2 ^ (Z.pos (digits2_pos m) + e + scale_bits).
Proof.
  intros He. pose proof (digits2_bounds m) as [Hlo Hhi].
  set (d := Z.pos (digits2_pos m)) in *.
  assert (Hd : 1 <= d) by (unfold d; lia).
  unfold dyadic. pose proof (pow2_pos (e + scale_bits) ltac:(lia)).
  replace (d + e - 1 + scale_bits) with ((d - 1) + (e + scale_bits)) by lia.
  replace (d + e + scale_bits) with (d + (e + scale_bits)) by lia.
  rewrite (pow2_add (d - 1) (e + scale_bits)), (pow2_add d (e + scale_bits)) by lia. nia.
Qed.

Lemma ideal_mono (m1 m2 : positive) (e1 e2 : Z) :
  - scale_bits <= e1 -> - scale_bits <= e2 ->
  dyadic m1 e1 <= dyadic m2 e2 -> ideal m1 e1 <= ideal m2 e2.
Proof.
  intros He1 He2 Hv.
  pose proof (dyadic_bounds m1 e1 He1) as [L1 U1].
  pose proof (dyadic_bounds m2 e2 He2) as [L2 U2].
  unfold ideal. fold (dyadic m1 e1). fold (dyadic m2 e2).
  set (g1 := Z.pos (digits2_pos m1) + e1) in *.
  set (g2 := Z.pos (digits2_pos m2) + e2) in *.
  assert (Hg1 : - scale_bits < g1) by (unfold g1; lia).
  assert (Hg2 : - scale_bits < g2) by (unfold g2; lia).
  assert (Hg : g1 <= g2).
  { destruct (Z.le_gt_cases g1 g2) as [|Hgt]; [assumption|].
    assert (2 ^ (g2 + scale_bits) <= 2 ^ (g1 - 1 + scale_bits)) by (apply pow2_le; lia). lia. }
  set (E1 := fexp32 g1). set (E2 := fexp32 g2).
  assert (HE1 : -149 <= E1 /\ g1 - 24 <= E1) by (unfold E1, fexp32; lia).
  assert (HE2 : -149 <= E2 /\ g2 - 24 <= E2) by (unfold E2, fexp32; lia).
  assert (HE : E1 <= E2) by (unfold E1, E2, fexp32; lia).
  assert (HK : scale_bits = 300) by reflexivity.
  destruct (Z.eq_dec E1 E2) as [Heq|Hne].
  - rewrite Heq. pose proof (pow2_pos (E2 + scale_bits) ltac:(lia)).
    pose proof (rne_mono _ _ (E2 + scale_bits) Hv). nia.
  - assert (HE2g : E2 = g2 - 24) by (unfold E1, E2, fexp32 in *; lia).
    (* the larger value keeps at least 24 digits *)
    assert (Hlow : 2 ^ 23 <= rne (dyadic m2 e2) (E2 + scale_bits)).
    { apply rne_ge; [lia|]. rewrite <- pow2_add by lia.
      replace (23 + (E2 + scale_bits)) with (g2 - 1 + scale_bits) by lia. exact L2. }
    assert (Hlow2 : 2 ^ (g2 - 1 + scale_bits) <= rne (dyadic m2 e2) (E2 + scale_bits) * 2 ^ (E2 + scale_bits)).
    { replace (g2 - 1 + scale_bits) with (23 + (E2 + scale_bits)) by lia.
      rewrite (pow2_add 23 (E2 + scale_bits)) by lia.
      pose proof (pow2_pos (E2 + scale_bits) ltac:(lia)). nia. }
    (* the smaller value stays within its binade *)
    set (top := Z.max g1 E1).
    assert (Hup : rne (dyadic m1 e1) (E1 + scale_bits) * 2 ^ (E1 + scale_bits) <= 2 ^ (top + scale_bits)).
    { assert (Hr : rne (dyadic m1 e1) (E1 + scale_bits) <= 2 ^ (top - E1)).
      { apply rne_le; [lia|]. rewrite <- pow2_add by (unfold top; lia).
        replace (top - E1 + (E1 + scale_bits)) with (top + scale_bits) by lia.
        assert (2 ^ (g1 + scale_bits) <= 2 ^ (top + scale_bits)) by (apply pow2_le; unfold top; lia). lia. }
      replace (top + scale_bits) with ((top - E1) + (E1 + scale_bits)) by lia.
      rewrite (pow2_add (top - E1) (E1 + scale_bits)) by (unfold top; lia).
      pose proof (pow2_pos (E1 + scale_bits) ltac:(lia)). nia. }
    assert (2 ^ (top + scale_bits) <= 2 ^ (g2 - 1 + scale_bits)) by (apply pow2_le; unfold top; lia).
    lia.
Qed.

Lemma ideal_canonical (m : positive) (e : Z) :
  - scale_bits <= e -> fexp32 (Z.pos (digits2_pos m) + e) <= e -> ideal m e = dyadic m e.
Proof.
  intros He Hc. unfold ideal, dyadic.
  set (E := fexp32 (Z.pos (digits2_pos m) + e)) in *.
  assert (HE : -149 <= E) by (unfold E, fexp32; lia).
  assert (HK : scale_bits = 300) by reflexivity.
  assert (Hsplit : Z.pos m * 2 ^ (e + scale_bits) = Z.pos m * 2 ^ (e - E) * 2 ^ (E + scale_bits)).
  { rewrite <- Z.mul_assoc, <- pow2_add by lia. do 2 f_equal. lia. }
  rewrite Hsplit at 1. rewrite rne_exact by lia. symmetry. exact Hsplit.
Qed.

(** *** Alignment *)

Lemma iter_xO_spec (m d : positive) :
  Z.pos (Pos.iter xO m d) = Z.pos m * 2 ^ Z.pos d
  /\ Z.pos (digits2_pos (Pos.iter xO m d)) = Z.pos (digits2_pos m) + Z.pos d.
Proof.
  induction d as [|d IH] using Pos.peano_ind.
  - cbn [Pos.iter digits2_pos]. rewrite Pos2Z.inj_succ. change (2 ^ 1) with 2. lia.
  - rewrite Pos.iter_succ. destruct IH as [IH1 IH2].
    cbn [digits2_pos]. rewrite !Pos2Z.inj_succ, Z.pow_succ_r by lia.
    rewrite Pos2Z.inj_xO, IH1, IH2. lia.
Qed.

Lemma shl_align_spec (m : positive) (e e' : Z) :
  - scale_bits <= e -> - scale_bits <= e' ->
  snd (shl_align m e e') = Z.min e e'
  /\ dyadic (fst (shl_align m e e')) (snd (shl_align m e e')) = dyadic m e
  /\ Z.pos (digits2_pos (fst (shl_align m e e'))) + snd (shl_align m e e')
     = Z.pos (digits2_pos m) + e.
Proof.
  intros He He'. unfold shl_align.
  destruct (e' - e) as [|d|d] eqn:Hd; cbn [fst snd].
  - split; [lia|]. split; reflexivity.
  - split; [lia|]. split; reflexivity.
  - destruct (iter_xO_spec m d) as [H1 H2].
    split; [lia|]. split.
    + unfold dyadic. rewrite H1, <- Z.mul_assoc.
      assert (HK : scale_bits = 300) by reflexivity.
      rewrite <- pow2_add by lia. do 2 f_equal. lia.
    + rewrite H2. lia.
Qed.

Lemma binary_round_pos (m : positive) (e : Z) :
  -149 <= e ->
  exists m' e', -149 <= e' <= e
    /\ fexp32 (Z.pos (digits2_pos m') + e') >= e'
    /\ dyadic m' e' = dyadic m e
    /\ binary_round 24 128 false m e = round_pos m' e'.
Proof.
  intros He. unfold binary_round. rewrite fexp32_eq.
  set (f := fexp32 (Z.pos (digits2_pos m) + e)).
  assert (Hf : -149 <= f) by (unfold f, fexp32; lia).
  assert (HK : scale_bits = 300) by reflexivity.
  destruct (shl_align_spec m e f ltac:(lia) ltac:(lia)) as (H1 & H2 & H3).
  destruct (shl_align m e f) as [mz ez]. cbn [fst snd] in *.
  exists mz, ez. split; [lia|]. split; [rewrite H3; fold f; lia|].
  split; [exact H2|reflexivity].
Qed.

(** *** Valid floats and their order *)

Lemma valid_finite (s : bool) (m : positive) (e : Z) :
  F32.valid (S754_finite s m e) = true ->
  fexp32 (Z.pos (digits2_pos m) + e) = e /\ e <= 104.
Proof.
  unfold F32.valid, F32.prec, F32.emax, valid_binary, bounded, canonical_mantissa.
  rewrite fexp32_eq. intros H. apply andb_true_iff in H as [H1 H2].
  apply Z.eqb_eq in H1. apply Z.leb_le in H2.
  change (128 - 24) with 104 in H2. auto.
Qed.

Lemma sv_nonneg (x : spec_float) : 0 <= scaled x.
Proof.
  destruct x as [s|s| |s m e]; try destruct s; cbn [scaled]; try lia.
  unfold cap. apply Z.pow_nonneg. lia.
Qed.

Lemma canonical_le (m1 m2 : positive) (e1 e2 : Z) :
  fexp32 (Z.pos (digits2_pos m1) + e1) = e1 ->
  fexp32 (Z.pos (digits2_pos m2) + e2) = e2 ->
  SFleb (S754_finite false m1 e1) (S754_finite false m2 e2) = true ->
  dyadic m1 e1 <= dyadic m2 e2.
Proof.
  intros C1 C2. unfold SFleb, SFcompare.
  assert (HK : scale_bits = 300) by reflexivity.
  assert (H1 : -149 <= e1) by (unfold fexp32 in C1; lia).
  assert (H2 : -149 <= e2) by (unfold fexp32 in C2; lia).
  destruct (Z.compare_spec e1 e2) as [Heq|Hlt|Hgt]; intros H.
  - subst e2. unfold dyadic.
    assert (Hm : (m1 <= m2)%positive).
    { change (Pos.compare_cont Eq m1 m2) with (m1 ?= m2)%positive in H.
      unfold Pos.le. destruct (m1 ?= m2)%positive;
        [discriminate|discriminate|discriminate H]. }
    pose proof (pow2_pos (e1 + scale_bits) ltac:(lia)). nia.
  - pose proof (dyadic_bounds m1 e1 ltac:(lia)) as [_ U1].
    pose proof (dyadic_bounds m2 e2 ltac:(lia)) as [L2 _].
    assert (2 ^ (Z.pos (digits2_pos m1) + e1 + scale_bits)
            <= 2 ^ (Z.pos (digits2_pos m2) + e2 - 1 + scale_bits))
      by (apply pow2_le; unfold fexp32 in C1, C2; lia).
    lia.
  - discriminate.
Qed.

(** *** The percentages the mapper interpolates *)

Lemma hundred_eq : F32.hundred = S754_finite false 13107200 (-17).
Proof. reflexivity. Qed.

Lemma zero_eq : F32.of_int 0 = S754_zero false.
Proof. reflexivity. Qed.

Lemma in_range_cases (p : spec_float) :
  in_range p ->
  (exists s, p = S754_zero s)
  \/ (exists m e, p = S754_finite false m e
        /\ fexp32 (Z.pos (digits2_pos m) + e) = e /\ dyadic m e <= scaled_hundred).
Proof.
  intros (Hv & H0 & H100). rewrite zero_eq in H0. rewrite hundred_eq in H100.
  destruct p as [s|s| |s m e].
  - left. now exists s.
  - destruct s; discriminate.
  - discriminate.
  - destruct s; [discriminate|]. right. exists m, e.
    destruct (valid_finite _ _ _ Hv) as [C _].
    split; [reflexivity|]. split; [exact C|].
    apply canonical_le; [exact C|reflexivity|exact H100].
Qed.

Lemma in_range_sv_le (p : spec_float) : in_range p -> scaled p <= scaled_hundred.
Proof.
  intros H. destruct (in_range_cases p H) as [[s ->]|(m & e & -> & _ & Hle)].
  - destruct s; cbn [scaled]; unfold scaled_hundred, dyadic;
      pose proof (pow2_pos (-17 + scale_bits) ltac:(discriminate)); lia.
  - exact Hle.
Qed.

Lemma in_range_order (p1 p2 : spec_float) :
  in_range p1 -> in_range p2 -> F32.leb p1 p2 = true -> scaled p1 <= scaled p2.
Proof.
  intros H1 H2 Hle.
  destruct (in_range_cases p1 H1) as [[s1 ->]|(m1 & e1 & -> & C1 & _)].
  - replace (scaled (S754_zero s1)) with 0 by (now destruct s1). apply sv_nonneg.
  - destruct (in_range_cases p2 H2) as [[s2 ->]|(m2 & e2 & -> & C2 & _)].
    + discriminate.
    + now apply canonical_le.
Qed.

Lemma clamp_low (p : spec_float) :
  in_range p -> F32.ltb p (F32.of_int 0) = false.
Proof.
  intros H. rewrite zero_eq.
  destruct (in_range_cases p H) as [[s ->]|(m & e & -> & _)]; reflexivity.
Qed.

Lemma leb_not_gt (m1 m2 : positive) (e1 e2 : Z) :
  SFleb (S754_finite false m1 e1) (S754_finite false m2 e2) = true ->
  SFltb (S754_finite false m2 e2) (S754_finite false m1 e1) = false.
Proof.
  unfold SFleb, SFltb, SFcompare.
  pose proof (Pos.compare_antisym m1 m2) as A. unfold Pos.compare in A.
  rewrite (Z.compare_antisym e1 e2), A.
  destruct (e1 ?= e2); cbn [CompOpp]; try congruence.
  destruct (Pos.compare_cont Eq m1 m2); cbn [CompOpp]; congruence.
Qed.

Lemma clamp_high (p : spec_float) :
  in_range p -> F32.ltb F32.hundred p = false.
Proof.
  intros H. pose proof H as (_ & _ & H100).
  destruct (in_range_cases p H) as [[s ->]|(m & e & -> & _)]; [reflexivity|].
  rewrite hundred_eq in *. now apply leb_not_gt.
Qed.

(** *** Results of one rounding *)

Lemma rounded_shape_nonneg (x : spec_float) (b : Z) :
  rounded_shape x b -> nonneg_float x.
Proof.
  intros [H|[(m & e & H & He & _ & Hm)|H]].
  - now left.
  - right. left. now exists m, e.
  - now right; right.
Qed.

Lemma rounds_from_nonneg (v : Z) (x : spec_float) :
  rounds_from v x -> nonneg_float x.
Proof.
  intros [_ ->|m e He _ ->].
  - now left.
  - eapply rounded_shape_nonneg, (proj1 (round_pos_spec m e He)).
Qed.

Lemma dyadic_pos (m : positive) (e : Z) : - scale_bits <= e -> 0 < dyadic m e.
Proof.
  intros He. unfold dyadic. pose proof (pow2_pos (e + scale_bits) ltac:(lia)). nia.
Qed.

Lemma rounds_from_mono (v1 v2 : Z) (x1 x2 : spec_float) :
  rounds_from v1 x1 -> rounds_from v2 x2 -> v1 <= v2 -> scaled x1 <= scaled x2.
Proof.
  intros [_ ->|m1 e1 He1 Hv1 ->] H2 Hle.
  - cbn [scaled]. apply sv_nonneg.
  - destruct H2 as [Hv2 _|m2 e2 He2 Hv2 ->].
    + pose proof (dyadic_pos m1 e1 ltac:(lia)). lia.
    + rewrite (proj2 (round_pos_spec m1 e1 He1)), (proj2 (round_pos_spec m2 e2 He2)).
      assert (ideal m1 e1 <= ideal m2 e2) by (apply ideal_mono; lia). lia.
Qed.

Lemma finite_below_cap (m : positive) (e : Z) :
  -149 <= e <= 104 -> Z.pos m < 2 ^ 24 -> scaled (S754_finite false m e) < cap.
Proof.
  intros He Hm. cbn [scaled].
  assert (HK : scale_bits = 300) by reflexivity.
  assert (Hcap : cap = 2 ^ 24 * 2 ^ (104 + scale_bits))
    by (unfold cap; rewrite <- pow2_add by lia; f_equal; lia).
  assert (2 ^ (e + scale_bits) <= 2 ^ (104 + scale_bits)) by (apply pow2_le; lia).
  pose proof (pow2_pos (e + scale_bits) ltac:(lia)). rewrite Hcap. nia.
Qed.

Lemma scaled_hundred_lt : scaled_hundred < 2 ^ (7 + scale_bits).
Proof. reflexivity. Qed.

Lemma scaled_hundred_lt_cap : scaled_hundred < cap.
Proof. reflexivity. Qed.

Lemma round_pos_small (m : positive) (e : Z) :
  -149 <= e <= -17 -> dyadic m e <= scaled_hundred -> small_float (round_pos m e).
Proof.
  intros He Hle.
  assert (HK : scale_bits = 300) by reflexivity.
  destruct (round_pos_spec m e ltac:(lia)) as [Hshape Hsv].
  pose proof (dyadic_bounds m e ltac:(lia)) as [L _].
  set (g := Z.pos (digits2_pos m) + e) in *.
  assert (Hg : g <= 7).
  { destruct (Z.le_gt_cases g 7) as [|Hgt]; [assumption|].
    assert (2 ^ (7 + scale_bits) <= 2 ^ (g - 1 + scale_bits)) by (apply pow2_le; lia).
    pose proof scaled_hundred_lt. lia. }
  destruct Hshape as [H|[(m' & e' & H & He' & Hb & _)|H]].
  - now left.
  - right. exists m', e'. split; [exact H|]. unfold fexp32 in Hb. lia.
  - exfalso. rewrite H in Hsv. cbn [scaled] in Hsv.
    assert (ideal m e <= ideal 13107200 (-17)) by (apply ideal_mono; [lia|lia|exact Hle]).
    rewrite (ideal_canonical 13107200 (-17)) in H0 by (try reflexivity; lia).
    fold scaled_hundred in H0. pose proof scaled_hundred_lt_cap. lia.
Qed.

(** *** [100 - p] *)

Lemma sub_hundred_finite (m : positive) (e : Z) :
  fexp32 (Z.pos (digits2_pos m) + e) = e -> dyadic m e <= scaled_hundred ->
  small_float (F32.sub F32.hundred (S754_finite false m e))
  /\ rounds_from (scaled_hundred - dyadic m e) (F32.sub F32.hundred (S754_finite false m e)).
Proof.
  intros C Hle. rewrite hundred_eq.
  assert (HK : scale_bits = 300) by reflexivity.
  assert (He : -149 <= e) by (unfold fexp32 in C; lia).
  unfold F32.sub, F32.prec, F32.emax, SFsub. cbn [cond_Zopp].
  set (ez := Z.min (-17) e).
  destruct (shl_align_spec 13107200 (-17) ez ltac:(lia) ltac:(lia)) as (A1 & A2 & _).
  destruct (shl_align_spec m e ez ltac:(lia) ltac:(lia)) as (B1 & B2 & _).
  destruct (shl_align 13107200 (-17) ez) as [ma ea].
  destruct (shl_align m e ez) as [mb eb]. cbn [fst snd] in *.
  assert (Ea : ea = ez) by (unfold ez in *; lia).
  assert (Eb : eb = ez) by (unfold ez in *; lia).
  clear A1 B1. subst ea eb. fold scaled_hundred in A2.
  assert (Hdiff : scaled_hundred - dyadic m e = (Z.pos ma - Z.pos mb) * 2 ^ (ez + scale_bits))
    by (rewrite <- A2, <- B2; unfold dyadic; ring).
  pose proof (pow2_pos (ez + scale_bits) ltac:(unfold ez; lia)) as Hpow.
  destruct (Z.pos ma - Z.pos mb) as [|q|q] eqn:D; cbn [binary_normalize].
  - split; [now left|]. apply rf_zero; [lia|reflexivity].
  - destruct (binary_round_pos q ez ltac:(unfold ez; lia)) as (m' & e' & He' & _ & Hd & ->).
    assert (Hv : scaled_hundred - dyadic m e = dyadic m' e')
      by (rewrite Hd, Hdiff; reflexivity).
    split.
    + apply round_pos_small; [unfold ez in *; lia|].
      pose proof (dyadic_pos m e ltac:(lia)). lia.
    + apply (rf_pos _ _ m' e'); [unfold ez in *; lia|exact Hv|reflexivity].
  - exfalso. nia.
Qed.

Lemma sub_hundred_spec (p : spec_float) :
  in_range p ->
  small_float (F32.sub F32.hundred p)
  /\ rounds_from (scaled_hundred - scaled p) (F32.sub F32.hundred p).
Proof.
  intros H. destruct (in_range_cases p H) as [[s ->]|(m & e & -> & C & Hle)].
  - replace (scaled (S754_zero s)) with 0 by (now destruct s).
    replace (F32.sub F32.hundred (S754_zero s)) with (round_pos 13107200 (-17))
      by (now destruct s).
    split.
    + right. exists 13107200%positive, (-17). split; [reflexivity|lia].
    + apply (rf_pos _ _ 13107200 (-17)); [|unfold scaled_hundred; lia|reflexivity].
      assert (HK : scale_bits = 300) by reflexivity. lia.
  - now apply sub_hundred_finite.
Qed.

(** *** The product with the pixel scale *)

Lemma scaled_mul_mono (s1 s2 : Z) (mc : positive) (ec : Z) :
  - scale_bits <= ec -> s1 <= s2 -> scaled_mul s1 mc ec <= scaled_mul s2 mc ec.
Proof.
  intros He Hs. unfold scaled_mul.
  pose proof (dyadic_pos mc ec He).
  apply Z.div_le_mono; [reflexivity|]. nia.
Qed.

Lemma mul_small (x : spec_float) (mc : positive) (ec : Z) :
  small_float x -> -149 <= ec <= 104 ->
  rounds_from (scaled_mul (scaled x) mc ec) (F32.mul x (S754_finite false mc ec)).
Proof.
  intros [->|(m & e & -> & He)] Hec.
  - apply rf_zero; reflexivity.
  - assert (HK : scale_bits = 300) by reflexivity.
    apply (rf_pos _ _ (m * mc) (e + ec)); [lia| |reflexivity].
    unfold scaled_mul, dyadic. cbn [scaled].
    rewrite Pos2Z.inj_mul.
    replace (Z.pos m * 2 ^ (e + scale_bits) * (Z.pos mc * 2 ^ (ec + scale_bits)))
      with (Z.pos m * Z.pos mc * 2 ^ (e + ec + scale_bits) * 2 ^ scale_bits).
    + rewrite Z.div_mul; [reflexivity|]. pose proof (pow2_pos scale_bits ltac:(lia)). lia.
    + assert (Hp : 2 ^ (e + ec + scale_bits) * 2 ^ scale_bits = 2 ^ (e + scale_bits) * 2 ^ (ec + scale_bits)).
      { rewrite <- (pow2_add (e + ec + scale_bits) scale_bits), <- (pow2_add (e + scale_bits) (ec + scale_bits)) by lia.
        f_equal. lia. }
      rewrite <- (Z.mul_assoc _ (2 ^ (e + ec + scale_bits))), Hp. ring.
Qed.

(** *** The pixel scale [height / 100.0f] *)

Lemma shr_snd (mrs : shr_record) (e n : Z) : snd (shr mrs e n) = e + Z.max 0 n.
Proof. unfold shr. destruct n; cbn [snd]; lia. Qed.

Lemma shr_fexp_snd (m e : Z) (l : location) :
  -149 <= snd (shr_fexp 24 128 m e l).
Proof.
  unfold shr_fexp. rewrite shr_snd, fexp32_eq. unfold fexp32. lia.
Qed.

Lemma shr_fexp_snd_ge (m e : Z) (l : location) :
  e <= snd (shr_fexp 24 128 m e l).
Proof. unfold shr_fexp. rewrite shr_snd. lia. Qed.

Lemma binary_round_aux_format (s : bool) (m e : Z) (l : location) :
  in_format s (binary_round_aux 24 128 s m e l).
Proof.
  unfold binary_round_aux.
  pose proof (shr_fexp_snd m e l) as H1.
  destruct (shr_fexp 24 128 m e l) as [mrs' e']. cbn [snd] in H1.
  set (q := round_nearest_even (shr_m mrs') (loc_of_shr_record mrs')).
  pose proof (shr_fexp_snd q e' loc_Exact) as H2.
  destruct (shr_fexp 24 128 q e' loc_Exact) as [mrs'' e'']. cbn [snd] in H2.
  destruct (shr_m mrs'') as [|m'|m'].
  - now left.
  - change (128 - 24) with 104. destruct (Z.leb_spec e'' 104).
    + right. right. right. exists m', e''. split; [reflexivity|lia].
    + right. right. now left.
  - right. now left.
Qed.

Lemma of_int_format (h : Z) : 0 <= h -> in_format false (F32.of_int h).
Proof.
  intros Hh. unfold F32.of_int, F32.prec, F32.emax, binary_normalize.
  destruct h as [|h|h]; [now left| |lia].
  unfold binary_round.
  destruct (shl_align h 0 (fexp 24 128 (Z.pos (digits2_pos h) + 0))) as [mz ez].
  apply binary_round_aux_format.
Qed.

Lemma scale_format (h : Z) :
  0 <= h -> in_format false (F32.div (F32.of_int h) F32.hundred).
Proof.
  intros Hh. rewrite hundred_eq.
  destruct (of_int_format h Hh) as [->|[->|[->|(m & e & -> & _)]]].
  - now left.
  - right. now left.
  - right. right. now left.
  - unfold F32.div, F32.prec, F32.emax, SFdiv.
    destruct (SFdiv_core_binary 24 128 (Z.pos m) e 13107200 (-17)) as [[mz ez] lz].
    apply binary_round_aux_format.
Qed.

(** *** The conversion to [int] *)

Lemma trunc_sv (m : positive) (e : Z) :
  -149 <= e -> F32.trunc (S754_finite false m e) = Some (scaled (S754_finite false m e) / 2 ^ scale_bits).
Proof.
  intros He. cbn [F32.trunc cond_Zopp scaled]. f_equal.
  assert (HK : scale_bits = 300) by reflexivity.
  pose proof (pow2_pos scale_bits ltac:(lia)) as HpK.
  unfold F32.trunc_mag. destruct e as [|e|e].
  - change (0 + scale_bits) with scale_bits. rewrite Z.div_mul by lia. reflexivity.
  - rewrite Z.shiftl_mul_pow2 by lia.
    rewrite (pow2_add (Z.pos e) scale_bits) by lia.
    rewrite Z.mul_assoc, Z.div_mul by lia. reflexivity.
  - rewrite Z.shiftr_div_pow2 by lia.
    replace (2 ^ scale_bits) with (2 ^ (- Z.neg e) * 2 ^ (Z.neg e + scale_bits))
      by (rewrite <- pow2_add by lia; f_equal; lia).
    rewrite Z.div_mul_cancel_r; [reflexivity| |].
    + pose proof (pow2_pos (- Z.neg e) ltac:(lia)). lia.
    + pose proof (pow2_pos (Z.neg e + scale_bits) ltac:(lia)). lia.
Qed.

Lemma trunc_nonneg (y : spec_float) :
  nonneg_float y -> scaled y < cap -> F32.trunc y = Some (scaled y / 2 ^ scale_bits).
Proof.
  intros [->|[(m & e & -> & He & _)| -> ]] Hcap.
  - reflexivity.
  - apply trunc_sv. lia.
  - cbn [scaled] in Hcap. lia.
Qed.

Lemma trunc_below_cap (y : spec_float) (v : Z) :
  nonneg_float y -> F32.trunc y = Some v -> scaled y < cap.
Proof.
  intros [->|[(m & e & -> & He & Hm)| -> ]] Hv.
  - reflexivity.
  - now apply finite_below_cap.
  - discriminate.
Qed.

(** *** The offset [(100 - p) * (height / 100.0f)] *)

Lemma mapValueToY_in_range (p : spec_float) (t h : Z) :
  in_range p -> mapValueToY p t h = wrap_int (t + F32.to_int (offset p h)).
Proof.
  intros H. unfold mapValueToY. rewrite (clamp_low p H). cbv zeta.
  rewrite (clamp_high p H). reflexivity.
Qed.

Lemma in_range_zero : in_range (F32.of_int 0).
Proof. repeat split. Qed.

(** Between 0 and 100 the integer offsets fall as the percentage grows,
    and none exceeds the offset of 0%. *)
Lemma offset_order (p1 p2 : spec_float) (h v0 : Z) :
  in_range p1 -> in_range p2 -> F32.leb p1 p2 = true -> 0 <= h ->
  F32.trunc (offset (F32.of_int 0) h) = Some v0 -> v0 <= INT_MAX ->
  0 <= F32.to_int (offset p2 h) <= F32.to_int (offset p1 h)
  /\ F32.to_int (offset p1 h) <= v0.
Proof.
  intros R1 R2 Hle Hh Hv0 Hmax.
  pose proof in_range_zero as R0.
  destruct (sub_hundred_spec _ R0) as [S0 F0].
  destruct (sub_hundred_spec _ R1) as [S1 F1].
  destruct (sub_hundred_spec _ R2) as [S2 F2].
  pose proof (in_range_order _ _ R1 R2 Hle) as O12.
  assert (O01 : scaled (F32.of_int 0) <= scaled p1) by apply sv_nonneg.
  pose proof (rounds_from_mono _ _ _ _ F2 F1 ltac:(lia)) as X21.
  pose proof (rounds_from_mono _ _ _ _ F1 F0 ltac:(lia)) as X10.
  unfold offset in *.
  set (X0 := F32.sub F32.hundred (F32.of_int 0)) in *.
  set (X1 := F32.sub F32.hundred p1) in *.
  set (X2 := F32.sub F32.hundred p2) in *.
  destruct (scale_format h Hh) as [Hc|[Hc|[Hc|(mc & ec & Hc & Hec)]]]; rewrite Hc in *.
  - (* a zero scale: every offset is zero *)
    assert (Z1 : F32.to_int (F32.mul X1 (S754_zero false)) = 0)
      by (destruct S1 as [->|(m & e & -> & _)]; reflexivity).
    assert (Z2 : F32.to_int (F32.mul X2 (S754_zero false)) = 0)
      by (destruct S2 as [->|(m & e & -> & _)]; reflexivity).
    assert (Z0 : v0 = 0).
    { destruct S0 as [E|(m & e & E & _)]; rewrite E in Hv0;
        cbn in Hv0; congruence. }
    rewrite Z1, Z2. lia.
  - destruct S0 as [E|(m & e & E & _)]; rewrite E in Hv0; discriminate.
  - destruct S0 as [E|(m & e & E & _)]; rewrite E in Hv0; discriminate.
  - assert (HK : scale_bits = 300) by reflexivity.
    pose proof (mul_small X0 mc ec S0 Hec) as G0.
    pose proof (mul_small X1 mc ec S1 Hec) as G1.
    pose proof (mul_small X2 mc ec S2 Hec) as G2.
    pose proof (scaled_mul_mono _ _ mc ec ltac:(lia) X21) as W21.
    pose proof (scaled_mul_mono _ _ mc ec ltac:(lia) X10) as W10.
    pose proof (rounds_from_mono _ _ _ _ G2 G1 W21) as Y21.
    pose proof (rounds_from_mono _ _ _ _ G1 G0 W10) as Y10.
    pose proof (rounds_from_nonneg _ _ G0) as N0.
    pose proof (rounds_from_nonneg _ _ G1) as N1.
    pose proof (rounds_from_nonneg _ _ G2) as N2.
    set (Y0 := F32.mul X0 (S754_finite false mc ec)) in *.
    set (Y1 := F32.mul X1 (S754_finite false mc ec)) in *.
    set (Y2 := F32.mul X2 (S754_finite false mc ec)) in *.
    pose proof (trunc_below_cap Y0 v0 N0 Hv0) as C0.
    pose proof (trunc_nonneg Y0 N0 C0) as T0.
    pose proof (trunc_nonneg Y1 N1 ltac:(lia)) as T1.
    pose proof (trunc_nonneg Y2 N2 ltac:(lia)) as T2.
    assert (E0 : v0 = scaled Y0 / 2 ^ scale_bits) by congruence.
    pose proof (pow2_pos scale_bits ltac:(lia)) as HpK.
    assert (D2 : 0 <= scaled Y2 / 2 ^ scale_bits) by (apply Z.div_pos; [apply sv_nonneg|lia]).
    assert (D21 : scaled Y2 / 2 ^ scale_bits <= scaled Y1 / 2 ^ scale_bits) by (apply Z.div_le_mono; lia).
    assert (D10 : scaled Y1 / 2 ^ scale_bits <= scaled Y0 / 2 ^ scale_bits) by (apply Z.div_le_mono; lia).
    assert (Hmin : INT_MIN <= 0) by discriminate.
    unfold F32.to_int. rewrite T1, T2.
    replace ((INT_MIN <=? scaled Y1 / 2 ^ scale_bits) && (scaled Y1 / 2 ^ scale_bits <=? INT_MAX)) with true
      by (symmetry; apply andb_true_iff; split; apply Z.leb_le; lia).
    replace ((INT_MIN <=? scaled Y2 / 2 ^ scale_bits) && (scaled Y2 / 2 ^ scale_bits <=? INT_MAX)) with true
      by (symmetry; apply andb_true_iff; split; apply Z.leb_le; lia).
    lia.
Qed.

(** *** The mapper between 0% and 100% *)

(** A percentage below 0 is mapped as 0% is. *)
Lemma mapValueToY_below_zero (p : spec_float) (t h : Z) :
  F32.ltb p (F32.of_int 0) = true ->
  mapValueToY p t h = mapValueToY (F32.of_int 0) t h.
Proof.
  intros H. unfold mapValueToY. rewrite H. reflexivity.
Qed.

(** On binary32 values between 0 and 100 the mapper is non-increasing, and
    its results lie between [t] and the pixel of 0%, provided that pixel is
    an [int]: [v0] is the integer offset of 0%. *)
Lemma mapValueToY_monotone (p1 p2 : spec_float) (t h v0 : Z) :
  in_range p1 -> in_range p2 -> F32.leb p1 p2 = true -> 0 <= h ->
  F32.trunc (offset (F32.of_int 0) h) = Some v0 ->
  v0 <= INT_MAX -> INT_MIN <= t -> t + v0 <= INT_MAX ->
  t <= mapValueToY p2 t h <= mapValueToY p1 t h
  /\ mapValueToY p1 t h <= t + v0
  /\ mapValueToY (F32.of_int 0) t h = t + v0.
Proof.
  intros R1 R2 Hle Hh Hv0 Hmax Ht Hsum.
  destruct (offset_order p1 p2 h v0 R1 R2 Hle Hh Hv0 Hmax) as [[A B] C].
  rewrite !mapValueToY_in_range by (assumption || apply in_range_zero).
  assert (E0 : F32.to_int (offset (F32.of_int 0) h) = v0).
  { unfold F32.to_int. rewrite Hv0.
    assert (INT_MIN <= 0) by discriminate.
    replace ((INT_MIN <=? v0) && (v0 <=? INT_MAX)) with true; [reflexivity|].
    symmetry. apply andb_true_iff. split; apply Z.leb_le; lia. }
  rewrite E0.
  assert (INT_MIN <= 0) by discriminate.
  rewrite !wrap_int_small by lia. lia.
Qed.

(** The plot areas of the two layouts are 40 and 28 pixels high: there the
    mapper is non-increasing and stays inside the plot area. *)
Lemma mapValueToY_plot_area (p1 p2 : spec_float) (t h : Z) :
  h = 40 \/ h = 28 ->
  in_range p1 -> in_range p2 -> F32.leb p1 p2 = true ->
  INT_MIN <= t -> t + h <= INT_MAX ->
  t <= mapValueToY p2 t h <= mapValueToY p1 t h /\ mapValueToY p1 t h <= t + h.
Proof.
  intros Hh R1 R2 Hle Ht Hsum.
  assert (Hv0 : F32.trunc (offset (F32.of_int 0) h) = Some h)
    by (destruct Hh as [-> | ->]; reflexivity).
  assert (40 <= INT_MAX) by discriminate.
  destruct (mapValueToY_monotone p1 p2 t h h R1 R2 Hle ltac:(lia) Hv0
              ltac:(lia) Ht Hsum) as (A & B & _).
  split; assumption.
Qed.

(** For instance the grid lines of 25% and 75% in a chart whose plot area
    starts at pixel 15. *)
Lemma mapValueToY_plot_area_grid :
  in_range (F32.of_int 25) /\ in_range (F32.of_int 75)
  /\ 15 <= mapValueToY (F32.of_int 75) 15 40 <= mapValueToY (F32.of_int 25) 15 40
  /\ mapValueToY (F32.of_int 25) 15 40 <= 15 + 40.
Proof.
  assert (R1 : in_range (F32.of_int 25)) by (repeat split).
  assert (R2 : in_range (F32.of_int 75)) by (repeat split).
  split; [exact R1|]. split; [exact R2|].
  apply (mapValueToY_plot_area _ _ 15 40);
    [now left|exact R1|exact R2|reflexivity|discriminate|discriminate].
Qed.

(** Heights up to the panel's width: the pixel of 0% is the bottom of the
    area or the pixel above it. *)
Lemma mapValueToY_bottom_within_one :
  forallb bottom_within_one (map Z.of_nat (seq 1 320)) = true.
Proof. vm_compute. reflexivity. Qed.

Lemma mapValueToY_bottom_endpoint_near (h : Z) :
  1 <= h <= 320 ->
  mapValueToY (F32.of_int 0) 0 h = h \/ mapValueToY (F32.of_int 0) 0 h = h - 1.
Proof.
  intros Hh. pose proof mapValueToY_bottom_within_one as H.
  rewrite forallb_forall in H. specialize (H h).
  assert (Hin : In h (map Z.of_nat (seq 1 320))).
  { apply in_map_iff. exists (Z.to_nat h). split; [lia|]. apply in_seq. lia. }
  apply H in Hin. unfold bottom_within_one in Hin. cbv zeta in Hin.
  apply orb_true_iff in Hin as [E|E]; apply Z.eqb_eq in E; auto.
Qed.

(** ** Chart panel *)

Lemma chart_frame_no_plot (x y w h : Z) (title : string) :
  Forall (fun c => is_plot c = false) (chart_frame x y w h title).
Proof. unfold chart_frame. simpl. repeat constructor. Qed.

Lemma drawUptimeTopRight_no_mark (lcd : Panel) (st : Stats) :
  Forall (fun c => is_pixel_or_line c = false) (drawUptimeTopRight lcd st).
Proof. unfold drawUptimeTopRight. repeat constructor. Qed.

Lemma drawStorageBar_no_mark (x y w h : Z) (usedPct : float) :
  Forall (fun c => is_pixel_or_line c = false) (drawStorageBar x y w h usedPct).
Proof.
  unfold drawStorageBar. cbv zeta. rewrite !Forall_app.
  split; [repeat constructor|].
  split; [destruct (0 <? _); repeat constructor|].
  split; [destruct (_ <? w); repeat constructor|repeat constructor].
Qed.

Lemma chart_frame_no_mark (x y w h : Z) (title : string) :
  Forall (fun c => is_pixel_or_line c = false) (chart_frame x y w h title).
Proof. unfold chart_frame. simpl. repeat constructor. Qed.

(** C10.  When fewer than two samples are visible ([points <= 1], which
    before the first wrap means a cursor of 0 or 1), the chart routine
    draws exactly the cleared area, the border, the title and the three
    grid lines, and none of the first pixel, the line segments or the
    current-value label.  Hence either layout, rendered in such a state,
    shows the two charts as bare frames and contains no pixel and no line. *)
Theorem chart_needs_two_samples (x y w h : Z) (data : list float) (size idx : Z)
    (full : bool) (color : Z) (title : string) (lcd : Panel) (st : Stats) :
  let frame x y w h title :=
    [ FillRect x y w h 0xFFFF;
      DrawRect x y w h 0x0000;
      SetTextColor 0x0000; SetTextSize 1;
      SetCursor (x + 4)%int (y + 2)%int; Print title;
      DrawFastHLine (x + 1)%int (mapValueToY (F32.of_int 25) (y + 15)%int (h - 20)%int)
        (w - 2)%int 0xBDF7;
      DrawFastHLine (x + 1)%int (mapValueToY (F32.of_int 50) (y + 15)%int (h - 20)%int)
        (w - 2)%int 0xBDF7;
      DrawFastHLine (x + 1)%int (mapValueToY (F32.of_int 75) (y + 15)%int (h - 20)%int)
        (w - 2)%int 0xBDF7 ] in
  (points size idx full <= 1 ->
     drawLineChartArea x y w h data size idx full color title = frame x y w h title
     /\ Forall (fun c => is_plot c = false)
          (drawLineChartArea x y w h data size idx full color title))
  /\ (s_hist_full st = false -> s_hist_idx st <= 1 ->
      let W := (lcd_width lcd - 2 * 8)%int in
      renderChartsLayout lcd st
      = [ FillScreen 0xFFFF; SetTextColor 0x0000; SetTextSize 2;
          SetCursor 6 4; Print "Sentinel Monitor" ]
        ++ drawUptimeTopRight lcd st
        ++ frame 8 24 W 60 "CPU"
        ++ frame 8 94 W 60 "RAM"
        ++ drawStorageBar 8 170 W 18 (s_disk_used_pct st)
      /\ renderClockLayout lcd st
         = [ FillScreen 0xFFFF; SetTextColor 0x0000; SetTextSize 4;
             SetCursor ((lcd_width lcd
                         - wrap_i16 (textWidth lcd 4 (clock_text (s_last_timestamp_iso st))))
                        / 2)%int 24;
             Print (clock_text (s_last_timestamp_iso st)) ]
           ++ drawUptimeTopRight lcd st
           ++ frame 8 70 W 48 "CPU"
           ++ frame 8 126 W 48 "RAM"
      /\ Forall (fun c => is_pixel_or_line c = false) (renderChartsLayout lcd st)
      /\ Forall (fun c => is_plot c = false) (renderClockLayout lcd st)).
Proof.
  intros frame.
  assert (Hframe : forall x y w h data size idx full color title,
    points size idx full <= 1 ->
    drawLineChartArea x y w h data size idx full color title = frame x y w h title).
  { clear. intros x y w h data size idx full color title H.
    change (frame x y w h title) with (chart_frame x y w h title).
    unfold drawLineChartArea.
    destruct (Z.leb_spec (points size idx full) 1); [reflexivity|lia]. }
  split.
  - intros H. rewrite (Hframe _ _ _ _ _ _ _ _ _ _ H).
    split; [reflexivity|]. exact (chart_frame_no_plot x y w h title).
  - intros Hfull Hidx W.
    assert (Hp : points HIST_SIZE (s_hist_idx st) (s_hist_full st) <= 1).
    { unfold points. now rewrite Hfull. }
    assert (Ec : renderChartsLayout lcd st
      = [ FillScreen 0xFFFF; SetTextColor 0x0000; SetTextSize 2;
          SetCursor 6 4; Print "Sentinel Monitor" ]
        ++ drawUptimeTopRight lcd st
        ++ frame 8 24 W 60 "CPU"
        ++ frame 8 94 W 60 "RAM"
        ++ drawStorageBar 8 170 W 18 (s_disk_used_pct st)).
    { unfold renderChartsLayout. cbv zeta. rewrite !(Hframe _ _ _ _ _ _ _ _ _ _ Hp).
      reflexivity. }
    assert (Ek : renderClockLayout lcd st
         = [ FillScreen 0xFFFF; SetTextColor 0x0000; SetTextSize 4;
             SetCursor ((lcd_width lcd
                         - wrap_i16 (textWidth lcd 4 (clock_text (s_last_timestamp_iso st))))
                        / 2)%int 24;
             Print (clock_text (s_last_timestamp_iso st)) ]
           ++ drawUptimeTopRight lcd st
           ++ frame 8 70 W 48 "CPU"
           ++ frame 8 126 W 48 "RAM").
    { unfold renderClockLayout. cbv zeta. rewrite !(Hframe _ _ _ _ _ _ _ _ _ _ Hp).
      reflexivity. }
    split; [exact Ec|]. split; [exact Ek|]. split.
    + rewrite Ec, !Forall_app.
      split; [repeat constructor|]. split; [apply drawUptimeTopRight_no_mark|].
      split; [exact (chart_frame_no_mark 8 24 W 60 "CPU")|].
      split; [exact (chart_frame_no_mark 8 94 W 60 "RAM")|apply drawStorageBar_no_mark].
    + rewrite Ek, !Forall_app.
      split; [repeat constructor|].
      split; [unfold drawUptimeTopRight; repeat constructor|].
      split; [exact (chart_frame_no_plot 8 70 W 48 "CPU")
             |exact (chart_frame_no_plot 8 126 W 48 "RAM")].
Qed.

Lemma chart_needs_two_samples_witness :
  (points HIST_SIZE 1 false <= 1
   /\ drawLineChartArea 8 24 304 60 (s_cpu_hist boot_stats) HIST_SIZE 1 false 0x001F "CPU"
      = [ FillRect 8 24 304 60 0xFFFF;
          DrawRect 8 24 304 60 0x0000;
          SetTextColor 0x0000; SetTextSize 1;
          SetCursor 12 26; Print "CPU";
          DrawFastHLine 9 69 302 0xBDF7;
          DrawFastHLine 9 59 302 0xBDF7;
          DrawFastHLine 9 49 302 0xBDF7 ])
  /\ ((s_hist_full (store reading_a boot_stats) = false
       /\ s_hist_idx (store reading_a boot_stats) <= 1)
      /\ Forall (fun c => is_plot c = false)
           (renderClockLayout panel_320x240 (store reading_a boot_stats))).
Proof.
  split.
  - assert (H0 : points HIST_SIZE 1 false <= 1) by (vm_compute; discriminate).
    split; [exact H0|].
    rewrite (proj1 (proj1 (chart_needs_two_samples 8 24 304 60 (s_cpu_hist boot_stats)
                             HIST_SIZE 1 false 0x001F "CPU" panel_320x240 boot_stats) H0)).
    reflexivity.
  - assert (H1 : s_hist_full (store reading_a boot_stats) = false) by reflexivity.
    assert (H2 : s_hist_idx (store reading_a boot_stats) <= 1) by (vm_compute; discriminate).
    split; [split; [exact H1|exact H2]|].
    exact (proj2 (proj2 (proj2 (proj2 (chart_needs_two_samples 8 24 304 60
             (s_cpu_hist boot_stats) HIST_SIZE 1 false 0x001F "CPU" panel_320x240
             (store reading_a boot_stats)) H1 H2)))).
Defined.

(** ** Uptime readout *)

Lemma append_assoc (a b c : string) : (a +:+ b) +:+ c = a +:+ (b +:+ c).
Proof.
  induction a as [|x a IH]; [reflexivity|].
  change (String x ((a +:+ b) +:+ c) = String x (a +:+ (b +:+ c))).
  now rewrite IH.
Qed.

(** Below 60 the padded decimal rendering is the two digits. *)
Lemma pad2_two_digits (v : Z) : 0 <= v < 60 -> pad2 v = two_digits v.
Proof.
  intros H.
  assert (Hall : forallb (fun v => String.eqb (pad2 v) (two_digits v)) (seqZ 0 60) = true)
    by (vm_compute; reflexivity).
  rewrite forallb_forall in Hall.
  apply String.eqb_eq, Hall, list_elem_of_In, elem_of_seqZ. lia.
Qed.

(** C6.  For an uptime of [s] whole seconds (a [uint32_t]), the text is the
    decomposition of [s] into days, hours, minutes and seconds, the days
    left out when they are zero and written as their decimal digits
    followed by "d " otherwise, and hours, minutes and seconds each as two
    digits; 0, 3661 and 90000 give the three texts of the specification. *)
Theorem uptime_text_format (s : Z) :
  0 <= s < 2 ^ 32 ->
  let days := s / 86400 in
  let hours := (s mod 86400) / 3600 in
  let minutes := ((s mod 86400) mod 3600) / 60 in
  let seconds := ((s mod 86400) mod 3600) mod 60 in
  s = days * 86400 + hours * 3600 + minutes * 60 + seconds
  /\ 0 <= days /\ 0 <= hours < 24 /\ 0 <= minutes < 60 /\ 0 <= seconds < 60
  /\ uptime_text s
     = days_prefix days +:+ two_digits hours +:+ ":" +:+ two_digits minutes
         +:+ ":" +:+ two_digits seconds
  /\ (days = 0 ->
        uptime_text s = two_digits hours +:+ ":" +:+ two_digits minutes
                          +:+ ":" +:+ two_digits seconds)
  /\ String.length (two_digits hours) = 2%nat
  /\ String.length (two_digits minutes) = 2%nat
  /\ String.length (two_digits seconds) = 2%nat
  /\ uptime_text 0 = "00:00:00"
  /\ uptime_text 3661 = "01:01:01"
  /\ uptime_text 90000 = "1d 01:00:00".
Proof.
  intros Hs days hours minutes seconds.
  assert (Hd : 0 <= days) by (apply Z.div_pos; lia).
  assert (Hh : 0 <= hours < 24).
  { unfold hours. pose proof (Z.mod_pos_bound s 86400 ltac:(lia)).
    split; [apply Z.div_pos; lia|apply Z.div_lt_upper_bound; lia]. }
  assert (Hm : 0 <= minutes < 60).
  { unfold minutes. pose proof (Z.mod_pos_bound (s mod 86400) 3600 ltac:(lia)).
    split; [apply Z.div_pos; lia|apply Z.div_lt_upper_bound; lia]. }
  assert (Hsec : 0 <= seconds < 60) by (apply Z.mod_pos_bound; lia).
  assert (Htext : uptime_text s
     = days_prefix days +:+ two_digits hours +:+ ":" +:+ two_digits minutes
         +:+ ":" +:+ two_digits seconds).
  { unfold uptime_text, days_prefix. cbv zeta.
    fold days. fold hours. fold minutes. fold seconds.
    rewrite !pad2_two_digits by lia.
    destruct (Z.ltb_spec 0 days) as [Hpos|Hzero].
    - destruct (Z.eqb_spec days 0) as [E|_]; [lia|].
      now rewrite append_assoc.
    - destruct (Z.eqb_spec days 0) as [_|E]; [reflexivity|lia]. }
  split.
  { unfold days, hours, minutes, seconds.
    pose proof (Z.div_mod s 86400 ltac:(lia)).
    pose proof (Z.div_mod (s mod 86400) 3600 ltac:(lia)).
    pose proof (Z.div_mod ((s mod 86400) mod 3600) 60 ltac:(lia)).
    lia. }
  repeat (split; [assumption|]).
  split.
  { intros E. rewrite Htext, E. reflexivity. }
  repeat (split; [reflexivity|]). reflexivity.
Qed.

Lemma uptime_text_format_witness :
  0 <= 93784 < 2 ^ 32 /\ uptime_text 93784 = "1d 02:03:04".
Proof.
  split; [lia|].
  destruct (uptime_text_format 93784 ltac:(lia)) as (_ & _ & _ & _ & _ & E & _).
  rewrite E. reflexivity.
Defined.

(** ** Main loop: phase by phase *)

Lemma seq_fst (a b : Act) (d : Dev) : fst ((a ;; b)%act d) = fst (b (fst (a d))).
Proof. unfold seq_act. destruct (a d) as [d1 e1]. simpl. now destruct (b d1). Qed.

Lemma seq_snd (a b : Act) (d : Dev) :
  snd ((a ;; b)%act d) = snd (a d) ++ snd (b (fst (a d))).
Proof. unfold seq_act. destruct (a d) as [d1 e1]. simpl. now destruct (b d1). Qed.

Lemma set_stats_same (d : Dev) : set_stats (stats d) d = d.
Proof. now destruct d. Qed.

(** A poll touches the stats and nothing else. *)
Lemma poll_only_stats (lcd : Panel) (reply : HttpReply) (d : Dev) :
  exists st, fst (updateStatsFromServer lcd reply d) = set_stats st d
             /\ (st = stats d \/ exists r, st = store r (stats d)).
Proof.
  destruct (poll_cases lcd reply d) as [E|[r E]].
  - exists (stats d). rewrite E, set_stats_same. auto.
  - exists (store r (stats d)). rewrite E. eauto.
Qed.

Lemma displayMainScreen_eq (lcd : Panel) (now : Z) (reply : HttpReply) (d : Dev) :
  fst (displayMainScreen lcd now reply d)
    = fst (updateStatsFromServer lcd reply (main_screen_state now d))
  /\ snd (displayMainScreen lcd now reply d)
    = map Lcd (renderChartsLayout lcd (stats d))
      ++ snd (updateStatsFromServer lcd reply (main_screen_state now d)).
Proof.
  unfold displayMainScreen. rewrite !seq_fst, !seq_snd.
  unfold modify, lcd_do, main_screen_state. simpl. auto.
Qed.

Lemma loop_transition_eq (lcd : Panel) (i : LoopIn) (d : Dev) :
  loop_transition lcd i d
  = if success_elapsed i d
    then displayMainScreen lcd (t_main i) (reply_main i) (set_showing_success false d)
    else (d, []).
Proof.
  unfold loop_transition, when. destruct (success_elapsed i d); [|reflexivity].
  unfold seq_act at 1. unfold modify at 1.
  now destruct (displayMainScreen _ _ _ _).
Qed.

Lemma loop_touch_eq (lcd : Panel) (i : LoopIn) (d : Dev) :
  loop_touch lcd i d
  = if touched i then
      if s_touch_down d then (d, [])
      else
        let d1 := set_layout ((s_layout d + 1) %% LAYOUT_MAX)%int (set_touch_down true d) in
        (d1, map Lcd (if s_layout d1 =? LAYOUT_CHARTS
                      then renderChartsLayout lcd (stats d1)
                      else renderClockLayout lcd (stats d1)))
    else (set_touch_down false d, []).
Proof.
  unfold loop_touch. destruct (touched i); [|reflexivity].
  unfold when. destruct (s_touch_down d); reflexivity.
Qed.

Lemma loop_poll_eq (lcd : Panel) (i : LoopIn) (d : Dev) :
  loop_poll lcd i d
  = if poll_due i d
    then updateStatsFromServer lcd (reply_tick i) (set_last_stats_update (t_stamp i) d)
    else (d, []).
Proof.
  unfold loop_poll, when. destruct (poll_due i d); [|reflexivity].
  unfold seq_act, modify. now destruct (updateStatsFromServer _ _ _).
Qed.

Lemma loop_fst (lcd : Panel) (i : LoopIn) (d : Dev) :
  fst (loop lcd i d)
  = fst (loop_service i
      (fst (loop_poll lcd i (fst (loop_touch lcd i (fst (loop_transition lcd i d))))))).
Proof. unfold loop. now rewrite !seq_fst. Qed.

Lemma loop_snd (lcd : Panel) (i : LoopIn) (d : Dev) :
  snd (loop lcd i d)
  = snd (loop_transition lcd i d)
    ++ snd (loop_touch lcd i (fst (loop_transition lcd i d)))
    ++ snd (loop_poll lcd i (fst (loop_touch lcd i (fst (loop_transition lcd i d)))))
    ++ snd (loop_service i
         (fst (loop_poll lcd i (fst (loop_touch lcd i (fst (loop_transition lcd i d))))))).
Proof. unfold loop. now rewrite !seq_snd. Qed.

(** What the configuration service leaves alone. *)
Lemma connectToWiFi_frame (conn : ConnectIn) (d : Dev) :
  let d' := fst (connectToWiFi conn d) in
  stats d' = stats d /\ saved d' = saved d /\ s_touch_down d' = s_touch_down d
  /\ s_layout d' = s_layout d /\ s_stats_active d' = s_stats_active d
  /\ s_last_stats_update d' = s_last_stats_update d.
Proof.
  unfold connectToWiFi.
  destruct (is_empty _); [simpl; tauto|].
  destruct (wifi_status conn _); simpl; tauto.
Qed.

Lemma handleClient_frame (req : option WebRequest) (d : Dev) :
  let d' := fst (handleClient req d) in
  stats d' = stats d /\ s_touch_down d' = s_touch_down d
  /\ s_layout d' = s_layout d /\ s_stats_active d' = s_stats_active d
  /\ s_last_stats_update d' = s_last_stats_update d.
Proof.
  destruct req as [[| |is_post body fs_ok conn|]|]; simpl; try tauto.
  unfold handleSave.
  destruct is_post; simpl; [|tauto].
  destruct body as [c|]; simpl; [|tauto].
  destruct fs_ok; simpl; [|tauto].
  destruct (is_empty (s_saved_ssid c)); simpl; [tauto|].
  pose proof (connectToWiFi_frame conn
                (set_config_complete true (set_config_file (Some c) (set_saved c d)))) as H.
  destruct (connectToWiFi conn _) as [d3 e3]. simpl in *. tauto.
Qed.

Lemma loop_service_fst (i : LoopIn) (d : Dev) :
  fst (loop_service i d) = fst (handleClient (web_request i) d).
Proof. unfold loop_service. rewrite seq_fst. reflexivity. Qed.

(** ** Layout toggle *)

Lemma toggle_changes_layout (l : Z) : ((l + 1) %% LAYOUT_MAX)%int <> l.
Proof.
  unfold irem, LAYOUT_MAX. intros E.
  pose proof (Z.rem_bound_abs (l + 1)%int 2 ltac:(lia)) as Hb.
  rewrite E in Hb.
  assert (Hl : l = -1 \/ l = 0 \/ l = 1) by lia.
  destruct Hl as [->|[->| ->]]; vm_compute in E; discriminate.
Qed.

Lemma toggle_two_layouts (l : Z) :
  l = LAYOUT_CHARTS \/ l = LAYOUT_CLOCK -> ((l + 1) %% LAYOUT_MAX)%int = 1 - l.
Proof. intros [->| ->]; reflexivity. Qed.

Lemma transition_keeps_touch_down (lcd : Panel) (i : LoopIn) (d : Dev) :
  s_touch_down (fst (loop_transition lcd i d)) = s_touch_down d.
Proof.
  rewrite loop_transition_eq. destruct (success_elapsed i d); [|reflexivity].
  destruct (displayMainScreen_eq lcd (t_main i) (reply_main i) (set_showing_success false d))
    as [-> _].
  destruct (poll_only_stats lcd (reply_main i)
              (main_screen_state (t_main i) (set_showing_success false d))) as (st & -> & _).
  reflexivity.
Qed.

Lemma touch_toggled_eq (lcd : Panel) (i : LoopIn) (d : Dev) :
  touch_toggled lcd i d = touched i && negb (s_touch_down d).
Proof.
  unfold touch_toggled. cbv zeta. rewrite loop_touch_eq, transition_keeps_touch_down.
  destruct (touched i); simpl.
  - destruct (s_touch_down d); simpl.
    + now rewrite Z.eqb_refl.
    + apply negb_true_iff, Z.eqb_neq, toggle_changes_layout.
  - now rewrite Z.eqb_refl.
Qed.

Lemma poll_phase_keeps_touch_down (lcd : Panel) (i : LoopIn) (d : Dev) :
  s_touch_down (fst (loop_poll lcd i d)) = s_touch_down d.
Proof.
  rewrite loop_poll_eq. destruct (poll_due i d); [|reflexivity].
  destruct (poll_only_stats lcd (reply_tick i) (set_last_stats_update (t_stamp i) d))
    as (st & -> & _).
  reflexivity.
Qed.

(** After a pass the flag records whether the panel was touched in it. *)
Lemma loop_touch_down (lcd : Panel) (i : LoopIn) (d : Dev) :
  s_touch_down (fst (loop lcd i d)) = touched i.
Proof.
  rewrite loop_fst, loop_service_fst.
  destruct (handleClient_frame (web_request i)
    (fst (loop_poll lcd i (fst (loop_touch lcd i (fst (loop_transition lcd i d)))))))
    as (_ & -> & _).
  rewrite poll_phase_keeps_touch_down, loop_touch_eq, transition_keeps_touch_down.
  destruct (touched i); [|reflexivity].
  destruct (s_touch_down d) eqn:E; [|reflexivity].
  simpl. now rewrite transition_keeps_touch_down.
Qed.

Lemma held_no_toggle (lcd : Panel) (ins : list LoopIn) :
  forall d, s_touch_down d = true -> Forall (fun i => touched i = true) ins ->
            toggles lcd ins d = 0%nat.
Proof.
  induction ins as [|i ins IH]; intros d Hd Hall; [reflexivity|].
  inversion Hall as [|? ? Hi Hrest]; subst. simpl.
  rewrite touch_toggled_eq, Hd, andb_false_r. simpl.
  apply IH; [|exact Hrest]. now rewrite loop_touch_down.
Qed.

Lemma run_cons_fst (lcd : Panel) (i : LoopIn) (ins : list LoopIn) (d : Dev) :
  fst (run lcd (i :: ins) d) = fst (run lcd ins (fst (loop lcd i d))).
Proof. simpl. now rewrite seq_fst. Qed.

Lemma run_cons_snd (lcd : Panel) (i : LoopIn) (ins : list LoopIn) (d : Dev) :
  snd (run lcd (i :: ins) d) = snd (loop lcd i d) ++ snd (run lcd ins (fst (loop lcd i d))).
Proof. simpl. now rewrite seq_snd. Qed.

Lemma toggle_after_hold_needs_release (lcd : Panel) (j : LoopIn) (ins : list LoopIn) :
  forall d, s_touch_down d = true ->
            touch_toggled lcd j (fst (run lcd ins d)) = true ->
            Exists (fun k => touched k = false) ins.
Proof.
  induction ins as [|k ins IH]; intros d Hd Hj.
  - simpl in Hj. rewrite touch_toggled_eq, Hd, andb_false_r in Hj. discriminate.
  - rewrite run_cons_fst in Hj.
    destruct (touched k) eqn:Hk.
    + apply Exists_cons_tl, (IH (fst (loop lcd k d))); [|exact Hj].
      now rewrite loop_touch_down.
    + now apply Exists_cons_hd.
Qed.

(** C9.  The toggle is taken on the press edge only.  From a state in which
    the panel was not touched, a run of passes during all of which it is
    touched changes the layout selection through the touch branch exactly
    once, in the first pass, and in that pass the selection goes from
    Charts to Clock or back; and whenever the touch branch toggles in two
    passes of a run, the panel was released in some pass between them. *)
Theorem touch_toggle_is_edge_triggered (lcd : Panel) (d : Dev) :
  (forall i ins, s_touch_down d = false ->
     Forall (fun k => touched k = true) (i :: ins) ->
     touch_toggled lcd i d = true
     /\ toggles lcd ins (fst (loop lcd i d)) = 0%nat
     /\ toggles lcd (i :: ins) d = 1%nat)
  /\ (forall ins, s_touch_down d = true ->
        Forall (fun k => touched k = true) ins -> toggles lcd ins d = 0%nat)
  /\ (forall i ins j,
        touch_toggled lcd i d = true ->
        touch_toggled lcd j (fst (run lcd ins (fst (loop lcd i d)))) = true ->
        Exists (fun k => touched k = false) ins)
  /\ (forall i, s_layout d = LAYOUT_CHARTS \/ s_layout d = LAYOUT_CLOCK ->
        s_layout (fst (loop_touch lcd i d))
        = if touched i && negb (s_touch_down d) then 1 - s_layout d else s_layout d).
Proof.
  split; [|split; [|split]].
  - intros i ins Hd Hall. inversion Hall as [|? ? Hi Hrest]; subst.
    assert (Ht : touch_toggled lcd i d = true)
      by now rewrite touch_toggled_eq, Hi, Hd.
    assert (H0 : toggles lcd ins (fst (loop lcd i d)) = 0%nat).
    { apply held_no_toggle; [|exact Hrest]. now rewrite loop_touch_down. }
    split; [exact Ht|]. split; [exact H0|].
    simpl. now rewrite Ht, H0.
  - intros ins Hd Hall. now apply held_no_toggle.
  - intros i ins j Hi Hj.
    apply (toggle_after_hold_needs_release lcd j ins (fst (loop lcd i d))); [|exact Hj].
    rewrite loop_touch_down. rewrite touch_toggled_eq in Hi.
    now apply andb_true_iff in Hi.
  - intros i Hl. rewrite loop_touch_eq.
    destruct (touched i); simpl; [|reflexivity].
    destruct (s_touch_down d); simpl; [reflexivity|].
    now apply toggle_two_layouts.
Qed.

Lemma touch_toggle_is_edge_triggered_witness :
  ((s_touch_down monitoring_state = false
    /\ Forall (fun k => touched k = true) [pass_touched; pass_touched; pass_touched])
   /\ toggles panel_320x240 [pass_touched; pass_touched; pass_touched] monitoring_state
      = 1%nat)
  /\ ((touch_toggled panel_320x240 pass_touched monitoring_state = true
       /\ touch_toggled panel_320x240 pass_touched
            (fst (run panel_320x240 [pass_touched; pass_released]
                    (fst (loop panel_320x240 pass_touched monitoring_state)))) = true)
      /\ Exists (fun k => touched k = false) [pass_touched; pass_released]).
Proof.
  split.
  - split; [split; [reflexivity|repeat constructor]|].
    apply (proj1 (touch_toggle_is_edge_triggered panel_320x240 monitoring_state)
             pass_touched [pass_touched; pass_touched]).
    + reflexivity.
    + repeat constructor.
  - assert (H1 : touch_toggled panel_320x240 pass_touched monitoring_state = true)
      by (vm_compute; reflexivity).
    assert (H2 : touch_toggled panel_320x240 pass_touched
                   (fst (run panel_320x240 [pass_touched; pass_released]
                           (fst (loop panel_320x240 pass_touched monitoring_state)))) = true)
      by (vm_compute; reflexivity).
    split; [split; [exact H1|exact H2]|].
    exact (proj1 (proj2 (proj2 (touch_toggle_is_edge_triggered panel_320x240
                                  monitoring_state)))
             pass_touched [pass_touched; pass_released] pass_touched H1 H2).
Defined.

(** ** Lock-step of the two channels *)

Lemma store_hist_ok (r : Reading) (st : Stats) : hist_ok st -> hist_ok (store r st).
Proof.
  unfold hist_ok, HIST_SIZE. intros (Hc & Hr & Hi).
  assert (Hnext : s_hist_idx (store r st) = (s_hist_idx st + 1) mod 120).
  { rewrite store_idx. unfold irem, iadd, HIST_SIZE.
    rewrite wrap_int_small by (unfold INT_MIN, INT_MAX; lia).
    apply Z.rem_mod_nonneg; lia. }
  rewrite Hnext. unfold store, array_set. simpl.
  destruct (Z.ltb_spec (s_hist_idx st) 0); [lia|].
  rewrite !length_insert.
  pose proof (Z.mod_pos_bound (s_hist_idx st + 1) 120 ltac:(lia)). auto.
Qed.

Lemma appends_hist_ok (rs : list Reading) :
  forall st, hist_ok st -> hist_ok (appends rs st).
Proof.
  induction rs as [|r rs IH]; intros st H; [exact H|].
  simpl. apply IH, store_hist_ok, H.
Qed.

Lemma appends_app (rs1 rs2 : list Reading) (st : Stats) :
  appends (rs1 ++ rs2) st = appends rs2 (appends rs1 st).
Proof. unfold appends. apply fold_left_app. Qed.

Lemma poll_appends (lcd : Panel) (reply : HttpReply) (d : Dev) :
  exists rs, (length rs <= 1)%nat
             /\ stats (fst (updateStatsFromServer lcd reply d)) = appends rs (stats d).
Proof.
  destruct (poll_cases lcd reply d) as [E|[r E]]; rewrite E.
  - exists []. split; [simpl; lia|reflexivity].
  - exists [r]. split; [simpl; lia|reflexivity].
Qed.

Lemma transition_appends (lcd : Panel) (i : LoopIn) (d : Dev) :
  exists rs, (length rs <= 1)%nat
             /\ stats (fst (loop_transition lcd i d)) = appends rs (stats d).
Proof.
  rewrite loop_transition_eq. destruct (success_elapsed i d).
  - destruct (displayMainScreen_eq lcd (t_main i) (reply_main i)
                (set_showing_success false d)) as [-> _].
    apply (poll_appends lcd (reply_main i)
             (main_screen_state (t_main i) (set_showing_success false d))).
  - exists []. split; [simpl; lia|reflexivity].
Qed.

Lemma touch_keeps_stats (lcd : Panel) (i : LoopIn) (d : Dev) :
  stats (fst (loop_touch lcd i d)) = stats d.
Proof.
  rewrite loop_touch_eq. destruct (touched i); [|reflexivity].
  now destruct (s_touch_down d).
Qed.

Lemma poll_phase_appends (lcd : Panel) (i : LoopIn) (d : Dev) :
  exists rs, (length rs <= 1)%nat
             /\ stats (fst (loop_poll lcd i d)) = appends rs (stats d).
Proof.
  rewrite loop_poll_eq. destruct (poll_due i d).
  - apply (poll_appends lcd (reply_tick i) (set_last_stats_update (t_stamp i) d)).
  - exists []. split; [simpl; lia|reflexivity].
Qed.

Lemma loop_appends (lcd : Panel) (i : LoopIn) (d : Dev) :
  exists rs, (length rs <= 2)%nat /\ stats (fst (loop lcd i d)) = appends rs (stats d).
Proof.
  rewrite loop_fst, loop_service_fst.
  destruct (handleClient_frame (web_request i)
    (fst (loop_poll lcd i (fst (loop_touch lcd i (fst (loop_transition lcd i d)))))))
    as (-> & _).
  destruct (poll_phase_appends lcd i (fst (loop_touch lcd i (fst (loop_transition lcd i d)))))
    as (rs2 & H2 & ->).
  rewrite touch_keeps_stats.
  destruct (transition_appends lcd i d) as (rs1 & H1 & ->).
  exists (rs1 ++ rs2). rewrite length_app, appends_app. split; [lia|reflexivity].
Qed.

Lemma run_appends (lcd : Panel) (ins : list LoopIn) :
  forall d, exists rs, stats (fst (run lcd ins d)) = appends rs (stats d).
Proof.
  induction ins as [|i ins IH]; intros d.
  - now exists [].
  - rewrite run_cons_fst. destruct (IH (fst (loop lcd i d))) as (rs2 & ->).
    destruct (loop_appends lcd i d) as (rs1 & _ & ->).
    exists (rs1 ++ rs2). now rewrite appends_app.
Qed.

Lemma snapshot_length (data : list float) (size idx : Z) (full : bool) :
  length (snapshot data size idx full) = Z.to_nat (points size idx full).
Proof. unfold snapshot. now rewrite length_map, length_seqZ. Qed.

(** C5.  The two channels advance in lock-step.  From a state whose two
    arrays have [HIST_SIZE] cells and whose cursor is in range: a poll
    either leaves the stats as they are or stores one reading; storing a
    reading writes one cell of each array, both at the shared cursor, and
    advances that cursor once modulo [HIST_SIZE]; the touch branch and the
    configuration service store nothing; a pass of the loop stores at most
    two readings (the poll on entering the main screen and the cadence
    poll); and after any run both windows have the same length and the
    cursor is in [0, HIST_SIZE). *)
Theorem channels_in_lock_step (lcd : Panel) (d : Dev) :
  hist_ok (stats d) ->
  (forall reply,
     let st' := stats (fst (updateStatsFromServer lcd reply d)) in
     st' = stats d \/ exists r, st' = store r (stats d))
  /\ (forall r,
        let st := stats d in
        let st' := store r st in
        s_cpu_hist st' = <[Z.to_nat (s_hist_idx st) := cpu_pct r]> (s_cpu_hist st)
        /\ s_ram_hist st' = <[Z.to_nat (s_hist_idx st) := ram_pct r]> (s_ram_hist st)
        /\ s_hist_idx st' = (s_hist_idx st + 1) mod HIST_SIZE
        /\ hist_ok st')
  /\ (forall i, stats (fst (loop_touch lcd i d)) = stats d)
  /\ (forall req, stats (fst (handleClient req d)) = stats d)
  /\ (forall i, exists rs, (length rs <= 2)%nat
                           /\ stats (fst (loop lcd i d)) = appends rs (stats d))
  /\ (forall ins,
        let st' := stats (fst (run lcd ins d)) in
        hist_ok st'
        /\ length (cpu_snapshot st') = length (ram_snapshot st')
        /\ 0 <= s_hist_idx st' < HIST_SIZE).
Proof.
  intros Hok. split; [|split; [|split; [|split; [|split]]]].
  - intros reply st'. unfold st'.
    destruct (poll_cases lcd reply d) as [E|[r E]]; rewrite E; eauto.
  - intros r st st'. destruct Hok as (Hc & Hr & Hi).
    pose proof (store_hist_ok r st (conj Hc (conj Hr Hi))) as Hok'.
    fold st in Hi.
    assert (Hcell : forall v data, array_set data (s_hist_idx st) v
                                   = <[Z.to_nat (s_hist_idx st) := v]> data).
    { intros v data. unfold array_set.
      destruct (Z.ltb_spec (s_hist_idx st) 0); [lia|reflexivity]. }
    split; [apply Hcell|]. split; [apply Hcell|]. split; [|exact Hok'].
    unfold st'. rewrite store_idx. unfold irem, iadd, HIST_SIZE in *.
    rewrite wrap_int_small by (unfold INT_MIN, INT_MAX; lia).
    apply Z.rem_mod_nonneg; lia.
  - intros i. apply touch_keeps_stats.
  - intros req. apply handleClient_frame.
  - intros i. apply loop_appends.
  - intros ins st'. unfold st'.
    destruct (run_appends lcd ins d) as (rs & ->).
    pose proof (appends_hist_ok rs (stats d) Hok) as H.
    split; [exact H|]. split; [|apply H].
    unfold cpu_snapshot, ram_snapshot. now rewrite !snapshot_length.
Qed.

Lemma channels_in_lock_step_witness :
  hist_ok (stats monitoring_state)
  /\ s_hist_idx (store reading_a (stats monitoring_state)) = (0 + 1) mod HIST_SIZE.
Proof.
  assert (H : hist_ok (stats monitoring_state)).
  { unfold hist_ok. simpl. repeat split; try reflexivity; vm_compute; discriminate. }
  split; [exact H|].
  apply (proj1 (proj2 (channels_in_lock_step panel_320x240 monitoring_state H)) reading_a).
Defined.

(** ** Configuration reset *)

Lemma map_Lcd_no_get (l : list LcdCmd) :
  Forall (fun e => is_http_get e = false) (map Lcd l).
Proof. induction l as [|c l IH]; simpl; constructor; [reflexivity|exact IH]. Qed.

Lemma poll_unconfigured (lcd : Panel) (reply : HttpReply) (d : Dev) :
  saved d = no_config -> updateStatsFromServer lcd reply d = (d, []).
Proof. intros H. apply poll_unpaired. now rewrite H. Qed.

Lemma transition_unconfigured (lcd : Panel) (i : LoopIn) (d : Dev) :
  saved d = no_config ->
  saved (fst (loop_transition lcd i d)) = no_config
  /\ stats (fst (loop_transition lcd i d)) = stats d
  /\ Forall (fun e => is_http_get e = false) (snd (loop_transition lcd i d)).
Proof.
  intros H. rewrite loop_transition_eq.
  destruct (success_elapsed i d); [|split; [exact H|split; [reflexivity|constructor]]].
  destruct (displayMainScreen_eq lcd (t_main i) (reply_main i)
              (set_showing_success false d)) as [-> ->].
  rewrite poll_unconfigured by exact H. cbn [fst snd].
  split; [exact H|]. split; [reflexivity|].
  rewrite app_nil_r. apply map_Lcd_no_get.
Qed.

Lemma touch_unconfigured (lcd : Panel) (i : LoopIn) (d : Dev) :
  saved (fst (loop_touch lcd i d)) = saved d
  /\ Forall (fun e => is_http_get e = false) (snd (loop_touch lcd i d)).
Proof.
  rewrite loop_touch_eq. destruct (touched i); [|split; [reflexivity|constructor]].
  destruct (s_touch_down d); [split; [reflexivity|constructor]|].
  split; [reflexivity|apply map_Lcd_no_get].
Qed.

Lemma poll_phase_unconfigured (lcd : Panel) (i : LoopIn) (d : Dev) :
  saved d = no_config ->
  saved (fst (loop_poll lcd i d)) = no_config
  /\ stats (fst (loop_poll lcd i d)) = stats d
  /\ snd (loop_poll lcd i d) = [].
Proof.
  intros H. rewrite loop_poll_eq. destruct (poll_due i d); [|auto].
  rewrite poll_unconfigured by exact H. auto.
Qed.

Lemma service_unconfigured (i : LoopIn) (d : Dev) :
  saved d = no_config -> stores_config (web_request i) = false ->
  saved (fst (loop_service i d)) = no_config
  /\ Forall (fun e => is_http_get e = false) (snd (loop_service i d)).
Proof.
  intros H Hreq. unfold loop_service. rewrite seq_fst, seq_snd.
  destruct (web_request i) as [[| |is_post body fs_ok conn|]|]; simpl.
  - split; [exact H|repeat constructor].
  - split; [exact H|repeat constructor].
  - unfold handleSave. destruct is_post; simpl.
    + destruct body as [c|]; [discriminate Hreq|]. simpl.
      split; [exact H|repeat constructor].
    + split; [exact H|repeat constructor].
  - split; [reflexivity|repeat constructor].
  - split; [exact H|repeat constructor].
Qed.

Lemma loop_unconfigured (lcd : Panel) (i : LoopIn) (d : Dev) :
  saved d = no_config -> stores_config (web_request i) = false ->
  saved (fst (loop lcd i d)) = no_config
  /\ stats (fst (loop lcd i d)) = stats d
  /\ Forall (fun e => is_http_get e = false) (snd (loop lcd i d)).
Proof.
  intros H Hreq. rewrite loop_fst, loop_snd.
  destruct (transition_unconfigured lcd i d H) as (H1 & S1 & E1).
  set (d1 := fst (loop_transition lcd i d)) in *.
  destruct (touch_unconfigured lcd i d1) as (H2 & E2).
  pose proof (touch_keeps_stats lcd i d1) as S2.
  set (d2 := fst (loop_touch lcd i d1)) in *.
  rewrite H1 in H2.
  destruct (poll_phase_unconfigured lcd i d2 H2) as (H3 & S3 & E3).
  set (d3 := fst (loop_poll lcd i d2)) in *.
  destruct (service_unconfigured i d3 H3 Hreq) as (H4 & E4).
  split; [exact H4|]. split.
  - rewrite loop_service_fst.
    destruct (handleClient_frame (web_request i) d3) as (-> & _). congruence.
  - rewrite E3, !Forall_app. simpl. auto.
Qed.

Lemma run_unconfigured (lcd : Panel) (ins : list LoopIn) :
  forall d, saved d = no_config ->
            Forall (fun i => stores_config (web_request i) = false) ins ->
            stats (fst (run lcd ins d)) = stats d
            /\ Forall (fun e => is_http_get e = false) (snd (run lcd ins d)).
Proof.
  induction ins as [|i ins IH]; intros d H Hall.
  - split; [reflexivity|constructor].
  - inversion Hall as [|? ? Hi Hrest]; subst.
    rewrite run_cons_fst, run_cons_snd.
    destruct (loop_unconfigured lcd i d H Hi) as (H1 & S1 & E1).
    destruct (IH (fst (loop lcd i d)) H1 Hrest) as (S2 & E2).
    split; [congruence|]. rewrite Forall_app. auto.
Qed.

(** C7, as the claim states it, fails: [handleReset] does not disable
    polling.  It leaves [s_stats_active] set, and once the configuration
    service has stored a server configuration again (here without a network
    name, so that no association is attempted and the device stays in
    Provisioning) the next cadence tick issues a request and stores a
    sample. *)
Lemma reset_leaves_polling_enabled :
  let d := fst (handleReset monitoring_state) in
  let r := run panel_320x240 [pass_save_server_only; pass_cadence_due] d in
  s_stats_active d = true
  /\ mode_of d = Provisioning
  /\ mode_of (fst r) = Provisioning
  /\ stats (fst r) <> stats d
  /\ s_hist_idx (stats (fst r)) = 1
  /\ Exists (fun e => is_http_get e = true) (snd r).
Proof.
  split; [reflexivity|]. split; [reflexivity|]. split; [reflexivity|].
  split; [|split; [reflexivity|]].
  - intros H. apply (f_equal s_hist_idx) in H. vm_compute in H. discriminate.
  - apply Exists_exists.
    exists (metrics_request (mkConfig "" "" "192.168.4.2" "8080" "secret")).
    split; [|reflexivity].
    apply list_elem_of_In. vm_compute.
    right. right. right. left. reflexivity.
Qed.

(** C7, amended.  From every state, [handleReset] returns the device to
    Provisioning and clears the stored network and pairing configuration,
    in memory and on the file system.  It leaves the polling flag and the
    stats as they are; polling is held off by the empty configuration
    alone: a poll in the state after the reset does nothing, and as long as
    the configuration service stores no new configuration, no pass of the
    loop changes the sample history or the scalar telemetry or issues a
    request. *)
Theorem reset_returns_to_provisioning (lcd : Panel) (d : Dev) :
  let d' := fst (handleReset d) in
  mode_of d' = Provisioning
  /\ saved d' = no_config
  /\ config_file d' = None
  /\ In (FsRemove "/config.json") (snd (handleReset d))
  /\ s_config_complete d' = false
  /\ s_stats_active d' = s_stats_active d
  /\ stats d' = stats d
  /\ (forall reply, updateStatsFromServer lcd reply d' = (d', []))
  /\ (forall ins,
        Forall (fun i => stores_config (web_request i) = false) ins ->
        stats (fst (run lcd ins d')) = stats d
        /\ Forall (fun e => is_http_get e = false) (snd (run lcd ins d'))).
Proof.
  intros d'.
  assert (Hsaved : saved d' = no_config) by reflexivity.
  split; [reflexivity|]. split; [exact Hsaved|]. split; [reflexivity|].
  split; [now left|]. split; [reflexivity|]. split; [reflexivity|].
  split; [reflexivity|]. split.
  - intros reply. now apply poll_unconfigured.
  - intros ins Hall. apply (run_unconfigured lcd ins d' Hsaved Hall).
Qed.

Lemma reset_returns_to_provisioning_witness :
  Forall (fun i => stores_config (web_request i) = false) [pass_cadence_due; pass_touched]
  /\ stats (fst (run panel_320x240 [pass_cadence_due; pass_touched]
                   (fst (handleReset monitoring_state))))
     = stats monitoring_state.
Proof.
  assert (H : Forall (fun i => stores_config (web_request i) = false)
                     [pass_cadence_due; pass_touched]) by (repeat constructor).
  split; [exact H|].
  destruct (reset_returns_to_provisioning panel_320x240 monitoring_state)
    as (_ & _ & _ & _ & _ & _ & _ & _ & Hrun).
  apply (Hrun [pass_cadence_due; pass_touched] H).
Defined.

(** ** From the success screen to the main screen *)

Lemma connect_success (conn : ConnectIn) (d : Dev) :
  is_empty (s_saved_ssid (saved d)) = false ->
  wifi_status conn (S (wifi_wait (wifi_status conn) 60 0)) = true ->
  fst (connectToWiFi conn d)
  = set_showing_success true
      (set_success_start_time (t_success conn) (set_wifi_connected true d)).
Proof. intros H1 H2. unfold connectToWiFi. now rewrite H1, H2. Qed.

Lemma poll_issues_request (lcd : Panel) (reply : HttpReply) (d : Dev) :
  unpaired (saved d) = false ->
  exists rest, snd (updateStatsFromServer lcd reply d) = metrics_request (saved d) :: rest.
Proof.
  intros H. unfold updateStatsFromServer. rewrite H.
  destruct (http_code reply =? 200); [|eauto].
  destruct (http_doc reply); simpl; eauto.
Qed.

Lemma poll_keeps_mode (lcd : Panel) (reply : HttpReply) (d : Dev) :
  mode_of (fst (updateStatsFromServer lcd reply d)) = mode_of d.
Proof. now destruct (poll_only_stats lcd reply d) as (st & -> & _). Qed.

Lemma touch_keeps_mode (lcd : Panel) (i : LoopIn) (d : Dev) :
  mode_of (fst (loop_touch lcd i d)) = mode_of d.
Proof.
  rewrite loop_touch_eq. destruct (touched i); [|reflexivity].
  now destruct (s_touch_down d).
Qed.

Lemma poll_phase_keeps_mode (lcd : Panel) (i : LoopIn) (d : Dev) :
  mode_of (fst (loop_poll lcd i d)) = mode_of d.
Proof.
  rewrite loop_poll_eq. destruct (poll_due i d); [|reflexivity].
  now rewrite poll_keeps_mode.
Qed.

Lemma mode_Pairing (d : Dev) :
  mode_of d = Pairing <-> s_wifi_connected d = true /\ s_showing_success d = true.
Proof.
  unfold mode_of.
  destruct (s_wifi_connected d), (s_showing_success d), (s_stats_active d); simpl;
    split; try discriminate; try tauto; intros [? ?]; discriminate.
Qed.

(** C8.  When the association succeeds, [connectToWiFi] leaves the device
    showing the success screen (Pairing) whatever the one-shot pairing
    request then answers and whether or not a server is configured.  From
    any such state, a pass of the loop whose clock reading is less than
    1500 ms after the screen was shown leaves the device there; a pass
    whose reading is 1500 ms or more after it enters the main screen
    (Monitoring) and polls in that same pass: the transition runs
    [updateStatsFromServer] right after drawing the charts, with the time of
    the last poll set 2000 ms back, so a configured device issues its
    metrics request in that pass. *)
Theorem success_screen_leads_to_monitoring (lcd : Panel) (d : Dev) (i : LoopIn) :
  mode_of d = Pairing ->
  let elapsed := wrap_u32 (t_check i - s_success_start_time d) in
  let dm := main_screen_state (t_main i) (set_showing_success false d) in
  (elapsed < 1500 -> loop_transition lcd i d = (d, []))
  /\ (1500 <= elapsed ->
        mode_of (fst (loop_transition lcd i d)) = Monitoring
        /\ fst (loop_transition lcd i d) = fst (updateStatsFromServer lcd (reply_main i) dm)
        /\ snd (loop_transition lcd i d)
           = map Lcd (renderChartsLayout lcd (stats d))
             ++ snd (updateStatsFromServer lcd (reply_main i) dm)
        /\ s_last_stats_update dm = wrap_u32 (t_main i - 2000)
        /\ (unpaired (saved d) = false ->
              In (metrics_request (saved d)) (snd (loop lcd i d)))
        /\ (web_request i = None -> mode_of (fst (loop lcd i d)) = Monitoring))
  /\ (forall conn d0,
        is_empty (s_saved_ssid (saved d0)) = false ->
        wifi_status conn (S (wifi_wait (wifi_status conn) 60 0)) = true ->
        mode_of (fst (connectToWiFi conn d0)) = Pairing
        /\ s_success_start_time (fst (connectToWiFi conn d0)) = t_success conn).
Proof.
  intros Hmode elapsed dm.
  apply mode_Pairing in Hmode. destruct Hmode as [Hwifi Hshow].
  assert (Hel : success_elapsed i d = (1500 <=? elapsed))
    by (unfold success_elapsed; now rewrite Hshow).
  split; [|split].
  - intros Hlt. rewrite loop_transition_eq, Hel.
    destruct (Z.leb_spec 1500 elapsed); [lia|reflexivity].
  - intros Hge.
    assert (Et : loop_transition lcd i d
                 = displayMainScreen lcd (t_main i) (reply_main i)
                     (set_showing_success false d)).
    { rewrite loop_transition_eq, Hel.
      destruct (Z.leb_spec 1500 elapsed); [reflexivity|lia]. }
    destruct (displayMainScreen_eq lcd (t_main i) (reply_main i)
                (set_showing_success false d)) as [Ef Es].
    fold dm in Ef, Es. change (stats (set_showing_success false d)) with (stats d) in Es.
    assert (Hm : mode_of (fst (loop_transition lcd i d)) = Monitoring).
    { rewrite Et, Ef, poll_keeps_mode. unfold dm, mode_of. simpl. now rewrite Hwifi. }
    split; [exact Hm|]. split; [now rewrite Et|]. split; [now rewrite Et|].
    split; [reflexivity|]. split.
    + intros Hp. rewrite loop_snd, Et, Es.
      destruct (poll_issues_request lcd (reply_main i) dm Hp) as (rest & ->).
      apply in_or_app. left. apply in_or_app. right. now left.
    + intros Hweb. rewrite loop_fst, loop_service_fst, Hweb.
      change (fst (handleClient None ?x)) with x.
      now rewrite poll_phase_keeps_mode, touch_keeps_mode.
  - intros conn d0 Hssid Hup. rewrite (connect_success conn d0 Hssid Hup).
    split; reflexivity.
Qed.

Lemma success_screen_leads_to_monitoring_witness :
  let d := fst (connectToWiFi associates_at_once
                  (set_saved (mkConfig "home" "pw" "" "" "") (boot_state None))) in
  (mode_of d = Pairing
   /\ 1500 <= wrap_u32 (t_check pass_cadence_due - s_success_start_time d))
  /\ mode_of (fst (loop_transition panel_320x240 pass_cadence_due d)) = Monitoring.
Proof.
  intros d.
  assert (Hmode : mode_of d = Pairing) by reflexivity.
  assert (Hge : 1500 <= wrap_u32 (t_check pass_cadence_due - s_success_start_time d))
    by (vm_compute; discriminate).
  split; [split; [exact Hmode|exact Hge]|].
  destruct (success_screen_leads_to_monitoring panel_320x240 d pass_cadence_due Hmode)
    as (_ & H & _).
  exact (proj1 (H Hge)).
Defined.

(** ** Boot image *)

Lemma scale_step (w h W H s : Z) (fuel : nat) :
  0 <= s <= 4 ->
  scale_loop (S fuel) w h W H s
  = if (W <? Z.shiftr w s) || (H <? Z.shiftr h s)
    then if 4 <? s + 1 then s + 1 else scale_loop fuel w h W H (s + 1)
    else s.
Proof.
  intros Hs. cbn [scale_loop]. unfold iadd.
  rewrite wrap_int_small by (unfold INT_MIN, INT_MAX; lia). reflexivity.
Qed.

(** The downscale loop, iteration by iteration. *)
Lemma scale_loop_unrolled (w h W H : Z) (more : nat) :
  let c k := (W <? Z.shiftr w k) || (H <? Z.shiftr h k) in
  scale_loop (5 + more) w h W H 0
  = if c 0 then if c 1 then if c 2 then if c 3 then if c 4 then 5 else 4
                                        else 3
                            else 2
                else 1
    else 0.
Proof.
  intros c. subst c. cbv beta.
  change (5 + more)%nat with (S (S (S (S (S more))))).
  rewrite (scale_step w h W H 0) by lia.
  destruct ((W <? Z.shiftr w 0) || (H <? Z.shiftr h 0)); [|reflexivity].
  change (4 <? 0 + 1) with false. cbv iota. change (0 + 1) with 1.
  rewrite (scale_step w h W H 1) by lia.
  destruct ((W <? Z.shiftr w 1) || (H <? Z.shiftr h 1)); [|reflexivity].
  change (4 <? 1 + 1) with false. cbv iota. change (1 + 1) with 2.
  rewrite (scale_step w h W H 2) by lia.
  destruct ((W <? Z.shiftr w 2) || (H <? Z.shiftr h 2)); [|reflexivity].
  change (4 <? 2 + 1) with false. cbv iota. change (2 + 1) with 3.
  rewrite (scale_step w h W H 3) by lia.
  destruct ((W <? Z.shiftr w 3) || (H <? Z.shiftr h 3)); [|reflexivity].
  change (4 <? 3 + 1) with false. cbv iota. change (3 + 1) with 4.
  rewrite (scale_step w h W H 4) by lia.
  destruct ((W <? Z.shiftr w 4) || (H <? Z.shiftr h 4)); reflexivity.
Qed.

Lemma no_fit_spec (w h W H k : Z) :
  (W <? Z.shiftr w k) || (H <? Z.shiftr h k) = false
  <-> Z.shiftr w k <= W /\ Z.shiftr h k <= H.
Proof. rewrite orb_false_iff, !Z.ltb_ge. reflexivity. Qed.

(** X1.  The downscale loop of [drawBootImage] ends within five
    iterations, whatever the sizes.  Its scale is between 0 and 5; it is
    the least scale at which the image fits the screen when there is one
    up to 4, and 5 when the image does not fit at any scale up to 4. *)
Theorem boot_scale_spec (w h : Z) (lcd : Panel) :
  let fits k := Z.shiftr w k <= lcd_width lcd /\ Z.shiftr h k <= lcd_height lcd in
  let s := boot_scale w h lcd in
  (forall more : nat,
     scale_loop (5 + more) w h (lcd_width lcd) (lcd_height lcd) 0 = s)
  /\ 0 <= s <= 5
  /\ (s <= 4 -> fits s)
  /\ (forall k, 0 <= k < s -> k <= 4 -> ~ fits k).
Proof.
  intros fits s. subst s fits. cbv beta.
  set (W := lcd_width lcd). set (H := lcd_height lcd).
  pose proof (scale_loop_unrolled w h W H 0) as Hs. cbv zeta beta in Hs.
  change (scale_loop (5 + 0) w h W H 0) with (boot_scale w h lcd) in Hs.
  split; [intros more; rewrite Hs; apply scale_loop_unrolled|].
  rewrite Hs. clear Hs.
  assert (Hcases : forall k, 0 <= k <= 4 -> k = 0 \/ k = 1 \/ k = 2 \/ k = 3 \/ k = 4)
    by (intros; lia).
  destruct ((W <? Z.shiftr w 0) || (H <? Z.shiftr h 0)) eqn:E0;
    [destruct ((W <? Z.shiftr w 1) || (H <? Z.shiftr h 1)) eqn:E1;
     [destruct ((W <? Z.shiftr w 2) || (H <? Z.shiftr h 2)) eqn:E2;
      [destruct ((W <? Z.shiftr w 3) || (H <? Z.shiftr h 3)) eqn:E3;
       [destruct ((W <? Z.shiftr w 4) || (H <? Z.shiftr h 4)) eqn:E4|]|]|]|];
    (split; [lia|]; split;
     [intros Hle; try lia; now apply no_fit_spec
     |intros k Hk Hk4 Hfit; apply no_fit_spec in Hfit;
      destruct (Hcases k ltac:(lia)) as [->|[->|[->|[->| ->]]]]; try lia; congruence]).
Qed.

Lemma boot_scale_fits (w h : Z) (lcd : Panel) :
  boot_scale w h lcd <= 4 ->
  Z.shiftr w (boot_scale w h lcd) <= lcd_width lcd
  /\ Z.shiftr h (boot_scale w h lcd) <= lcd_height lcd.
Proof.
  set (W := lcd_width lcd). set (H := lcd_height lcd).
  pose proof (scale_loop_unrolled w h W H 0) as Hs. cbv zeta beta in Hs.
  change (scale_loop (5 + 0) w h W H 0) with (boot_scale w h lcd) in Hs.
  rewrite Hs. clear Hs.
  destruct ((W <? Z.shiftr w 0) || (H <? Z.shiftr h 0)) eqn:E0;
    [destruct ((W <? Z.shiftr w 1) || (H <? Z.shiftr h 1)) eqn:E1;
     [destruct ((W <? Z.shiftr w 2) || (H <? Z.shiftr h 2)) eqn:E2;
      [destruct ((W <? Z.shiftr w 3) || (H <? Z.shiftr h 3)) eqn:E3;
       [destruct ((W <? Z.shiftr w 4) || (H <? Z.shiftr h 4)) eqn:E4|]|]|]|];
    intros Hle; try lia; now apply no_fit_spec.
Qed.

Lemma centred_offset (W dw : Z) :
  0 <= dw <= W -> W <= INT_MAX ->
  let x := ((W - dw) / 2)%int in
  0 <= x /\ x + dw <= W /\ 0 <= W - dw - 2 * x <= 1.
Proof.
  intros Hdw HW x. subst x. unfold idiv, isub.
  assert (HM : INT_MAX = 2147483647) by reflexivity.
  assert (Hm : INT_MIN = -2147483648) by reflexivity.
  rewrite (wrap_int_small (W - dw)) by lia.
  rewrite Z.quot_div_nonneg by lia.
  pose proof (Z.div_mod (W - dw) 2 ltac:(lia)) as E.
  pose proof (Z.mod_pos_bound (W - dw) 2 ltac:(lia)) as B.
  rewrite wrap_int_small by lia. lia.
Qed.

(** X2.  When the downscale loop ends at a scale up to 4, the scaled logo
    lies on the screen and is centred: the margins left and right, and
    above and below, differ by at most one pixel. *)
Theorem boot_image_centred (w h : Z) (lcd : Panel) :
  0 <= w -> 0 <= h ->
  lcd_width lcd <= INT_MAX -> lcd_height lcd <= INT_MAX ->
  boot_scale w h lcd <= 4 ->
  let p := boot_placement w h lcd in
  (0 <= s_png_x p /\ s_png_x p + png_dw p <= lcd_width lcd
   /\ 0 <= lcd_width lcd - png_dw p - 2 * s_png_x p <= 1)
  /\ (0 <= s_png_y p /\ s_png_y p + png_dh p <= lcd_height lcd
      /\ 0 <= lcd_height lcd - png_dh p - 2 * s_png_y p <= 1).
Proof.
  intros Hw Hh HW HH Hs p.
  destruct (boot_scale_fits w h lcd Hs) as [Fw Fh].
  subst p. unfold boot_placement. cbn [s_png_x s_png_y png_dw png_dh].
  split; apply centred_offset; try assumption; split; try assumption;
    apply Z.shiftr_nonneg; assumption.
Qed.

Lemma boot_image_centred_witness :
  boot_scale 640 480 panel_320x240 <= 4
  /\ (0 <= s_png_x (boot_placement 640 480 panel_320x240)
      /\ s_png_x (boot_placement 640 480 panel_320x240)
         + png_dw (boot_placement 640 480 panel_320x240) <= 320
      /\ 0 <= 320 - png_dw (boot_placement 640 480 panel_320x240)
              - 2 * s_png_x (boot_placement 640 480 panel_320x240) <= 1).
Proof.
  assert (H1 : 0 <= 640) by lia.
  assert (H2 : 0 <= 480) by lia.
  assert (H3 : lcd_width panel_320x240 <= INT_MAX) by discriminate.
  assert (H4 : lcd_height panel_320x240 <= INT_MAX) by discriminate.
  assert (H5 : boot_scale 640 480 panel_320x240 <= 4) by discriminate.
  exact (conj H5 (proj1 (boot_image_centred 640 480 panel_320x240 H1 H2 H3 H4 H5))).
Defined.

(** ** Network scan *)

Lemma seen_spec (seen : list string) (s : string) :
  existsb (fun x => String.eqb x s) seen = true <-> s ∈ seen.
Proof.
  rewrite existsb_exists, list_elem_of_In. split.
  - intros (x & Hx & E). apply String.eqb_eq in E. now subst.
  - intros H. exists s. split; [exact H|apply String.eqb_refl].
Qed.

Lemma is_empty_false (s : string) : is_empty s = false <-> s <> "".
Proof. destruct s; simpl; split; congruence. Qed.

Lemma scan_loop_inv (nets : list Network) :
  forall (seen : list string) (html : string),
    NoDup seen -> (length seen <= 32)%nat ->
    exists listed,
      sublist listed nets
      /\ fst (scan_loop nets seen html) = seen ++ map net_ssid listed
      /\ snd (scan_loop nets seen html) = fold_left scan_append listed html
      /\ NoDup (seen ++ map net_ssid listed)
      /\ Forall (fun net => net_ssid net <> "") listed
      /\ (length (seen ++ map net_ssid listed) <= 32)%nat
      /\ ((length (seen ++ map net_ssid listed) < 32)%nat ->
          forall net, net ∈ nets -> net_ssid net <> "" ->
                      net_ssid net ∈ seen ++ map net_ssid listed).
Proof.
  induction nets as [|net rest IH]; intros seen html Hnd Hlen.
  - exists []. cbn. rewrite app_nil_r.
    repeat split; auto using sublist_nil.
    intros _ net H. inversion H.
  - cbn [scan_loop].
    destruct (32 <=? length seen)%nat eqn:Efull.
    { apply Nat.leb_le in Efull. exists []. cbn. rewrite app_nil_r.
      repeat split; auto using sublist_nil_l. lia. }
    apply Nat.leb_gt in Efull.
    destruct (is_empty (net_ssid net)) eqn:Eempty.
    { destruct (IH seen html Hnd Hlen) as (listed & S & F & B & N & NE & L & C).
      exists listed. repeat split; auto using sublist_cons.
      intros Hlt net' Hin Hne. apply elem_of_cons in Hin as [->|Hin]; [|now apply C].
      apply is_empty_true in Eempty. contradiction. }
    destruct (existsb (fun s => String.eqb s (net_ssid net)) seen) eqn:Edup.
    { destruct (IH seen html Hnd Hlen) as (listed & S & F & B & N & NE & L & C).
      exists listed. repeat split; auto using sublist_cons.
      intros Hlt net' Hin Hne. apply elem_of_cons in Hin as [->|Hin]; [|now apply C].
      apply seen_spec in Edup. apply elem_of_app. now left. }
    assert (Hnew : net_ssid net ∉ seen).
    { intros Hin. apply seen_spec in Hin. congruence. }
    assert (Hnd' : NoDup (seen ++ [net_ssid net])).
    { apply NoDup_app. split; [exact Hnd|]. split.
      - intros x Hx Hx'. apply list_elem_of_singleton in Hx'. now subst.
      - apply NoDup_singleton. }
    assert (Hlen' : (length (seen ++ [net_ssid net]) <= 32)%nat)
      by (rewrite length_app; cbn; lia).
    destruct (IH (seen ++ [net_ssid net]) (scan_append html net) Hnd' Hlen')
      as (listed & S & F & B & N & NE & L & C).
    exists (net :: listed). cbn [map fold_left].
    replace (seen ++ net_ssid net :: map net_ssid listed)
      with ((seen ++ [net_ssid net]) ++ map net_ssid listed)
      by (now rewrite <- app_assoc).
    repeat split; auto using sublist_skip.
    + constructor; [|exact NE]. now apply is_empty_false.
    + intros Hlt net' Hin Hne. apply elem_of_cons in Hin as [->|Hin]; [|now apply C].
      apply elem_of_app. left. apply elem_of_app. right. now left.
Qed.

(** X3.  The list built by [handleScan] names no network twice and no
    hidden (empty-named) network, holds at most 32 names, and keeps the
    order of the scan; the body sent is one entry per listed network, in
    that order. *)
Theorem scan_listing (n : Z) (nets : list Network) :
  let names := fst (scan_result n nets) in
  NoDup names
  /\ Forall (fun s => s <> "") names
  /\ (length names <= 32)%nat
  /\ exists listed,
       sublist listed (take (Z.to_nat n) nets)
       /\ names = map net_ssid listed
       /\ (n <> 0 -> handleScan n nets = fold_left scan_append listed "").
Proof.
  intros names. subst names. unfold handleScan, scan_result.
  destruct (n =? 0) eqn:En.
  - cbn. split; [constructor|]. split; [constructor|]. split; [lia|].
    exists []. split; [apply sublist_nil_l|]. split; [reflexivity|].
    apply Z.eqb_eq in En. intros H. contradiction.
  - destruct (scan_loop_inv (take (Z.to_nat n) nets) [] "" NoDup_nil_2 ltac:(cbn; lia))
      as (listed & S & F & B & N & NE & L & _).
    cbn [app] in F, N, L. rewrite F.
    split; [exact N|]. split.
    + apply Forall_map. exact NE.
    + split; [exact L|]. exists listed. split; [exact S|]. split; [reflexivity|].
      intros _. exact B.
Qed.

(** X4.  When fewer than 32 names are listed, every network of the scan
    that has a name is listed. *)
Theorem scan_listing_complete (n : Z) (nets : list Network) (net : Network) :
  n = Z.of_nat (length nets) ->
  (length (fst (scan_result n nets)) < 32)%nat ->
  net ∈ nets -> net_ssid net <> "" ->
  net_ssid net ∈ fst (scan_result n nets).
Proof.
  intros Hn Hlt Hin Hne. unfold scan_result in *.
  destruct (n =? 0) eqn:En.
  - apply Z.eqb_eq in En. destruct nets; [inversion Hin|cbn in Hn; lia].
  - assert (Ht : take (Z.to_nat n) nets = nets)
      by (apply take_ge; lia).
    rewrite Ht in *.
    destruct (scan_loop_inv nets [] "" NoDup_nil_2 ltac:(cbn; lia))
      as (listed & S & F & B & N & NE & L & C).
    cbn [app] in *. rewrite F in *. now apply C.
Qed.

Lemma scan_listing_complete_witness :
  let nets := [ mkNetwork "home" (-50) false; mkNetwork "" (-60) true;
                mkNetwork "home" (-70) false; mkNetwork "cafe" (-80) true ] in
  fst (scan_result 4 nets) = ["home"; "cafe"]
  /\ "cafe" ∈ fst (scan_result 4 nets).
Proof.
  intros nets. split; [reflexivity|].
  apply (scan_listing_complete 4 nets (mkNetwork "cafe" (-80) true)).
  - reflexivity.
  - apply Nat.ltb_lt. reflexivity.
  - unfold nets. apply list_elem_of_In. cbn. auto.
  - discriminate.
Defined.

Lemma scan_loop_hidden (nets : list Network) (seen : list string) (html : string) :
  Forall (fun net => net_ssid net = "") nets ->
  scan_loop nets seen html = (seen, html).
Proof.
  induction 1 as [|net rest Hnet _ IH]; [reflexivity|].
  cbn [scan_loop]. rewrite Hnet. cbn [is_empty].
  rewrite IH. now destruct (32 <=? length seen)%nat.
Qed.

(** X5.  What [handleScan] sends when there is nothing to list: the
    no-networks message only when the scan reports exactly 0 networks; an
    empty body when the scan failed (a negative count) and when every
    network found is hidden. *)
Theorem scan_nothing_to_list (n : Z) (nets : list Network) :
  (n = 0 -> handleScan n nets = "<p>No networks found</p>")
  /\ (n < 0 -> handleScan n nets = "")
  /\ (n <> 0 -> Forall (fun net => net_ssid net = "") nets -> handleScan n nets = "").
Proof.
  unfold handleScan, scan_result. split; [intros ->; reflexivity|]. split.
  - intros Hn. destruct (Z.eqb_spec n 0) as [E|_]; [lia|].
    replace (Z.to_nat n) with 0%nat by lia. reflexivity.
  - intros Hn Hall. destruct (Z.eqb_spec n 0) as [E|_]; [contradiction|].
    rewrite scan_loop_hidden; [reflexivity|].
    apply Forall_take, Hall.
Qed.

(** ** Start-up and the connection attempt *)

Lemma tally_app (p : Effect -> bool) (a b : list Effect) :
  tally p (a ++ b) = (tally p a + tally p b)%nat.
Proof. induction a as [|e a IH]; cbn; [reflexivity|]. rewrite IH. lia. Qed.

Lemma tally_none (p : Effect -> bool) (es : list Effect) :
  Forall (fun e => p e = false) es -> tally p es = 0%nat.
Proof. induction 1 as [|e es He _ IH]; cbn; [reflexivity|]. now rewrite He, IH. Qed.

Lemma tally_replicate (p : Effect -> bool) (n : nat) (e : Effect) :
  tally p (replicate n e) = if p e then n else 0%nat.
Proof.
  induction n as [|n IH]; cbn; [now destruct (p e)|].
  rewrite IH. now destruct (p e).
Qed.

(** The association loop stops at the first query that finds the station
    connected, and after [fuel] queries at the latest. *)
Lemma wifi_wait_spec (status : nat -> bool) (fuel : nat) :
  forall a0 : nat,
    let a := wifi_wait status fuel a0 in
    (a0 <= a <= a0 + fuel)%nat
    /\ (forall k, (a0 <= k < a)%nat -> status k = false)
    /\ ((a < a0 + fuel)%nat -> status a = true).
Proof.
  induction fuel as [|fuel IH]; intros a0; cbn [wifi_wait].
  - cbv zeta. split; [lia|]. split; [intros k Hk; lia|lia].
  - destruct (status a0) eqn:E.
    + cbv zeta. split; [lia|]. split; [intros k Hk; lia|auto].
    + destruct (IH (S a0)) as (R & F & T). cbv zeta in *.
      split; [lia|]. split.
      * intros k Hk. destruct (Nat.eq_dec k a0) as [->|Hne]; [exact E|].
        apply F. lia.
      * intros Hlt. apply T. lia.
Qed.

(** The three courses of [connectToWiFi]. *)
Lemma connectToWiFi_cases (conn : ConnectIn) (d : Dev) :
  let attempts := wifi_wait (wifi_status conn) 60 0 in
  let waiting :=
    [WiFiModeSTA; WiFiBegin (s_saved_ssid (saved d)) (s_saved_password (saved d))]
    ++ replicate attempts (Delay 500) in
  connectToWiFi conn d
  = if is_empty (s_saved_ssid (saved d)) then (d, [])
    else if wifi_status conn (S attempts)
    then (set_showing_success true
            (set_success_start_time (t_success conn) (set_wifi_connected true d)),
          waiting ++ [DnsStop; WebBegin]
          ++ [Lcd (WiFiSuccessScreen (s_saved_ssid (saved d)))]
          ++ snd (pairWithSentinelServer (saved d) (pair_code conn)))
    else (set_wifi_connected false d, waiting ++ [WiFiModeAP; SoftAP "Sentinel"; DnsStart]).
Proof.
  cbv zeta. unfold connectToWiFi.
  destruct (is_empty (s_saved_ssid (saved d))); [reflexivity|].
  destruct (wifi_status conn (S (wifi_wait (wifi_status conn) 60 0))); reflexivity.
Qed.

Lemma connectToWiFi_keeps_file (conn : ConnectIn) (d : Dev) :
  config_file (fst (connectToWiFi conn d)) = config_file d
  /\ s_config_complete (fst (connectToWiFi conn d)) = s_config_complete d
  /\ saved (fst (connectToWiFi conn d)) = saved d
  /\ s_stats_active (fst (connectToWiFi conn d)) = s_stats_active d.
Proof.
  rewrite connectToWiFi_cases. cbv zeta.
  destruct (is_empty (s_saved_ssid (saved d))); [auto|].
  destruct (wifi_status conn _); cbn; auto.
Qed.

Lemma pairing_tally (p : Effect -> bool) (c : Config) (code : Z) :
  p (Delay 2000) = false -> (forall a b, p (Lcd (PairingResultScreen a b)) = false) ->
  p HttpEnd = false -> (forall u b, p (HttpGet u b) = false) ->
  tally p (snd (pairWithSentinelServer c code)) = 0%nat.
Proof.
  intros H1 H2 H3 H4. unfold pairWithSentinelServer, displayPairingResult, metrics_request.
  destruct (unpaired c); [|destruct (code =? 200)]; cbn; now rewrite ?H1, ?H2, ?H3, ?H4.
Qed.

(** X6.  [connectToWiFi] with a network name makes one station attempt and
    waits at most 60 half-seconds: as many as queries found the station
    not yet connected. *)
Theorem connect_wait_bounded (conn : ConnectIn) (d : Dev) :
  is_empty (s_saved_ssid (saved d)) = false ->
  let es := snd (connectToWiFi conn d) in
  let a := wifi_wait (wifi_status conn) 60 0 in
  tally is_station_attempt es = 1%nat
  /\ tally is_wait es = a
  /\ (a <= 60)%nat
  /\ (forall k, (k < a)%nat -> wifi_status conn k = false)
  /\ ((a < 60)%nat -> wifi_status conn a = true).
Proof.
  intros Hssid es a. subst es.
  destruct (wifi_wait_spec (wifi_status conn) 60 0) as (R & F & T). fold a in R, F, T.
  rewrite connectToWiFi_cases, Hssid. cbv zeta. fold a.
  assert (Hp1 : tally is_station_attempt (snd (pairWithSentinelServer (saved d) (pair_code conn))) = 0%nat)
    by (apply pairing_tally; reflexivity || (intros; reflexivity)).
  assert (Hp2 : tally is_wait (snd (pairWithSentinelServer (saved d) (pair_code conn))) = 0%nat)
    by (apply pairing_tally; reflexivity || (intros; reflexivity)).
  split; [|split; [|split; [lia|split; [intros k Hk; apply F; lia|intros H; apply T; lia]]]].
  - destruct (wifi_status conn (S a)); cbn [snd];
      rewrite !tally_app, tally_replicate, ?Hp1; cbn; lia.
  - destruct (wifi_status conn (S a)); cbn [snd];
      rewrite !tally_app, tally_replicate, ?Hp2; cbn; lia.
Qed.

Lemma connect_wait_bounded_witness :
  is_empty (s_saved_ssid (saved monitoring_state)) = false
  /\ tally is_wait (snd (connectToWiFi never_associates monitoring_state)) = 60%nat.
Proof.
  assert (H : is_empty (s_saved_ssid (saved monitoring_state)) = false) by reflexivity.
  split; [exact H|].
  exact (proj1 (proj2 (connect_wait_bounded never_associates monitoring_state H))).
Defined.

(** X7.  When the station never connects, [connectToWiFi] gives up after
    60 waits (30 s), clears [s_wifi_connected] and brings the access point
    back; it shows nothing and asks the server nothing. *)
Theorem connect_gives_up (conn : ConnectIn) (d : Dev) :
  is_empty (s_saved_ssid (saved d)) = false ->
  (forall k, wifi_status conn k = false) ->
  connectToWiFi conn d
  = (set_wifi_connected false d,
     [WiFiModeSTA; WiFiBegin (s_saved_ssid (saved d)) (s_saved_password (saved d))]
     ++ replicate 60 (Delay 500)
     ++ [WiFiModeAP; SoftAP "Sentinel"; DnsStart]).
Proof.
  intros Hssid Hnever.
  destruct (wifi_wait_spec (wifi_status conn) 60 0) as (R & F & T). cbv zeta in *.
  assert (Ha : wifi_wait (wifi_status conn) 60 0 = 60%nat).
  { destruct (Nat.eq_dec (wifi_wait (wifi_status conn) 60 0) 60%nat) as [E|N]; [exact E|].
    rewrite Hnever in T. assert (false = true) by (apply T; lia). discriminate. }
  rewrite connectToWiFi_cases, Hssid. cbv zeta. rewrite Ha, Hnever.
  now rewrite <- app_assoc.
Qed.

Lemma connect_gives_up_witness :
  is_empty (s_saved_ssid (saved monitoring_state)) = false
  /\ mode_of (fst (connectToWiFi never_associates monitoring_state)) = Provisioning.
Proof.
  assert (H : is_empty (s_saved_ssid (saved monitoring_state)) = false) by reflexivity.
  split; [exact H|].
  rewrite (connect_gives_up never_associates monitoring_state H (fun _ => eq_refl)).
  reflexivity.
Defined.

(** X8.  When the station is connected from the [k0]-th query on, with
    [k0 < 60], [connectToWiFi] waits exactly [k0] half-seconds, then sets
    [s_wifi_connected], starts the web server once, shows the success
    screen and stamps it: the device is in Pairing. *)
Theorem connect_as_soon_as_ready (conn : ConnectIn) (d : Dev) (k0 : nat) :
  is_empty (s_saved_ssid (saved d)) = false ->
  (k0 < 60)%nat ->
  (forall k, wifi_status conn k = bool_decide (k0 <= k)%nat) ->
  let d' := fst (connectToWiFi conn d) in
  let es := snd (connectToWiFi conn d) in
  tally is_wait es = k0
  /\ tally is_web_begin es = 1%nat
  /\ Lcd (WiFiSuccessScreen (s_saved_ssid (saved d))) ∈ es
  /\ s_wifi_connected d' = true
  /\ s_success_start_time d' = t_success conn
  /\ mode_of d' = Pairing.
Proof.
  intros Hssid Hk0 Hst d' es. subst d' es.
  destruct (wifi_wait_spec (wifi_status conn) 60 0) as (R & F & T). cbv zeta in *.
  set (a := wifi_wait (wifi_status conn) 60 0) in *.
  assert (Ha : a = k0).
  { destruct (Nat.lt_trichotomy a k0) as [Hlt|[E|Hgt]]; [|exact E|].
    - assert (Hs : wifi_status conn a = true) by (apply T; lia).
      rewrite Hst in Hs. apply bool_decide_eq_true in Hs. lia.
    - assert (Hs : wifi_status conn k0 = false) by (apply F; lia).
      rewrite Hst in Hs. apply bool_decide_eq_false in Hs. lia. }
  rewrite connectToWiFi_cases, Hssid. cbv zeta. fold a. rewrite Ha.
  assert (Hfin : wifi_status conn (S k0) = true)
    by (rewrite Hst; apply bool_decide_eq_true; lia).
  rewrite Hfin. cbn [fst snd].
  assert (Hp1 : forall c code, tally is_wait (snd (pairWithSentinelServer c code)) = 0%nat)
    by (intros; apply pairing_tally; reflexivity || (intros; reflexivity)).
  assert (Hp2 : forall c code, tally is_web_begin (snd (pairWithSentinelServer c code)) = 0%nat)
    by (intros; apply pairing_tally; reflexivity || (intros; reflexivity)).
  split; [rewrite !tally_app, tally_replicate, Hp1; cbn; lia|].
  split; [rewrite !tally_app, tally_replicate, Hp2; cbn; lia|].
  split.
  { apply elem_of_app. right. apply elem_of_app. right. apply elem_of_app. left.
    apply list_elem_of_singleton. reflexivity. }
  split; [reflexivity|]. split; reflexivity.
Qed.

Lemma connect_as_soon_as_ready_witness :
  let conn := mkConnectIn (fun k => bool_decide (3 <= k)%nat) 7000 200 in
  (is_empty (s_saved_ssid (saved monitoring_state)) = false /\ (3 < 60)%nat)
  /\ tally is_wait (snd (connectToWiFi conn monitoring_state)) = 3%nat.
Proof.
  intros conn.
  assert (H : is_empty (s_saved_ssid (saved monitoring_state)) = false) by reflexivity.
  assert (H3 : (3 < 60)%nat) by lia.
  split; [split; [exact H|exact H3]|].
  exact (proj1 (connect_as_soon_as_ready conn monitoring_state 3 H H3 (fun _ => eq_refl))).
Defined.

(** [setup], step by step. *)
Lemma setup_eq (i : SetupIn) (d0 : Dev) :
  let d1 := fst (loadConfig (parse_ok i) d0) in
  let r2 := if is_empty (s_saved_ssid (saved d1)) then (d1, [])
            else connectToWiFi (boot_conn i) d1 in
  setup i d0
  = (fst r2,
     [Delay 200; Delay 100; Delay 50; Lcd BootImage; Delay 2000]
     ++ snd r2
     ++ (if s_wifi_connected (fst r2) then []
         else [WiFiModeAP; SoftAP "Sentinel"; DnsStart; WebBegin; Lcd BootImage])).
Proof.
  cbv zeta. unfold setup, seq_act, when, emit, startCaptivePortal.
  assert (Hl : snd (loadConfig (parse_ok i) d0) = []).
  { unfold loadConfig. destruct (config_file d0); [destruct (parse_ok i)|]; reflexivity. }
  destruct (loadConfig (parse_ok i) d0) as [d1 e1]. cbn [fst snd] in *. subst e1.
  destruct (is_empty (s_saved_ssid (saved d1))); cbn [negb fst snd].
  - destruct (s_wifi_connected d1); reflexivity.
  - destruct (connectToWiFi (boot_conn i) d1) as [d2 e2]. cbn [fst snd].
    destruct (s_wifi_connected d2); cbn [negb]; cbn [app]; rewrite ?app_nil_r; reflexivity.
Qed.

Lemma loadConfig_boot (p : bool) (file : option Config) :
  let d1 := fst (loadConfig p (boot_state file)) in
  s_wifi_connected d1 = false /\ s_showing_success d1 = false
  /\ s_stats_active d1 = false /\ config_file d1 = file
  /\ saved d1 = (if p then default no_config file else no_config).
Proof.
  unfold loadConfig. cbn [config_file boot_state].
  destruct file as [c|]; [destruct p|destruct p]; cbn; auto.
Qed.

(** X9.  Whatever file and network [setup] meets, it leaves the device in
    Provisioning or in Pairing with polling off, and it starts the web
    server exactly once; the access point is brought up exactly when the
    device ends in Provisioning, and a station attempt is made exactly when
    a network name was loaded. *)
Theorem setup_outcome (i : SetupIn) (file : option Config) :
  let d := fst (setup i (boot_state file)) in
  let es := snd (setup i (boot_state file)) in
  (mode_of d = Provisioning \/ mode_of d = Pairing)
  /\ s_stats_active d = false
  /\ tally is_web_begin es = 1%nat
  /\ (mode_of d = Provisioning <-> (0 < tally is_soft_ap es)%nat)
  /\ tally is_station_attempt es = (if is_empty (s_saved_ssid (saved d)) then 0 else 1)%nat.
Proof.
  intros d es. subst d es. rewrite setup_eq. cbv zeta. cbn [fst snd].
  destruct (loadConfig_boot (parse_ok i) file) as (W & Sh & A & _ & _). cbv zeta in *.
  set (d1 := fst (loadConfig (parse_ok i) (boot_state file))) in *.
  assert (Hp : forall p, p (Delay 2000) = false ->
               (forall a b, p (Lcd (PairingResultScreen a b)) = false) ->
               p HttpEnd = false -> (forall u b, p (HttpGet u b) = false) ->
               tally p (snd (pairWithSentinelServer (saved d1) (pair_code (boot_conn i)))) = 0%nat)
    by (intros; now apply pairing_tally).
  destruct (is_empty (s_saved_ssid (saved d1))) eqn:Essid; cbn [fst snd].
  - rewrite W, Essid. unfold mode_of. rewrite W, A. cbn. repeat split; auto; lia.
  - rewrite connectToWiFi_cases, Essid. cbv zeta.
    generalize (wifi_wait (wifi_status (boot_conn i)) 60 0). intros a.
    destruct (wifi_status (boot_conn i) (S a)); cbn [fst snd].
    + change (saved (set_showing_success true
                (set_success_start_time (t_success (boot_conn i))
                   (set_wifi_connected true d1)))) with (saved d1).
      rewrite Essid.
      rewrite !tally_app, !tally_replicate, !Hp by (reflexivity || (intros; reflexivity)).
      unfold mode_of. cbn. repeat split; auto; try lia; try discriminate.
    + change (saved (set_wifi_connected false d1)) with (saved d1).
      rewrite Essid. rewrite !tally_app, !tally_replicate.
      unfold mode_of. cbn. rewrite ?A. repeat split; auto; lia.
Qed.

(** X10.  Without a stored file, or with one that does not parse, [setup]
    makes no station attempt: it brings up the access point with the
    captive portal and stays in Provisioning with an empty configuration. *)
Theorem setup_unconfigured (i : SetupIn) (file : option Config) :
  file = None \/ parse_ok i = false ->
  setup i (boot_state file)
  = (boot_state file,
     [Delay 200; Delay 100; Delay 50; Lcd BootImage; Delay 2000;
      WiFiModeAP; SoftAP "Sentinel"; DnsStart; WebBegin; Lcd BootImage]).
Proof.
  intros H. rewrite setup_eq. cbv zeta.
  assert (Hl : fst (loadConfig (parse_ok i) (boot_state file)) = boot_state file).
  { unfold loadConfig. cbn [config_file boot_state].
    destruct H as [-> | ->]; [reflexivity|]. now destruct file. }
  rewrite Hl. reflexivity.
Qed.

Lemma setup_unconfigured_witness :
  fst (restart (mkSetupIn true associates_at_once) (fst (handleReset monitoring_state)))
  = boot_state None.
Proof.
  unfold restart.
  change (config_file (fst (handleReset monitoring_state))) with (@None Config).
  now rewrite (setup_unconfigured (mkSetupIn true associates_at_once) None (or_introl eq_refl)).
Defined.

(** ** The configuration service, across a restart *)

Lemma handleSave_stored (c : Config) (conn : ConnectIn) (d : Dev) :
  let d1 := fst (handleSave true (Some c) true conn d) in
  config_file d1 = Some c /\ saved d1 = c /\ s_config_complete d1 = true.
Proof.
  cbv zeta. unfold handleSave. cbn [negb].
  set (d2 := set_config_complete true (set_config_file (Some c) (set_saved c d))).
  destruct (connectToWiFi_keeps_file conn d2) as (F & C & S & _).
  destruct (negb (is_empty (s_saved_ssid c))).
  - destruct (connectToWiFi conn d2) as [d3 e3]. cbn [fst] in *.
    rewrite F, C, S. auto.
  - cbn [fst]. auto.
Qed.

(** X11.  A configuration that [handleSave] stored survives a restart: the
    file holds it, and [setup] loads it back into memory, whatever the
    course of the connection attempts. *)
Theorem saved_config_survives_restart (c : Config) (conn : ConnectIn) (d : Dev)
    (i : SetupIn) :
  parse_ok i = true ->
  let d1 := fst (handleSave true (Some c) true conn d) in
  let d2 := fst (restart i d1) in
  config_file d1 = Some c
  /\ saved d2 = c /\ s_config_complete d2 = true /\ config_file d2 = Some c.
Proof.
  intros Hp d1 d2. subst d2 d1.
  destruct (handleSave_stored c conn d) as (F & _ & _). cbv zeta in F.
  split; [exact F|]. unfold restart. rewrite F, setup_eq. cbv zeta. cbn [fst].
  rewrite Hp.
  change (fst (loadConfig true (boot_state (Some c))))
    with (set_config_complete true (set_saved c (boot_state (Some c)))).
  set (d0 := set_config_complete true (set_saved c (boot_state (Some c)))).
  destruct (connectToWiFi_keeps_file (boot_conn i) d0) as (F' & C' & S' & _).
  destruct (is_empty (s_saved_ssid (saved d0))); cbn [fst].
  - auto.
  - rewrite F', C', S'. auto.
Qed.

Lemma saved_config_survives_restart_witness :
  parse_ok (mkSetupIn true never_associates) = true
  /\ saved (fst (restart (mkSetupIn true never_associates)
                   (fst (handleSave true (Some home_config) true associates_at_once
                           (boot_state None)))))
     = home_config.
Proof.
  split; [reflexivity|].
  exact (proj1 (proj2 (saved_config_survives_restart home_config associates_at_once
                         (boot_state None) (mkSetupIn true never_associates) eq_refl))).
Defined.

(** X12.  When the file cannot be opened for writing, [handleSave] still
    answers 200 "OK" and keeps the new strings in memory, but nothing is
    stored and no connection is attempted: a restart finds what was
    stored before the request. *)
Theorem failed_save_is_lost (c : Config) (conn : ConnectIn) (d : Dev) :
  let r := handleSave true (Some c) false conn d in
  snd r = [WebSend 200 (Text "OK")]
  /\ saved (fst r) = c
  /\ config_file (fst r) = config_file d
  /\ s_config_complete (fst r) = s_config_complete d
  /\ s_wifi_connected (fst r) = s_wifi_connected d
  /\ forall i, restart i (fst r) = restart i d.
Proof.
  cbv zeta. unfold handleSave, restart. cbn. repeat split; reflexivity.
Qed.

Lemma connect_no_answer (conn : ConnectIn) (d : Dev) :
  tally is_web_answer (snd (connectToWiFi conn d)) = 0%nat.
Proof.
  rewrite connectToWiFi_cases. cbv zeta.
  destruct (is_empty (s_saved_ssid (saved d))); [reflexivity|].
  generalize (wifi_wait (wifi_status conn) 60 0). intros a.
  destruct (wifi_status conn (S a)); cbn [snd];
    rewrite !tally_app, !tally_replicate, ?pairing_tally
      by (reflexivity || (intros; reflexivity)); reflexivity.
Qed.

(** X13.  The configuration service answers every request it serves
    exactly once (a response or the redirect), and the answer is the last
    thing the handler does: a save that attempts a connection answers only
    after the attempt. *)
Theorem every_request_answered_once (req : WebRequest) (d : Dev) :
  tally is_web_answer (snd (handleClient (Some req) d)) = 1%nat
  /\ exists before answer,
       snd (handleClient (Some req) d) = before ++ [answer]
       /\ is_web_answer answer = true.
Proof.
  destruct req as [ | |is_post body fs_ok conn| ].
  - split; [reflexivity|]. exists [], (WebSend 200 SetupPage). now split.
  - split; [reflexivity|]. exists [], (WebSend 200 ScanList). now split.
  - cbn [handleClient]. unfold handleSave.
    destruct is_post; cbn [negb].
    2:{ split; [reflexivity|]. exists [], (WebSend 405 (Text "Method not allowed")). now split. }
    destruct body as [c|].
    2:{ split; [reflexivity|]. exists [], (WebSend 400 (Text "Invalid JSON")). now split. }
    destruct fs_ok.
    2:{ split; [reflexivity|]. exists [], (WebSend 200 (Text "OK")). now split. }
    set (d2 := set_config_complete true (set_config_file (Some c) (set_saved c d))).
    pose proof (connect_no_answer conn d2) as Hc.
    destruct (negb (is_empty (s_saved_ssid c))).
    + destruct (connectToWiFi conn d2) as [d3 e3]. cbn [fst snd] in *.
      split.
      * rewrite !tally_app, Hc. reflexivity.
      * exists ([FsWrite "/config.json" c] ++ e3), (WebSend 200 (Text "OK")).
        split; [now rewrite <- app_assoc|reflexivity].
    + cbn [snd]. split; [reflexivity|].
      exists [FsWrite "/config.json" c], (WebSend 200 (Text "OK")). now split.
  - split; [reflexivity|].
    exists [FsRemove "/config.json"; WiFiDisconnect; WiFiModeAP; SoftAP "Sentinel"; DnsStart;
            Lcd BootImage], (WebRedirect "/"). now split.
Qed.

(** ** Requests to the server *)

Lemma balanced_skip (l b : list Effect) (o : bool) :
  Forall (fun e => no_http e = true) l ->
  http_balanced o (l ++ b) = http_balanced o b.
Proof.
  induction 1 as [|e l He _ IH]; [reflexivity|].
  destruct e; try discriminate; exact IH.
Qed.

Lemma balanced_app (a b : list Effect) :
  forall o, http_balanced o a = true ->
            http_balanced o (a ++ b) = http_balanced false b.
Proof.
  induction a as [|e a IH]; intros o Ha.
  - destruct o; [discriminate|reflexivity].
  - destruct e; cbn [http_balanced app] in *; try (now apply IH);
      destruct o; try discriminate; now apply IH.
Qed.

Lemma balanced_app_true (a b : list Effect) :
  http_balanced false a = true -> http_balanced false b = true ->
  http_balanced false (a ++ b) = true.
Proof. intros Ha Hb. now rewrite (balanced_app a b false Ha). Qed.

Lemma map_Lcd_no_http (l : list LcdCmd) :
  Forall (fun e => no_http e = true) (map Lcd l).
Proof. induction l; constructor; auto. Qed.

Lemma balanced_Lcd (l : list LcdCmd) : http_balanced false (map Lcd l) = true.
Proof.
  rewrite <- (app_nil_r (map Lcd l)). now rewrite balanced_skip by apply map_Lcd_no_http.
Qed.

Lemma poll_balanced (lcd : Panel) (reply : HttpReply) (d : Dev) :
  http_balanced false (snd (updateStatsFromServer lcd reply d)) = true.
Proof.
  unfold updateStatsFromServer, metrics_request.
  destruct (unpaired (saved d)); [reflexivity|].
  destruct (http_code reply =? 200); [|reflexivity].
  destruct (http_doc reply); [|reflexivity].
  cbn [snd app http_balanced].
  now rewrite balanced_skip by apply map_Lcd_no_http.
Qed.

Lemma pairing_balanced (c : Config) (code : Z) :
  http_balanced false (snd (pairWithSentinelServer c code)) = true.
Proof.
  unfold pairWithSentinelServer, displayPairingResult, metrics_request.
  destruct (unpaired c); [reflexivity|]. destruct (code =? 200); reflexivity.
Qed.

Lemma replicate_no_http (n : nat) (ms : Z) :
  Forall (fun e => no_http e = true) (replicate n (Delay ms)).
Proof. induction n; constructor; auto. Qed.

Lemma connect_balanced (conn : ConnectIn) (d : Dev) :
  http_balanced false (snd (connectToWiFi conn d)) = true.
Proof.
  rewrite connectToWiFi_cases. cbv zeta.
  destruct (is_empty (s_saved_ssid (saved d))); [reflexivity|].
  generalize (wifi_wait (wifi_status conn) 60 0). intros a.
  destruct (wifi_status conn (S a)); cbn [snd app http_balanced].
  - rewrite balanced_skip by apply replicate_no_http.
    cbn [app http_balanced]. apply pairing_balanced.
  - rewrite balanced_skip by apply replicate_no_http.
    reflexivity.
Qed.

Lemma handleClient_balanced (req : option WebRequest) (d : Dev) :
  http_balanced false (snd (handleClient req d)) = true.
Proof.
  destruct req as [[ | |is_post body fs_ok conn| ]|]; try reflexivity.
  cbn [handleClient]. unfold handleSave.
  destruct is_post; [|reflexivity]. destruct body as [c|]; [|reflexivity].
  destruct fs_ok; [|reflexivity]. cbn [negb].
  set (d2 := set_config_complete true (set_config_file (Some c) (set_saved c d))).
  pose proof (connect_balanced conn d2) as Hc.
  destruct (negb (is_empty (s_saved_ssid c))); [|reflexivity].
  destruct (connectToWiFi conn d2) as [d3 e3]. cbn [fst snd app http_balanced] in *.
  now apply balanced_app_true.
Qed.

Lemma loop_balanced (lcd : Panel) (i : LoopIn) (d : Dev) :
  http_balanced false (snd (loop lcd i d)) = true.
Proof.
  rewrite loop_snd.
  apply balanced_app_true; [|apply balanced_app_true; [|apply balanced_app_true]].
  - rewrite loop_transition_eq. destruct (success_elapsed i d); [|reflexivity].
    rewrite (proj2 (displayMainScreen_eq _ _ _ _)).
    rewrite balanced_skip by apply map_Lcd_no_http. apply poll_balanced.
  - rewrite loop_touch_eq. destruct (touched i); [|reflexivity].
    destruct (s_touch_down _); [reflexivity|]. cbv zeta. cbn [snd]. apply balanced_Lcd.
  - rewrite loop_poll_eq. destruct (poll_due i _); [|reflexivity]. apply poll_balanced.
  - unfold loop_service. rewrite seq_snd. apply balanced_app_true; [|reflexivity].
    apply handleClient_balanced.
Qed.

(** X14.  Over any run of the main loop every request to the server is
    closed before the next one is opened and before the run ends: each
    [http.begin]/[GET] of the poller and of the pairing check is followed
    by its [http.end]. *)
Theorem http_sessions_balanced (lcd : Panel) (ins : list LoopIn) (d : Dev) :
  http_balanced false (snd (run lcd ins d)) = true.
Proof.
  revert d. induction ins as [|i ins IH]; intros d; [reflexivity|].
  rewrite run_cons_snd. apply balanced_app_true; [apply loop_balanced|apply IH].
Qed.

(** X15.  The verdict of the pairing check is never used: the state
    [connectToWiFi] leaves does not depend on the status code the server
    answered, so a refused pairing leads to the same success screen and,
    from there, to the main screen. *)
Theorem connect_ignores_pairing (conn : ConnectIn) (code' : Z) (d : Dev) :
  fst (connectToWiFi conn d)
  = fst (connectToWiFi (mkConnectIn (wifi_status conn) (t_success conn) code') d).
Proof.
  rewrite !connectToWiFi_cases. cbv zeta. cbn [wifi_status t_success pair_code].
  destruct (is_empty (s_saved_ssid (saved d))); [reflexivity|].
  destruct (wifi_status conn _); reflexivity.
Qed.

(** ** The timers of the main loop *)

Lemma elapsed_mod (t0 dt : Z) :
  0 <= dt < 2 ^ 32 -> wrap_u32 (wrap_u32 (t0 + dt) - t0) = dt.
Proof.
  intros H. unfold wrap_u32. rewrite Zminus_mod_idemp_l.
  replace (t0 + dt - t0) with dt by lia. apply Z.mod_small. exact H.
Qed.

(** X16.  Both timers of [loop] measure elapsed time modulo 2^32, so they
    stay right when [millis()] rolls over: [dt] milliseconds after the
    stamp, the poll is due exactly when [dt >= 2000] and the success
    screen has elapsed exactly when [dt >= 1500]. *)
Theorem timers_across_rollover (i : LoopIn) (d : Dev) (dt : Z) :
  0 <= dt < 2 ^ 32 ->
  (s_stats_active d = true ->
   t_due i = wrap_u32 (s_last_stats_update d + dt) ->
   poll_due i d = (2000 <=? dt))
  /\ (s_showing_success d = true ->
      t_check i = wrap_u32 (s_success_start_time d + dt) ->
      success_elapsed i d = (1500 <=? dt)).
Proof.
  intros Hdt. split; intros Hflag Ht.
  - unfold poll_due. now rewrite Hflag, Ht, elapsed_mod.
  - unfold success_elapsed. now rewrite Hflag, Ht, elapsed_mod.
Qed.

Lemma timers_across_rollover_witness :
  let d := set_last_stats_update (2 ^ 32 - 500) monitoring_state in
  let i := mkLoopIn 1500 1500 1500 1500 (-1) no_reply no_reply None in
  0 <= 2000 < 2 ^ 32 /\ poll_due i d = true.
Proof.
  intros d i.
  assert (H : 0 <= 2000 < 2 ^ 32) by (split; [lia|reflexivity]).
  split; [exact H|].
  exact (proj1 (timers_across_rollover i d 2000 H) eq_refl eq_refl).
Defined.

Lemma poll_tally_get (lcd : Panel) (reply : HttpReply) (d : Dev) :
  tally is_http_get (snd (updateStatsFromServer lcd reply d))
  = if unpaired (saved d) then 0%nat else 1%nat.
Proof.
  unfold updateStatsFromServer, metrics_request.
  destruct (unpaired (saved d)); [reflexivity|].
  destruct (http_code reply =? 200); [|reflexivity].
  destruct (http_doc reply); [|reflexivity].
  cbn [snd]. rewrite !tally_app, (tally_none _ (map Lcd _)) by apply map_Lcd_no_get.
  reflexivity.
Qed.

Lemma poll_frame (lcd : Panel) (reply : HttpReply) (d : Dev) :
  let d' := fst (updateStatsFromServer lcd reply d) in
  saved d' = saved d /\ s_stats_active d' = s_stats_active d
  /\ s_last_stats_update d' = s_last_stats_update d /\ s_layout d' = s_layout d
  /\ s_touch_down d' = s_touch_down d /\ s_showing_success d' = s_showing_success d
  /\ s_wifi_connected d' = s_wifi_connected d /\ config_file d' = config_file d
  /\ s_config_complete d' = s_config_complete d.
Proof.
  cbv zeta. destruct (poll_only_stats lcd reply d) as (st & -> & _).
  repeat split; reflexivity.
Qed.

Lemma touch_frame (lcd : Panel) (i : LoopIn) (d : Dev) :
  let d' := fst (loop_touch lcd i d) in
  saved d' = saved d /\ s_stats_active d' = s_stats_active d
  /\ s_last_stats_update d' = s_last_stats_update d
  /\ tally is_http_get (snd (loop_touch lcd i d)) = 0%nat.
Proof.
  cbv zeta. rewrite loop_touch_eq.
  destruct (touched i); [destruct (s_touch_down d)|]; cbv zeta; cbn [fst snd];
    repeat split; try reflexivity.
  apply tally_none, map_Lcd_no_get.
Qed.

(** X17.  The pass of [loop] that leaves the success screen polls the
    server twice when a server is configured: [displayMainScreen] polls,
    and because it back-dates the stamp by 2000 ms the cadence check of the
    same pass is due at once. *)
Theorem main_screen_polls_twice (lcd : Panel) (i : LoopIn) (d : Dev) (gap : Z) :
  success_elapsed i d = true ->
  unpaired (saved d) = false ->
  0 <= gap < 2 ^ 32 - 2000 ->
  t_due i = t_main i + gap ->
  web_request i = None ->
  tally is_http_get (snd (loop lcd i d)) = 2%nat.
Proof.
  intros Hel Hpaired Hgap Hdue Hweb.
  rewrite loop_snd, !tally_app.
  rewrite loop_transition_eq, Hel.
  destruct (displayMainScreen_eq lcd (t_main i) (reply_main i) (set_showing_success false d))
    as [Ef Es].
  set (dm := main_screen_state (t_main i) (set_showing_success false d)) in *.
  destruct (poll_frame lcd (reply_main i) dm) as (S1 & A1 & L1 & _). cbv zeta in *.
  rewrite Es, tally_app, (tally_none _ (map Lcd _)) by apply map_Lcd_no_get.
  rewrite poll_tally_get.
  change (saved dm) with (saved d). rewrite Hpaired.
  rewrite Ef. set (d1 := fst (updateStatsFromServer lcd (reply_main i) dm)) in *.
  destruct (touch_frame lcd i d1) as (S2 & A2 & L2 & T2). cbv zeta in *.
  rewrite T2. set (d2 := fst (loop_touch lcd i d1)) in *.
  assert (Hdue2 : poll_due i d2 = true).
  { unfold poll_due. rewrite A2, A1, L2, L1.
    change (s_stats_active dm) with true.
    change (s_last_stats_update dm) with (wrap_u32 (t_main i - 2000)).
    rewrite Hdue. cbn [andb]. apply Z.leb_le.
    unfold wrap_u32. rewrite Zminus_mod_idemp_r.
    replace (t_main i + gap - (t_main i - 2000)) with (gap + 2000) by lia.
    rewrite Z.mod_small by lia. lia. }
  rewrite loop_poll_eq, Hdue2, poll_tally_get.
  change (saved (set_last_stats_update (t_stamp i) d2)) with (saved d2).
  rewrite S2, S1. change (saved dm) with (saved d). rewrite Hpaired.
  unfold loop_service. rewrite Hweb. reflexivity.
Qed.

Lemma main_screen_polls_twice_witness :
  let d := fst (connectToWiFi associates_at_once (set_saved home_config (boot_state None))) in
  (success_elapsed pass_cadence_due d = true /\ unpaired (saved d) = false)
  /\ tally is_http_get (snd (loop panel_320x240 pass_cadence_due d)) = 2%nat.
Proof.
  intros d.
  assert (H1 : success_elapsed pass_cadence_due d = true) by reflexivity.
  assert (H2 : unpaired (saved d) = false) by reflexivity.
  assert (H3 : 0 <= 0 < 2 ^ 32 - 2000) by (split; [lia|reflexivity]).
  split; [split; assumption|].
  exact (main_screen_polls_twice panel_320x240 pass_cadence_due d 0 H1 H2 H3 eq_refl eq_refl).
Defined.

(** ** Flags and selectors over a run *)

Lemma transition_active (lcd : Panel) (i : LoopIn) (d : Dev) :
  s_stats_active d = true -> s_stats_active (fst (loop_transition lcd i d)) = true.
Proof.
  intros H. rewrite loop_transition_eq. destruct (success_elapsed i d); [|exact H].
  rewrite (proj1 (displayMainScreen_eq _ _ _ _)).
  destruct (poll_frame lcd (reply_main i)
              (main_screen_state (t_main i) (set_showing_success false d)))
    as (_ & A & _). cbv zeta in A. rewrite A. reflexivity.
Qed.

Lemma loop_keeps_active (lcd : Panel) (i : LoopIn) (d : Dev) :
  s_stats_active d = true -> s_stats_active (fst (loop lcd i d)) = true.
Proof.
  intros H. rewrite loop_fst, loop_service_fst.
  destruct (handleClient_frame (web_request i)
              (fst (loop_poll lcd i (fst (loop_touch lcd i (fst (loop_transition lcd i d)))))))
    as (_ & _ & _ & A & _). cbv zeta in A. rewrite A.
  rewrite loop_poll_eq.
  destruct (touch_frame lcd i (fst (loop_transition lcd i d))) as (_ & A2 & _).
  cbv zeta in A2.
  destruct (poll_due i _).
  - destruct (poll_frame lcd (reply_tick i)
                (set_last_stats_update (t_stamp i)
                   (fst (loop_touch lcd i (fst (loop_transition lcd i d))))))
      as (_ & A3 & _). cbv zeta in A3. rewrite A3.
    change (s_stats_active (set_last_stats_update ?t ?x)) with (s_stats_active x).
    rewrite A2. now apply transition_active.
  - cbn [fst]. rewrite A2. now apply transition_active.
Qed.

(** X18.  Nothing in the firmware turns polling off: once
    [s_stats_active] is set it stays set over every run of the main loop,
    whatever is touched, answered or requested, a configuration reset
    included. *)
Theorem polling_never_stops (lcd : Panel) (ins : list LoopIn) (d : Dev) :
  s_stats_active d = true -> s_stats_active (fst (run lcd ins d)) = true.
Proof.
  revert d. induction ins as [|i ins IH]; intros d H; [exact H|].
  rewrite run_cons_fst. apply IH. now apply loop_keeps_active.
Qed.

Lemma polling_never_stops_witness :
  s_stats_active monitoring_state = true
  /\ s_stats_active
       (fst (run panel_320x240
               [mkLoopIn 3500 3500 3500 3500 (-1) no_reply no_reply (Some ReqReset)]
               monitoring_state)) = true.
Proof.
  split; [reflexivity|].
  exact (polling_never_stops panel_320x240
           [mkLoopIn 3500 3500 3500 3500 (-1) no_reply no_reply (Some ReqReset)]
           monitoring_state eq_refl).
Defined.

Lemma loop_keeps_layout_ok (lcd : Panel) (i : LoopIn) (d : Dev) :
  layout_ok d -> layout_ok (fst (loop lcd i d)).
Proof.
  intros H. unfold layout_ok in *. rewrite loop_fst, loop_service_fst.
  destruct (handleClient_frame (web_request i)
              (fst (loop_poll lcd i (fst (loop_touch lcd i (fst (loop_transition lcd i d)))))))
    as (_ & _ & L & _). cbv zeta in L. rewrite L. clear L.
  assert (Ht : layout_ok (fst (loop_transition lcd i d))).
  { unfold layout_ok. rewrite loop_transition_eq.
    destruct (success_elapsed i d); [|exact H].
    rewrite (proj1 (displayMainScreen_eq _ _ _ _)).
    destruct (poll_frame lcd (reply_main i)
                (main_screen_state (t_main i) (set_showing_success false d)))
      as (_ & _ & _ & L & _). cbv zeta in L. rewrite L. now left. }
  set (d1 := fst (loop_transition lcd i d)) in *.
  assert (Hu : layout_ok (fst (loop_touch lcd i d1))).
  { unfold layout_ok in *. rewrite loop_touch_eq.
    destruct (touched i); [destruct (s_touch_down d1)|]; cbv zeta; cbn [fst]; auto.
    change (s_layout (set_layout ?v ?x)) with v.
    destruct Ht as [-> | ->]; [right|left]; reflexivity. }
  set (d2 := fst (loop_touch lcd i d1)) in *.
  rewrite loop_poll_eq. destruct (poll_due i d2); [|exact Hu].
  destruct (poll_frame lcd (reply_tick i) (set_last_stats_update (t_stamp i) d2))
    as (_ & _ & _ & L & _). cbv zeta in L. rewrite L. exact Hu.
Qed.

(** X19.  The layout selector stays one of the two layouts over every run
    of the main loop, so the redraw after a stored sample is never
    skipped: it begins by clearing the screen. *)
Theorem layout_always_valid (lcd : Panel) (ins : list LoopIn) (d : Dev) :
  layout_ok d ->
  let d' := fst (run lcd ins d) in
  layout_ok d' /\ exists rest, redraw lcd d' = FillScreen 0xFFFF :: rest.
Proof.
  intros H d'. subst d'.
  assert (Hok : layout_ok (fst (run lcd ins d))).
  { revert d H. induction ins as [|i ins IH]; intros d H; [exact H|].
    rewrite run_cons_fst. apply IH. now apply loop_keeps_layout_ok. }
  split; [exact Hok|]. unfold redraw.
  destruct Hok as [-> | ->]; cbn [Z.eqb LAYOUT_CHARTS LAYOUT_CLOCK].
  - unfold renderChartsLayout. cbv zeta. eexists. reflexivity.
  - unfold renderClockLayout. cbv zeta. eexists. reflexivity.
Qed.

Lemma layout_always_valid_witness :
  layout_ok (boot_state None)
  /\ layout_ok (fst (run panel_320x240 [pass_touched; pass_released; pass_touched]
                       (boot_state None))).
Proof.
  assert (H : layout_ok (boot_state None)) by (now left).
  split; [exact H|].
  exact (proj1 (layout_always_valid panel_320x240 [pass_touched; pass_released; pass_touched]
                  (boot_state None) H)).
Defined.

(** ** The clock text *)

Lemma append_cons (a : Ascii.ascii) (s r : string) :
  String a s +:+ r = String a (s +:+ r).
Proof. reflexivity. Qed.

Lemma length_append (s r : string) :
  String.length (s +:+ r) = (String.length s + String.length r)%nat.
Proof.
  induction s as [|a s IH]; [reflexivity|].
  rewrite append_cons. cbn [String.length]. now rewrite IH.
Qed.

Lemma substring_length (n m : nat) (s : string) :
  (n + m <= String.length s)%nat -> String.length (String.substring n m s) = m.
Proof.
  revert n m. induction s as [|a s IH]; intros n m H; cbn [String.length] in H.
  - assert (n = 0%nat) by lia. assert (m = 0%nat) by lia. subst. reflexivity.
  - destruct n as [|n].
    + destruct m as [|m]; [reflexivity|].
      cbn [String.substring String.length]. rewrite (IH 0%nat m) by lia. reflexivity.
    + cbn [String.substring]. apply IH. lia.
Qed.

(** X20.  The clock text has eight characters whatever the timestamp: the
    eight characters after the first 'T', or the placeholder. *)
Theorem clock_text_length (iso : string) : String.length (clock_text iso) = 8%nat.
Proof.
  unfold clock_text. destruct (String.index 0 "T" iso) as [tpos|]; [|reflexivity].
  destruct (Z.leb_spec (Z.of_nat tpos + 9) (Z.of_nat (String.length iso))); [|reflexivity].
  apply substring_length. lia.
Qed.

Lemma index_T_first (date rest : string) :
  String.index 0 "T" date = None ->
  String.index 0 "T" (date +:+ "T" +:+ rest) = Some (String.length date).
Proof.
  induction date as [|b date IH]; intros H.
  - now destruct rest.
  - rewrite append_cons. cbn [String.index String.prefix] in *.
    match goal with |- context [Ascii.ascii_dec ?a ?c] => destruct (Ascii.ascii_dec a c) end.
    + destruct date; discriminate.
    + destruct (String.index 0 "T" date); [discriminate|].
      rewrite IH by reflexivity. reflexivity.
Qed.

Lemma substring_skip (a s : string) (n m : nat) :
  String.substring (String.length a + n) m (a +:+ s) = String.substring n m s.
Proof.
  induction a as [|c a IH]; [reflexivity|].
  rewrite append_cons. cbn [String.length Nat.add String.substring]. exact IH.
Qed.

Lemma substring_prefix (t r : string) :
  String.substring 0 (String.length t) (t +:+ r) = t.
Proof.
  induction t as [|c t IH]; [now destruct r|].
  rewrite append_cons. cbn [String.length String.substring]. now rewrite IH.
Qed.

(** X21.  From a timestamp made of a date without 'T', a 'T', eight
    characters of time and anything after, the clock layout shows exactly
    the eight characters of time. *)
Theorem clock_text_of_timestamp (date time rest : string) :
  String.index 0 "T" date = None ->
  String.length time = 8%nat ->
  clock_text (date +:+ "T" +:+ time +:+ rest) = time.
Proof.
  intros Hdate Htime. unfold clock_text.
  rewrite (index_T_first date (time +:+ rest) Hdate).
  rewrite length_append. change (String.length ("T" +:+ time +:+ rest))
    with (S (String.length (time +:+ rest))). rewrite length_append, Htime.
  destruct (Z.leb_spec (Z.of_nat (String.length date) + 9)
              (Z.of_nat (String.length date + S (8 + String.length rest)))); [|lia].
  rewrite substring_skip.
  change (String.substring 1 8 ("T" +:+ time +:+ rest))
    with (String.substring 0 8 (time +:+ rest)).
  rewrite <- Htime. apply substring_prefix.
Qed.

Lemma clock_text_of_timestamp_witness :
  String.index 0 "T" "2024-05-01" = None
  /\ clock_text "2024-05-01T12:34:56.789Z" = "12:34:56".
Proof.
  split; [reflexivity|].
  exact (clock_text_of_timestamp "2024-05-01" "12:34:56" ".789Z" eq_refl eq_refl).
Defined.

(** ** The chart inside its plot area *)

Lemma leb_of_not_ltb (m1 m2 : positive) (e1 e2 : Z) :
  SFltb (S754_finite false m2 e2) (S754_finite false m1 e1) = false ->
  SFleb (S754_finite false m1 e1) (S754_finite false m2 e2) = true.
Proof.
  unfold SFleb, SFltb, SFcompare.
  pose proof (Pos.compare_antisym m1 m2) as A. unfold Pos.compare in A.
  rewrite (Z.compare_antisym e1 e2), A.
  destruct (e1 ?= e2); cbn [CompOpp]; try congruence.
  destruct (Pos.compare_cont Eq m1 m2); cbn [CompOpp]; congruence.
Qed.

Lemma plottable_in_range (p : float) :
  plottable p ->
  F32.ltb p (F32.of_int 0) = false -> F32.ltb F32.hundred p = false ->
  in_range p.
Proof.
  intros [Hv Hn] H0 H100. split; [exact Hv|].
  rewrite zero_eq, hundred_eq in *.
  destruct p as [s|s| |s m e]; try contradiction.
  - split; reflexivity.
  - destruct s; discriminate.
  - destruct s; [discriminate|]. split; [reflexivity|].
    now apply leb_of_not_ltb.
Qed.

Lemma mapValueToY_above_hundred (p : float) (t h : Z) :
  F32.ltb p (F32.of_int 0) = false -> F32.ltb F32.hundred p = true ->
  mapValueToY p t h = mapValueToY F32.hundred t h.
Proof.
  intros H0 H100. unfold mapValueToY. rewrite H0. cbv zeta. rewrite H100. reflexivity.
Qed.

Lemma in_range_hundred : in_range F32.hundred.
Proof. repeat split. Qed.

Lemma mapValueToY_in_area (p : float) (t h : Z) :
  h = 40 \/ h = 28 -> plottable p ->
  INT_MIN <= t -> t + h <= INT_MAX ->
  t <= mapValueToY p t h <= t + h.
Proof.
  intros Hh Hp Ht Hsum.
  destruct (F32.ltb p (F32.of_int 0)) eqn:E0.
  { rewrite mapValueToY_below_zero by exact E0.
    destruct (mapValueToY_plot_area (F32.of_int 0) (F32.of_int 0) t h Hh
                in_range_zero in_range_zero eq_refl Ht Hsum) as [A B]. lia. }
  destruct (F32.ltb F32.hundred p) eqn:E100.
  { rewrite mapValueToY_above_hundred by assumption.
    destruct (mapValueToY_plot_area F32.hundred F32.hundred t h Hh
                in_range_hundred in_range_hundred eq_refl Ht Hsum) as [A B]. lia. }
  pose proof (plottable_in_range p Hp E0 E100) as R.
  assert (Hrefl : F32.leb p p = true).
  { destruct R as (_ & R0 & _). rewrite zero_eq in R0. destruct Hp as [_ Hn].
    destruct p as [s|s| |s m e]; try contradiction; try reflexivity.
    - destruct s; [discriminate|reflexivity].
    - destruct s; [discriminate|].
      unfold F32.leb, SFleb, SFcompare. rewrite Z.compare_refl.
      change (Pos.compare_cont Eq m m) with (m ?= m)%positive.
      now rewrite Pos.compare_refl. }
  destruct (mapValueToY_plot_area p p t h Hh R R Hrefl Ht Hsum) as [A B]. lia.
Qed.

Lemma plottable_zero : plottable F32.zero.
Proof. split; [reflexivity|discriminate]. Qed.

Lemma array_get_plottable (data : list float) (i : Z) :
  Forall plottable data -> plottable (array_get data i).
Proof.
  intros H. unfold array_get. destruct (i <? 0); [apply plottable_zero|].
  destruct (data !! Z.to_nat i) as [v|] eqn:E; cbn [default].
  - eapply Forall_lookup_1; eassumption.
  - apply plottable_zero.
Qed.

Lemma getVal_plottable (data : list float) (size idx : Z) (full : bool) (i : Z) :
  Forall plottable data -> plottable (getVal data size idx full i).
Proof.
  intros H. unfold getVal. destruct full; now apply array_get_plottable.
Qed.

(** The abscissa of the [i]-th sample: [plotX + (i * plotW) / (size - 1)]. *)
Lemma sample_x (plotX plotW i : Z) :
  0 <= plotX <= 20000 -> 0 <= plotW <= 20000 -> 0 <= i <= 119 ->
  (plotX + (i * plotW) / (HIST_SIZE - 1))%int = plotX + i * plotW / 119.
Proof.
  intros HX HW Hi.
  assert (HM : INT_MAX = 2147483647) by reflexivity.
  assert (Hm : INT_MIN = -2147483648) by reflexivity.
  unfold iadd, idiv, imul, isub. change (wrap_int (HIST_SIZE - 1)) with 119.
  assert (0 <= i * plotW <= 119 * 20000) by nia.
  rewrite (wrap_int_small (i * plotW)) by lia.
  rewrite Z.quot_div_nonneg by lia.
  assert (0 <= i * plotW / 119 <= i * plotW).
  { split; [apply Z.div_pos; lia|]. apply Z.div_le_upper_bound; lia. }
  rewrite (wrap_int_small (i * plotW / 119)) by lia.
  apply wrap_int_small. lia.
Qed.

Lemma sample_x_bounds (plotW i : Z) :
  0 <= plotW -> 0 <= i <= 119 ->
  0 <= i * plotW / 119 <= plotW
  /\ (i - 1) * plotW / 119 <= i * plotW / 119.
Proof.
  intros HW Hi. split; [split|].
  - apply Z.div_pos; nia.
  - apply Z.div_le_upper_bound; nia.
  - apply Z.div_le_mono; nia.
Qed.

Lemma plot_segments_in_area (data : list float) (idx : Z) (full : bool)
    (plotX plotY plotW plotH color : Z) (n : nat) :
  forall i prevX prevY,
    plotH = 40 \/ plotH = 28 ->
    Forall plottable data ->
    0 <= plotX <= 20000 -> 0 <= plotW <= 20000 -> 0 <= plotY <= 20000 ->
    1 <= i -> i + Z.of_nat n <= 120 ->
    prevX = plotX + (i - 1) * plotW / 119 ->
    plotY <= prevY <= plotY + plotH ->
    Forall (mark_in_area plotX (plotX + plotW) plotY (plotY + plotH))
      (plot_segments data HIST_SIZE idx full plotX plotY plotW plotH color n i prevX prevY).
Proof.
  induction n as [|n IH]; intros i prevX prevY HH Hdata HX HW HY Hi Hn HpX HpY;
    [constructor|].
  cbn [plot_segments]. cbv zeta.
  assert (HM : INT_MAX = 2147483647) by reflexivity.
  assert (Hm : INT_MIN = -2147483648) by reflexivity.
  rewrite (sample_x plotX plotW i) by lia.
  destruct (sample_x_bounds plotW i ltac:(lia) ltac:(lia)) as [[B1 B2] B3].
  destruct (sample_x_bounds plotW (i - 1) ltac:(lia) ltac:(lia)) as [[C1 C2] _].
  pose proof (mapValueToY_in_area (getVal data HIST_SIZE idx full i) plotY plotH HH
                (getVal_plottable _ _ _ _ _ Hdata) ltac:(lia) ltac:(lia)) as Hy.
  constructor.
  - cbn [mark_in_area]. lia.
  - apply IH; try assumption.
    + unfold iadd. rewrite wrap_int_small by lia. lia.
    + unfold iadd. rewrite wrap_int_small by lia. lia.
    + unfold iadd. rewrite wrap_int_small by lia. f_equal. f_equal. f_equal. lia.
Qed.

(** X22.  Whatever the history holds (NaN apart), a chart of either layout
    draws its first pixel and its line segments inside its plot area,
    which starts 2 pixels right of and 15 below the corner of the chart and
    is [w - 4] wide and [h - 20] high; every segment runs from left to
    right.  Its grid lines lie at heights of the plot area and run from
    the pixel left of it ([x + 1]) to its right edge ([x + w - 2]). *)
Theorem chart_stays_in_plot_area (x y w h : Z) (data : list float) (idx : Z)
    (full : bool) (color : Z) (title : string) :
  h = 60 \/ h = 48 ->
  0 <= x <= 10000 -> 0 <= y <= 10000 -> 4 <= w <= 10000 ->
  0 <= idx <= HIST_SIZE ->
  Forall plottable data ->
  Forall (mark_in_area (x + 2) (x + w - 2) (y + 15) (y + h - 5))
    (drawLineChartArea x y w h data HIST_SIZE idx full color title).
Proof.
  intros Hh Hx Hy Hw Hidx Hdata.
  assert (HM : INT_MAX = 2147483647) by reflexivity.
  assert (Hm : INT_MIN = -2147483648) by reflexivity.
  assert (HS : HIST_SIZE = 120) by reflexivity.
  assert (HH : h - 20 = 40 \/ h - 20 = 28) by lia.
  assert (EX : (x + 2)%int = x + 2) by (apply wrap_int_small; lia).
  assert (EY : (y + 15)%int = y + 15) by (apply wrap_int_small; lia).
  assert (EW : (w - 4)%int = w - 4) by (apply wrap_int_small; lia).
  assert (EH : (h - 20)%int = h - 20) by (apply wrap_int_small; lia).
  assert (Hmap : forall p, plottable p ->
            y + 15 <= mapValueToY p (y + 15)%int (h - 20)%int <= y + h - 5).
  { intros p Hp. rewrite EY, EH.
    pose proof (mapValueToY_in_area p (y + 15) (h - 20) HH Hp ltac:(lia) ltac:(lia)). lia. }
  assert (Hframe : Forall (mark_in_area (x + 2) (x + w - 2) (y + 15) (y + h - 5))
                     (chart_frame x y w h title)).
  { assert (E1 : (x + 1)%int = x + 1) by (apply wrap_int_small; lia).
    assert (E2 : (w - 2)%int = w - 2) by (apply wrap_int_small; lia).
    unfold chart_frame. apply Forall_app. split; [repeat constructor|].
    cbn [map]. rewrite E1, E2.
    repeat constructor; cbn [mark_in_area]; try lia; apply Hmap;
      (split; [reflexivity|discriminate]). }
  unfold drawLineChartArea. cbv zeta.
  destruct (points HIST_SIZE idx full <=? 1) eqn:Epts; [exact Hframe|].
  apply Z.leb_gt in Epts.
  assert (Hpts : 2 <= points HIST_SIZE idx full <= 120)
    by (unfold points in *; destruct full; lia).
  apply Forall_app. split; [exact Hframe|].
  apply Forall_app. split.
  { constructor; [|constructor]. cbn [mark_in_area]. rewrite EX. split; [lia|].
    apply Hmap, getVal_plottable, Hdata. }
  apply Forall_app. split; [|repeat constructor].
  rewrite EX, EY, EW, EH.
  replace (x + w - 2) with (x + 2 + (w - 4)) by lia.
  replace (y + h - 5) with (y + 15 + (h - 20)) by lia.
  apply plot_segments_in_area; try assumption; try lia.
  - change ((1 - 1) * (w - 4) / 119) with 0. lia.
  - pose proof (Hmap _ (getVal_plottable data HIST_SIZE idx full 0 Hdata)) as B.
    rewrite EY, EH in B. lia.
Qed.

Lemma chart_stays_in_plot_area_witness :
  let st := appends [reading_a; reading_b; reading_a] boot_stats in
  (60 = 60 \/ 60 = 48)
  /\ Forall (mark_in_area (8 + 2) (8 + 304 - 2) (24 + 15) (24 + 60 - 5))
       (drawLineChartArea 8 24 304 60 (s_cpu_hist st) HIST_SIZE (s_hist_idx st)
          (s_hist_full st) 0x001F "CPU").
Proof.
  intros st.
  assert (H1 : 60 = 60 \/ 60 = 48) by (now left).
  split; [exact H1|].
  apply (chart_stays_in_plot_area 8 24 304 60 (s_cpu_hist st) (s_hist_idx st)
           (s_hist_full st) 0x001F "CPU" H1); try (split; [lia|reflexivity||lia]).
  - split; discriminate.
  - apply Forall_forall. intros v Hv.
    apply list_elem_of_In in Hv. vm_compute in Hv.
    repeat (destruct Hv as [<-|Hv]; [split; [reflexivity|discriminate]|]).
    destruct Hv.
Defined.

(** ** The mapper on every sample *)

Lemma canonical_lt (m1 m2 : positive) (e1 e2 : Z) :
  fexp32 (Z.pos (digits2_pos m1) + e1) = e1 ->
  fexp32 (Z.pos (digits2_pos m2) + e2) = e2 ->
  SFltb (S754_finite false m1 e1) (S754_finite false m2 e2) = true ->
  dyadic m1 e1 < dyadic m2 e2.
Proof.
  intros C1 C2. unfold SFltb, SFcompare.
  assert (HK : scale_bits = 300) by reflexivity.
  assert (H1 : -149 <= e1) by (unfold fexp32 in C1; lia).
  assert (H2 : -149 <= e2) by (unfold fexp32 in C2; lia).
  destruct (Z.compare_spec e1 e2) as [Heq|Hlt|Hgt]; intros H.
  - subst e2. unfold dyadic.
    assert (Hm : (m1 < m2)%positive).
    { change (Pos.compare_cont Eq m1 m2) with (m1 ?= m2)%positive in H.
      unfold Pos.lt. destruct (m1 ?= m2)%positive; [discriminate|reflexivity|discriminate]. }
    pose proof (pow2_pos (e1 + scale_bits) ltac:(lia)). nia.
  - pose proof (dyadic_bounds m1 e1 ltac:(lia)) as [_ U1].
    pose proof (dyadic_bounds m2 e2 ltac:(lia)) as [L2 _].
    assert (2 ^ (Z.pos (digits2_pos m1) + e1 + scale_bits)
            <= 2 ^ (Z.pos (digits2_pos m2) + e2 - 1 + scale_bits))
      by (apply pow2_le; unfold fexp32 in C1, C2; lia).
    lia.
  - discriminate.
Qed.

(** A sample above 100 is not below a sample of at most 100. *)
Lemma above_hundred_up (p1 p2 : float) :
  plottable p1 -> in_range p2 ->
  F32.ltb F32.hundred p1 = true -> F32.leb p1 p2 = true -> False.
Proof.
  intros [V1 N1] R2 H100 Hle. rewrite hundred_eq in H100.
  destruct (in_range_cases p2 R2) as [[s2 ->]|(m2 & e2 & -> & C2 & Hle2)].
  - destruct p1 as [s|s| |s m e]; try contradiction; try discriminate;
      destruct s; discriminate.
  - destruct p1 as [s|s| |s m e]; try contradiction; try discriminate.
    + destruct s; discriminate.
    + destruct s; [discriminate|].
      destruct (valid_finite _ _ _ V1) as [C1 _].
      pose proof (canonical_lt _ _ _ _ eq_refl C1 H100) as A.
      pose proof (canonical_le _ _ _ _ C1 C2 Hle) as B.
      fold scaled_hundred in A. lia.
Qed.

Lemma below_zero_down (p1 p2 : float) :
  plottable p1 -> plottable p2 ->
  F32.ltb p2 (F32.of_int 0) = true -> F32.leb p1 p2 = true ->
  F32.ltb p1 (F32.of_int 0) = true.
Proof.
  intros [_ N1] [_ N2] H0 Hle. rewrite zero_eq in *.
  destruct p2 as [s2|s2| |s2 m2 e2]; try contradiction; try discriminate;
    destruct s2; try discriminate;
    destruct p1 as [s1|s1| |s1 m1 e1]; try contradiction; try discriminate;
    destruct s1; try discriminate; reflexivity.
Qed.

Lemma mapValueToY_plot_endpoints (t h : Z) :
  h = 40 \/ h = 28 -> INT_MIN <= t -> t + h <= INT_MAX ->
  mapValueToY (F32.of_int 0) t h = t + h /\ mapValueToY F32.hundred t h = t.
Proof.
  intros Hh Ht Hsum.
  assert (40 <= INT_MAX) by discriminate.
  assert (INT_MIN <= 0) by discriminate.
  split.
  - assert (Hv0 : F32.trunc (offset (F32.of_int 0) h) = Some h)
      by (destruct Hh as [-> | ->]; reflexivity).
    apply (mapValueToY_monotone (F32.of_int 0) (F32.of_int 0) t h h
             in_range_zero in_range_zero eq_refl ltac:(lia) Hv0 ltac:(lia) Ht Hsum).
  - rewrite mapValueToY_top_endpoint by reflexivity.
    rewrite Z.add_0_r. apply wrap_int_small. lia.
Qed.

(** X23.  At the plot heights of the two layouts (40 and 28 pixels) the
    mapper preserves order on all binary32 samples, clamped ones included:
    of two samples the larger is never drawn lower, and both are drawn
    between the top and the bottom of the plot area. *)
Theorem mapper_preserves_order (p1 p2 : float) (t h : Z) :
  h = 40 \/ h = 28 ->
  plottable p1 -> plottable p2 -> F32.leb p1 p2 = true ->
  INT_MIN <= t -> t + h <= INT_MAX ->
  t <= mapValueToY p2 t h /\ mapValueToY p2 t h <= mapValueToY p1 t h
  /\ mapValueToY p1 t h <= t + h.
Proof.
  intros Hh P1 P2 Hle Ht Hsum.
  pose proof (mapValueToY_in_area p1 t h Hh P1 Ht Hsum) as A1.
  pose proof (mapValueToY_in_area p2 t h Hh P2 Ht Hsum) as A2.
  destruct (mapValueToY_plot_endpoints t h Hh Ht Hsum) as [E0 E100].
  split; [lia|]. split; [|lia].
  destruct (F32.ltb p2 (F32.of_int 0)) eqn:L2.
  { pose proof (below_zero_down p1 p2 P1 P2 L2 Hle) as L1.
    rewrite (mapValueToY_below_zero p1), (mapValueToY_below_zero p2) by assumption. lia. }
  destruct (F32.ltb F32.hundred p2) eqn:U2.
  { rewrite (mapValueToY_above_hundred p2) by assumption. lia. }
  pose proof (plottable_in_range p2 P2 L2 U2) as R2.
  destruct (F32.ltb p1 (F32.of_int 0)) eqn:L1.
  { rewrite (mapValueToY_below_zero p1) by assumption. lia. }
  destruct (F32.ltb F32.hundred p1) eqn:U1.
  { exfalso. exact (above_hundred_up p1 p2 P1 R2 U1 Hle). }
  pose proof (plottable_in_range p1 P1 L1 U1) as R1.
  apply (mapValueToY_plot_area p1 p2 t h Hh R1 R2 Hle Ht Hsum).
Qed.

Lemma mapper_preserves_order_witness :
  (plottable (F32.of_int 150) /\ plottable (F32.of_int (-20))
   /\ F32.leb (F32.of_int (-20)) (F32.of_int 150) = true)
  /\ mapValueToY (F32.of_int 150) 39 40 <= mapValueToY (F32.of_int (-20)) 39 40.
Proof.
  assert (P1 : plottable (F32.of_int (-20))) by (split; [reflexivity|discriminate]).
  assert (P2 : plottable (F32.of_int 150)) by (split; [reflexivity|discriminate]).
  assert (Hle : F32.leb (F32.of_int (-20)) (F32.of_int 150) = true) by reflexivity.
  assert (Hh : 40 = 40 \/ 40 = 28) by (now left).
  assert (Ht : INT_MIN <= 39) by discriminate.
  assert (Hs : 39 + 40 <= INT_MAX) by discriminate.
  split; [split; [exact P2|split; [exact P1|exact Hle]]|].
  exact (proj1 (proj2 (mapper_preserves_order (F32.of_int (-20)) (F32.of_int 150) 39 40
                         Hh P1 P2 Hle Ht Hs))).
Defined.

(** X24.  At the plot heights of the two layouts the mapper is exact at
    both ends: every sample of at most 0 is drawn at the bottom pixel
    [t + h] and every sample of at least 100 at the top pixel [t]. *)
Theorem mapper_exact_at_plot_heights (p : float) (t h : Z) :
  h = 40 \/ h = 28 ->
  INT_MIN <= t -> t + h <= INT_MAX ->
  (F32.leb p (F32.of_int 0) = true -> mapValueToY p t h = t + h)
  /\ (F32.leb F32.hundred p = true -> mapValueToY p t h = t).
Proof.
  intros Hh Ht Hsum.
  destruct (mapValueToY_plot_endpoints t h Hh Ht Hsum) as [E0 E100].
  split; intros Hp.
  - rewrite <- E0. rewrite zero_eq in Hp.
    destruct p as [s|s| |s m e]; try discriminate.
    + unfold mapValueToY. now destruct s.
    + destruct s; [|discriminate]. now apply mapValueToY_below_zero.
    + destruct s; [|discriminate]. now apply mapValueToY_below_zero.
  - rewrite mapValueToY_top_endpoint by exact Hp.
    rewrite Z.add_0_r. apply wrap_int_small.
    assert (40 <= INT_MAX) by discriminate. lia.
Qed.

Lemma mapper_exact_at_plot_heights_witness :
  (28 = 40 \/ 28 = 28)
  /\ mapValueToY (F32.of_int (-3)) 85 28 = 85 + 28
  /\ mapValueToY (F32.of_int 250) 85 28 = 85.
Proof.
  assert (Hh : 28 = 40 \/ 28 = 28) by (now right).
  assert (Ht : INT_MIN <= 85) by discriminate.
  assert (Hs : 85 + 28 <= INT_MAX) by discriminate.
  split; [exact Hh|]. split.
  - exact (proj1 (mapper_exact_at_plot_heights (F32.of_int (-3)) 85 28 Hh Ht Hs) eq_refl).
  - exact (proj2 (mapper_exact_at_plot_heights (F32.of_int 250) 85 28 Hh Ht Hs) eq_refl).
Defined.

(** ** The mapper's contract at every height of the panel *)







(** ** What changes the telemetry *)

Lemma loop_keeps_stats (lcd : Panel) (i : LoopIn) (d : Dev) :
  rejected (reply_main i) -> rejected (reply_tick i) ->
  stats (fst (loop lcd i d)) = stats d.
Proof.
  intros Hm Ht. rewrite loop_fst, loop_service_fst.
  destruct (handleClient_frame (web_request i)
              (fst (loop_poll lcd i (fst (loop_touch lcd i (fst (loop_transition lcd i d)))))))
    as (S & _). cbv zeta in S. rewrite S. clear S.
  assert (H1 : stats (fst (loop_transition lcd i d)) = stats d).
  { rewrite loop_transition_eq. destruct (success_elapsed i d); [|reflexivity].
    rewrite (proj1 (displayMainScreen_eq _ _ _ _)).
    now rewrite (proj1 (poll_rejected lcd (reply_main i) _ Hm)). }
  set (d1 := fst (loop_transition lcd i d)) in *.
  assert (H2 : stats (fst (loop_touch lcd i d1)) = stats d1).
  { rewrite loop_touch_eq. destruct (touched i); [destruct (s_touch_down d1)|]; reflexivity. }
  set (d2 := fst (loop_touch lcd i d1)) in *.
  rewrite loop_poll_eq. destruct (poll_due i d2).
  - rewrite (proj1 (poll_rejected lcd (reply_tick i) _ Ht)).
    change (stats (set_last_stats_update (t_stamp i) d2)) with (stats d2). congruence.
  - cbn [fst]. congruence.
Qed.

(** X25.  Only a stored poll changes the telemetry: over a run in which
    the server never gives a storable answer, the history, its cursor and
    the scalars end as they began, whatever is touched or requested
    meanwhile.  In particular a configuration reset does not clear the
    history. *)
Theorem telemetry_changes_only_by_polls (lcd : Panel) (ins : list LoopIn) (d : Dev) :
  Forall (fun i => rejected (reply_main i) /\ rejected (reply_tick i)) ins ->
  stats (fst (run lcd ins d)) = stats d.
Proof.
  intros H. revert d. induction H as [|i ins [Hm Ht] _ IH]; intros d; [reflexivity|].
  rewrite run_cons_fst, IH. now apply loop_keeps_stats.
Qed.

Lemma telemetry_changes_only_by_polls_witness :
  let ins := [pass_touched;
              mkLoopIn 6000 6000 6000 6000 (-1) no_reply (mkReply 500 None) (Some ReqReset)] in
  Forall (fun i => rejected (reply_main i) /\ rejected (reply_tick i)) ins
  /\ stats (fst (run panel_320x240 ins (set_stats (appends [reading_a] boot_stats)
                                          monitoring_state)))
     = appends [reading_a] boot_stats.
Proof.
  intros ins.
  assert (H : Forall (fun i => rejected (reply_main i) /\ rejected (reply_tick i)) ins).
  { repeat constructor; right; reflexivity. }
  split; [exact H|].
  exact (telemetry_changes_only_by_polls panel_320x240 ins
           (set_stats (appends [reading_a] boot_stats) monitoring_state) H).
Defined.

(** ** The newest sample on the chart *)

Lemma array_get_set (data : list float) (i : Z) (v : float) :
  0 <= i < Z.of_nat (length data) -> array_get (array_set data i v) i = v.
Proof.
  intros Hi. unfold array_get, array_set.
  destruct (Z.ltb_spec i 0) as [|_]; [lia|].
  rewrite list_lookup_insert_eq by lia. reflexivity.
Qed.

Lemma newest_sample (data : list float) (idx : Z) (full : bool) (v : float) :
  length data = 120%nat -> 0 <= idx < 120 ->
  let idx' := ((idx + 1) %% HIST_SIZE)%int in
  let full' := if idx' =? 0 then true else full in
  2 <= points HIST_SIZE idx' full' ->
  getVal (array_set data idx v) HIST_SIZE idx' full'
    (points HIST_SIZE idx' full' - 1)%int = v.
Proof.
  intros Hlen Hidx idx' full' Hpts.
  assert (HM : INT_MAX = 2147483647) by reflexivity.
  assert (Hm : INT_MIN = -2147483648) by reflexivity.
  assert (HS : HIST_SIZE = 120) by reflexivity.
  assert (Ei : idx' = (idx + 1) mod 120).
  { unfold idx', irem, iadd. rewrite wrap_int_small by lia.
    rewrite HS. apply Z.rem_mod_nonneg; lia. }
  assert (Hcell : forall k, 0 <= k -> k mod 120 = idx ->
            array_get (array_set data idx v) (Z.rem k 120) = v).
  { intros k Hk E. rewrite Z.rem_mod_nonneg by lia. rewrite E.
    apply array_get_set. lia. }
  unfold getVal, points in *. subst full'.
  destruct (Z.eq_dec idx 119) as [->|Hne].
  - assert (E0 : idx' = 0) by (rewrite Ei; reflexivity).
    rewrite E0. cbn [Z.eqb].
    change ((0 + (HIST_SIZE - 1)) %% HIST_SIZE)%int with 119.
    apply array_get_set. lia.
  - assert (E1 : idx' = idx + 1) by (rewrite Ei; apply Z.mod_small; lia).
    rewrite E1 in *. destruct (Z.eqb_spec (idx + 1) 0) as [|_]; [lia|].
    destruct full.
    + change (HIST_SIZE - 1)%int with 119. unfold irem, iadd. rewrite HS.
      rewrite wrap_int_small by lia.
      apply Hcell; [lia|].
      replace (idx + 1 + 119) with (idx + 1 * 120) by lia.
      rewrite Z.mod_add by lia. apply Z.mod_small. lia.
    + unfold isub. rewrite wrap_int_small by lia.
      replace (idx + 1 - 1) with idx by lia. apply array_get_set. lia.
Qed.

Lemma ends_with_label (a b c : list LcdCmd) (s p : LcdCmd) :
  a ++ b ++ c ++ [s; p] = (a ++ b ++ c ++ [s]) ++ [p].
Proof. now rewrite <- !app_assoc. Qed.

(** X26.  Once the history shows at least two samples, the percentage
    printed last on each chart is the value the poll has just stored: the
    processor value on a chart of the processor history, the memory value
    on a chart of the memory history. *)
Theorem label_shows_newest_sample (r : Reading) (st : Stats) (x y w h color : Z)
    (title : string) :
  hist_ok st ->
  let st' := store r st in
  2 <= points HIST_SIZE (s_hist_idx st') (s_hist_full st') ->
  (exists before,
     drawLineChartArea x y w h (s_cpu_hist st') HIST_SIZE (s_hist_idx st')
       (s_hist_full st') color title
     = before ++ [PrintfPct (cpu_pct r)])
  /\ (exists before,
        drawLineChartArea x y w h (s_ram_hist st') HIST_SIZE (s_hist_idx st')
          (s_hist_full st') color title
        = before ++ [PrintfPct (ram_pct r)]).
Proof.
  intros (Lc & Lr & Hidx) st' Hpts. subst st'.
  assert (HS : HIST_SIZE = 120) by reflexivity.
  rewrite HS in Lc, Lr. change (Z.to_nat 120) with 120%nat in Lc, Lr.
  pose proof (newest_sample (s_cpu_hist st) (s_hist_idx st) (s_hist_full st) (cpu_pct r)
                Lc ltac:(lia)) as Nc.
  pose proof (newest_sample (s_ram_hist st) (s_hist_idx st) (s_hist_full st) (ram_pct r)
                Lr ltac:(lia)) as Nr.
  cbv zeta in Nc, Nr. cbn [store s_hist_idx s_hist_full s_cpu_hist s_ram_hist] in *.
  specialize (Nc Hpts). specialize (Nr Hpts).
  unfold drawLineChartArea. cbv zeta.
  destruct (Z.leb_spec (points HIST_SIZE ((s_hist_idx st + 1) %% HIST_SIZE)%int
                          (if ((s_hist_idx st + 1) %% HIST_SIZE)%int =? 0
                           then true else s_hist_full st)) 1) as [Hle|_]; [lia|].
  rewrite Nc, Nr. split; eexists; apply ends_with_label.
Qed.

Lemma label_shows_newest_sample_witness :
  let st := appends [reading_a] boot_stats in
  (hist_ok st
   /\ 2 <= points HIST_SIZE (s_hist_idx (store reading_b st)) (s_hist_full (store reading_b st)))
  /\ exists before,
       drawLineChartArea 8 24 304 60 (s_cpu_hist (store reading_b st)) HIST_SIZE
         (s_hist_idx (store reading_b st)) (s_hist_full (store reading_b st)) 0x001F "CPU"
       = before ++ [PrintfPct (F32.of_int 11)].
Proof.
  intros st.
  assert (Hok : hist_ok st) by (repeat split; (reflexivity || discriminate)).
  assert (Hpts : 2 <= points HIST_SIZE (s_hist_idx (store reading_b st))
                        (s_hist_full (store reading_b st))) by discriminate.
  split; [split; [exact Hok|exact Hpts]|].
  exact (proj1 (label_shows_newest_sample reading_b st 8 24 304 60 0x001F "CPU" Hok Hpts)).
Defined.

Lemma plot_segments_last (data : list float) (idx : Z) (full : bool)
    (plotX plotY plotW plotH color : Z) (n : nat) :
  forall i prevX prevY,
    0 <= plotX <= 20000 -> 0 <= plotW <= 20000 ->
    1 <= i -> i + Z.of_nat n <= 119 ->
    exists before ax ay,
      plot_segments data HIST_SIZE idx full plotX plotY plotW plotH color (S n) i prevX prevY
      = before
        ++ [DrawLine ax ay (plotX + (i + Z.of_nat n) * plotW / 119)
              (mapValueToY (getVal data HIST_SIZE idx full (i + Z.of_nat n)) plotY plotH)
              color].
Proof.
  induction n as [|n IH]; intros i prevX prevY HX HW Hi Hn.
  - exists [], prevX, prevY. cbn [plot_segments app]. cbv zeta.
    rewrite (sample_x plotX plotW i) by lia.
    replace (i + Z.of_nat 0) with i by lia. reflexivity.
  - assert (HM : INT_MAX = 2147483647) by reflexivity.
    assert (Hm : INT_MIN = -2147483648) by reflexivity.
    assert (Ei : (i + 1)%int = i + 1) by (apply wrap_int_small; lia).
    destruct (IH (i + 1)
                (plotX + (i * plotW) / (HIST_SIZE - 1))%int
                (mapValueToY (getVal data HIST_SIZE idx full i) plotY plotH)
                HX HW ltac:(lia) ltac:(lia)) as (before & ax & ay & E).
    replace (i + 1 + Z.of_nat n) with (i + Z.of_nat (S n)) in E by lia.
    exists (DrawLine prevX prevY (plotX + (i * plotW) / (HIST_SIZE - 1))%int
              (mapValueToY (getVal data HIST_SIZE idx full i) plotY plotH) color :: before),
           ax, ay.
    change (plot_segments data HIST_SIZE idx full plotX plotY plotW plotH color
              (S (S n)) i prevX prevY)
      with (DrawLine prevX prevY (plotX + (i * plotW) / (HIST_SIZE - 1))%int
              (mapValueToY (getVal data HIST_SIZE idx full i) plotY plotH) color
            :: plot_segments data HIST_SIZE idx full plotX plotY plotW plotH color (S n)
                 (i + 1)%int (plotX + (i * plotW) / (HIST_SIZE - 1))%int
                 (mapValueToY (getVal data HIST_SIZE idx full i) plotY plotH)).
    rewrite Ei, E. reflexivity.
Qed.

Lemma ends_with_segment (a b c : list LcdCmd) (l s p : LcdCmd) :
  a ++ b ++ (c ++ [l]) ++ [s; p] = (a ++ b ++ c) ++ [l; s; p].
Proof. now rewrite <- !app_assoc. Qed.

(** X27.  When the history is full the chart spans the width of its plot
    area: the last segment ends at the right edge [x + w - 2], at the
    height of the newest of the 120 samples. *)
Theorem full_chart_spans_plot_width (x y w h : Z) (data : list float) (idx color : Z)
    (title : string) :
  0 <= x <= 10000 -> 4 <= w <= 10000 ->
  exists before ax ay,
    drawLineChartArea x y w h data HIST_SIZE idx true color title
    = before
      ++ [DrawLine ax ay (x + w - 2)
            (mapValueToY (getVal data HIST_SIZE idx true 119) (y + 15)%int (h - 20)%int)
            color;
          SetCursor (x + w - 40)%int (y + 2)%int;
          PrintfPct (getVal data HIST_SIZE idx true 119)].
Proof.
  intros Hx Hw.
  assert (HM : INT_MAX = 2147483647) by reflexivity.
  assert (Hm : INT_MIN = -2147483648) by reflexivity.
  assert (EX : (x + 2)%int = x + 2) by (apply wrap_int_small; lia).
  assert (EW : (w - 4)%int = w - 4) by (apply wrap_int_small; lia).
  unfold drawLineChartArea. cbv zeta.
  change (points HIST_SIZE idx true) with 120.
  change (120 <=? 1) with false. cbv iota.
  change (Z.to_nat (120 - 1)) with (S 118).
  change (120 - 1)%int with 119.
  destruct (plot_segments_last data idx true (x + 2)%int (y + 15)%int (w - 4)%int
              (h - 20)%int color 118 1 (x + 2)%int
              (mapValueToY (getVal data HIST_SIZE idx true 0) (y + 15)%int (h - 20)%int)
              ltac:(rewrite EX; lia) ltac:(rewrite EW; lia) ltac:(lia) ltac:(lia))
    as (before & ax & ay & E).
  rewrite E. change (1 + Z.of_nat 118) with 119.
  rewrite EX, EW.
  replace (x + 2 + 119 * (w - 4) / 119) with (x + w - 2)
    by (rewrite Z.mul_comm, Z.div_mul by lia; lia).
  exists (chart_frame x y w h title ++ [DrawPixel (x + 2) (mapValueToY (getVal data HIST_SIZE idx true 0) (y + 15)%int (h - 20)%int) color] ++ before), ax, ay.
  apply ends_with_segment.
Qed.

Lemma full_chart_spans_plot_width_witness :
  (0 <= 8 <= 10000 /\ 4 <= 304 <= 10000)
  /\ exists before ax ay,
       drawLineChartArea 8 24 304 60 (replicate 120 (F32.of_int 50)) HIST_SIZE 7 true
         0x001F "CPU"
       = before
         ++ [DrawLine ax ay (8 + 304 - 2)
               (mapValueToY (getVal (replicate 120 (F32.of_int 50)) HIST_SIZE 7 true 119)
                  (24 + 15)%int (60 - 20)%int) 0x001F;
             SetCursor (8 + 304 - 40)%int (24 + 2)%int;
             PrintfPct (getVal (replicate 120 (F32.of_int 50)) HIST_SIZE 7 true 119)].
Proof.
  assert (H1 : 0 <= 8 <= 10000) by lia.
  assert (H2 : 4 <= 304 <= 10000) by lia.
  split; [split; assumption|].
  exact (full_chart_spans_plot_width 8 24 304 60 (replicate 120 (F32.of_int 50)) 7 0x001F
           "CPU" H1 H2).
Defined.
